(** * TrendSearch: the pickle-to-binary embedding converters

    A shallow embedding of the two chunked exporters of the repository,

    - [convert_to_binary_chunks] of
      [attached_assets/convert_vector_database_1761128315212.py], and
    - [main] of [scripts/convert-pickle-to-binary.py],

    over a small model of the Python runtime they use: integers as [Z],
    list slicing and indexing, [str.format], [os.path.join], a file store
    keyed by path, exceptions, and numpy's two-dimensional arrays. *)

From Stdlib Require Import ZArith Lia Ascii String DecimalString DecimalN.
From stdpp Require Import base option list gmap strings.

Local Open Scope Z_scope.

(** ** The Python runtime *)

Module Py.

(** Exceptions the scripts can raise.  [FileNotFoundError],
    [FileExistsError] and [NotADirectoryError] are the subclasses of
    [OSError] the scripts meet by name; [OSError] stands for any other
    refusal of the operating system (permissions, disk full); [Other] is any
    further class [pickle.load] may raise. *)
Inductive exn :=
  | FileNotFoundError
  | FileExistsError
  | NotADirectoryError
  | EOFError
  | UnpicklingError
  | KeyError (key : string)
  | ValueError
  | ZeroDivisionError
  | IndexError
  | OSError
  | Other (class : string).

Inductive result (A : Type) :=
  | Ok (a : A)
  | Raise (e : exn).
Arguments Ok {A} a.
Arguments Raise {A} e.

(** What the operating system does to the next file opened for writing:
    nothing special, a refused [open] (permissions), or a [write] that stops
    after [n] bytes (disk full). *)
Inductive fault :=
  | NoFault
  | OpenFails
  | WriteFails (n : nat).

(** The world a script runs in: the regular files on disk (path to
    contents), the faults the operating system will inject into the coming
    writes, in order, the wall clock as [np.datetime64('now').astype(str)]
    prints it, and the directories the operating system refuses to create
    (permissions, read-only file system). *)
Record world := World {
  files : gmap string (list Z);
  faults : list fault;
  clock : string;
  refused : list string
}.

(** Computations: state passing over the world, with exceptions.  The world
    reached when an exception is raised is kept: nothing is rolled back. *)
Definition M (A : Type) : Type := world → result A * world.

Definition ret {A} (a : A) : M A := λ w, (Ok a, w).

Definition raise {A} (e : exn) : M A := λ w, (Raise e, w).

Definition bind {A B} (c : M A) (k : A → M B) : M B := λ w,
  match c w with
  | (Ok a, w') => k a w'
  | (Raise e, w') => (Raise e, w')
  end.

#[global] Instance M_ret : MRet M := @ret.
#[global] Instance M_bind : MBind M := λ A B k c, bind c k.

(** [for x in xs: acc = body x acc] *)
Fixpoint for_each {A S} (xs : list A) (acc : S) (body : A → S → M S) : M S :=
  match xs with
  | [] => mret acc
  | x :: xs' => acc' ← body x acc; for_each xs' acc' body
  end.

(** *** Integers, lists, strings *)

Definition len {A} (l : list A) : Z := Z.of_nat (length l).

(** [range(n)] *)
Definition range (n : Z) : list Z := seqZ 0 n.

(** [a // b]: floor division, [ZeroDivisionError] on a zero divisor. *)
Definition floordiv (a b : Z) : M Z :=
  if decide (b = 0) then raise ZeroDivisionError else mret (a / b).

(** How a slice bound is clamped against a sequence of length [n]. *)
Definition slice_index (n i : Z) : Z :=
  if decide (i < 0) then Z.max (i + n) 0 else Z.min i n.

(** [l[start:stop]] *)
Definition slice {A} (l : list A) (start stop : Z) : list A :=
  let lo := slice_index (len l) start in
  let hi := slice_index (len l) stop in
  take (Z.to_nat (hi - lo)) (drop (Z.to_nat lo) l).

(** [l[i]] *)
Definition getitem {A} (l : list A) (i : Z) : M A :=
  let j := if decide (i < 0) then i + len l else i in
  if decide (j < 0) then raise IndexError
  else match l !! Z.to_nat j with
       | Some x => mret x
       | None => raise IndexError
       end.

Definition digits (n : Z) : string :=
  NilEmpty.string_of_uint (N.to_uint (Z.to_N (Z.abs n))).

Fixpoint zeros (k : nat) : string :=
  match k with
  | O => EmptyString
  | S k' => String "0" (zeros k')
  end.

(** [f"{n:0<width>d}"]: sign, then zeros up to the minimum width, then the
    decimal digits; a number with more digits is printed in full. *)
Definition format_0d (width : nat) (n : Z) : string :=
  let sign := if decide (n < 0) then "-"%string else EmptyString in
  let d := digits n in
  sign +:+ zeros (width - String.length sign - String.length d) +:+ d.

Definition starts_with_slash (s : string) : bool :=
  match s with
  | String "/" _ => true
  | _ => false
  end.

Fixpoint ends_with_slash (s : string) : bool :=
  match s with
  | EmptyString => false
  | String c EmptyString => if decide (c = "/"%char) then true else false
  | String _ s' => ends_with_slash s'
  end.

(** [os.path.join(a, b)], also [Path(a) / b]. *)
Definition path_join (a b : string) : string :=
  if starts_with_slash b then b
  else if decide (a = EmptyString) then b
  else if ends_with_slash a then a +:+ b
  else a +:+ "/" +:+ b.

(** *** Files *)

(** [os.path.exists(p)], [Path(p).exists()] *)
Definition path_exists (p : string) : M bool := λ w,
  (Ok (bool_decide (is_Some (files w !! p))), w).

(** [with open(p, 'rb') as f: ... f.read()] *)
Definition read_file (p : string) : M (list Z) := λ w,
  match files w !! p with
  | Some bs => (Ok bs, w)
  | None => (Raise FileNotFoundError, w)
  end.

(** [with open(p, 'wb') as f: f.write(data)].  [open] creates or truncates
    the file; a failed [write] leaves the bytes that reached it. *)
Definition write_file (p : string) (data : list Z) : M unit := λ w,
  match faults w with
  | [] | NoFault :: _ =>
      (Ok (), World (<[p := data]> (files w)) (tail (faults w)) (clock w)
                (refused w))
  | OpenFails :: rest =>
      (Raise OSError, World (files w) rest (clock w) (refused w))
  | WriteFails n :: rest =>
      (Raise OSError,
       World (<[p := take n data]> (files w)) rest (clock w) (refused w))
  end.

(** A path without its trailing slashes. *)
Fixpoint strip_slashes (p : string) : string :=
  match p with
  | EmptyString => EmptyString
  | String c p' =>
      let t := strip_slashes p' in
      if decide (c = "/"%char) then
        if decide (t = EmptyString) then EmptyString else String c t
      else String c t
  end.

(** The directories above a path: its proper prefixes that end before a
    ["/"]. *)
Fixpoint parents_from (prefix rest : string) : list string :=
  match rest with
  | EmptyString => []
  | String c rest' =>
      (if decide (c = "/"%char) then [prefix] else [])
      ++ parents_from (prefix +:+ String c EmptyString) rest'
  end.

Definition parents (p : string) : list string := parents_from EmptyString p.

(** Why [os.makedirs(d, exist_ok=True)] fails, if it does: the empty path
    cannot be created; a regular file in the place of a directory above [d]
    or of [d] itself blocks it; the operating system may refuse.  The store
    holds the regular files only, keyed by full path: a directory that is
    there, or that can be created, needs no entry of its own. *)
Definition mkdir_error (d : string) (w : world) : option exn :=
  let d' := strip_slashes d in
  if decide (d = EmptyString) then Some FileNotFoundError
  else if bool_decide (Exists (λ a, is_Some (files w !! a)) (parents d'))
  then Some NotADirectoryError
  else if bool_decide (is_Some (files w !! d')) then Some FileExistsError
  else if bool_decide (d ∈ refused w) then Some OSError
  else None.

(** [os.makedirs(d, exist_ok=True)], [Path(d).mkdir(parents=True,
    exist_ok=True)] *)
Definition makedirs (d : string) : M unit := λ w,
  match mkdir_error d w with
  | Some e => (Raise e, w)
  | None => (Ok (), w)
  end.

(** [np.datetime64('now').astype(str)] *)
Definition datetime_now : M string := λ w, (Ok (clock w), w).

(** *** numpy *)

(** A two-dimensional array of shape [(len rows, ncols)]. *)
Record ndarray (T : Type) := NDArray {
  ncols : nat;
  rows : list (list T)
}.
Arguments NDArray {T} ncols rows.
Arguments ncols {T} _.
Arguments rows {T} _.

(** numpy arrays are rectangular. *)
Definition rectangular {T} (a : ndarray T) : Prop :=
  Forall (λ r, length r = ncols a) (rows a).

Definition shape {T} (a : ndarray T) : Z * Z := (len (rows a), Z.of_nat (ncols a)).

(** [a[start:stop]] slices along the first axis. *)
Definition slice_rows {T} (a : ndarray T) (start stop : Z) : ndarray T :=
  NDArray (ncols a) (slice (rows a) start stop).

(** The element type of the stored embeddings, with numpy's cast to
    [np.float32]; a float32 is represented by its 32-bit IEEE-754 pattern. *)
Class Dtype (T : Type) := {
  to_float32 : T → Z;
  to_float32_range : ∀ x, 0 ≤ to_float32 x < 2 ^ 32
}.

(** [a.astype(np.float32)] *)
Definition astype_float32 `{Dtype T} (a : ndarray T) : ndarray Z :=
  NDArray (ncols a) ((λ row : list T, to_float32 <$> row) <$> rows a).

(** The four bytes of a float32, least significant first. *)
Definition f32_bytes (w : Z) : list Z :=
  [Z.land w 255;
   Z.land (Z.shiftr w 8) 255;
   Z.land (Z.shiftr w 16) 255;
   Z.land (Z.shiftr w 24) 255].

(** [a.tobytes()] of a float32 array: C order, row after row. *)
Definition tobytes (a : ndarray Z) : list Z :=
  flat_map (flat_map f32_bytes) (rows a).

(** *** The pickled container *)

(** The unpickled [dict]: the two keys the scripts read may be absent. *)
Record database (T : Type) := Database {
  db_keywords : option (list string);
  db_embeddings : option (ndarray T)
}.
Arguments Database {T} db_keywords db_embeddings.
Arguments db_keywords {T} _.
Arguments db_embeddings {T} _.

(** [d['keywords']], [d['embeddings']] *)
Definition get_keywords {T} (d : database T) : M (list string) :=
  match db_keywords d with
  | Some ks => mret ks
  | None => raise (KeyError "keywords")
  end.

Definition get_embeddings {T} (d : database T) : M (ndarray T) :=
  match db_embeddings d with
  | Some a => mret a
  | None => raise (KeyError "embeddings")
  end.

(** [pickle.load(f)], given the decoder of the pickle format: the object,
    or the exception [pickle.load] raises on these bytes ([UnpicklingError],
    [EOFError] on an empty file, [ValueError] on an unsupported protocol,
    and others). *)
Definition unpickle {T} (pickle_loads : list Z → result (database T))
    (bs : list Z) : M (database T) :=
  match pickle_loads bs with
  | Ok d => mret d
  | Raise e => raise e
  end.

End Py.

Import Py.

(** ** attached_assets/convert_vector_database_1761128315212.py *)

Module ConvertVectorDatabase.

(** One entry of [chunk_metadata["chunks"]]. *)
Record chunk_info := ChunkInfo {
  chunk_id : Z;
  filename : string;
  start_index : Z;
  end_index : Z;
  keyword_count : Z;
  keywords : list string
}.

(** The dictionary dumped to [metadata.json]. *)
Record metadata := Metadata {
  version : string;
  total_keywords : Z;
  embedding_dimension : Z;
  chunk_size : Z;
  num_chunks : Z;
  chunks : list chunk_info
}.

(** [chunk_metadata["chunks"].append(chunk_info)] *)
Definition append_chunk (m : metadata) (c : chunk_info) : metadata :=
  Metadata (version m) (total_keywords m) (embedding_dimension m)
    (chunk_size m) (num_chunks m) (chunks m ++ [c]).

Section Script.

Context {T : Type} `{!Dtype T}.
(** [pickle.load] and [json.dump(_, f, indent=2)], as byte codecs. *)
Context (pickle_loads : list Z → result (database T)).
Context (json_dumps : metadata → list Z).

(** [load_pickle_database]; the two prints read both keys. *)
Definition load_pickle_database (pickle_path : string) : M (database T) :=
  f ← read_file pickle_path;
  database ← unpickle pickle_loads f;
  _ ← get_keywords database;
  _ ← get_embeddings database;
  mret database.

(** The body of the loop of [convert_to_binary_chunks]. *)
Definition write_chunk (keywords : list string) (embeddings : ndarray T)
    (output_dir : string) (chunk_size total_keywords : Z)
    (chunk_idx : Z) (chunk_metadata : metadata) : M metadata :=
  let start_idx := chunk_idx * chunk_size in
  let end_idx := Z.min (start_idx + chunk_size) total_keywords in
  let chunk_keywords := slice keywords start_idx end_idx in
  let chunk_embeddings := slice_rows embeddings start_idx end_idx in
  let chunk_filename := ("chunk_" +:+ format_0d 2 chunk_idx +:+ ".bin")%string in
  let chunk_path := path_join output_dir chunk_filename in
  write_file chunk_path (tobytes (astype_float32 chunk_embeddings));;
  let chunk_info :=
    {| chunk_id := chunk_idx;
       filename := chunk_filename;
       start_index := start_idx;
       end_index := end_idx;
       keyword_count := len chunk_keywords;
       keywords := chunk_keywords |} in
  mret (append_chunk chunk_metadata chunk_info).

Definition convert_to_binary_chunks (database : database T)
    (output_dir : string) (chunk_size : Z) : M unit :=
  makedirs output_dir;;
  keywords ← get_keywords database;
  embeddings ← get_embeddings database;
  let total_keywords := len keywords in
  num_chunks ← floordiv (total_keywords + chunk_size - 1) chunk_size;
  let chunk_metadata :=
    {| version := "1.0.0";
       total_keywords := total_keywords;
       embedding_dimension := (shape embeddings).2;
       chunk_size := chunk_size;
       num_chunks := num_chunks;
       chunks := [] |} in
  chunk_metadata ← for_each (range num_chunks) chunk_metadata
    (write_chunk keywords embeddings output_dir chunk_size total_keywords);
  let metadata_path := path_join output_dir "metadata.json" in
  write_file metadata_path (json_dumps chunk_metadata).


End Script.

(** The default [chunk_size] of [convert_to_binary_chunks]. *)
Definition default_chunk_size : Z := 8000.

(** Where [write_chunk] writes chunk [i], and where the metadata goes. *)
Definition chunk_path (output_dir : string) (i : Z) : string :=
  path_join output_dir ("chunk_" +:+ format_0d 2 i +:+ ".bin").

Definition metadata_path (output_dir : string) : string :=
  path_join output_dir "metadata.json".

(** The record [write_chunk] appends for chunk [i]. *)
Definition chunk_info_at (keywords : list string) (chunk_size i : Z) : chunk_info :=
  let start_idx := i * chunk_size in
  let end_idx := Z.min (start_idx + chunk_size) (len keywords) in
  {| chunk_id := i;
     filename := ("chunk_" +:+ format_0d 2 i +:+ ".bin")%string;
     start_index := start_idx;
     end_index := end_idx;
     keyword_count := len (slice keywords start_idx end_idx);
     keywords := slice keywords start_idx end_idx |}.

(** The bytes [write_chunk] writes for chunk [i]. *)
Definition chunk_bytes {T : Type} `{!Dtype T} (embeddings : ndarray T)
    (chunk_size total_keywords i : Z) : list Z :=
  tobytes (astype_float32
    (slice_rows embeddings (i * chunk_size)
       (Z.min (i * chunk_size + chunk_size) total_keywords))).

(** The dictionary [convert_to_binary_chunks] dumps once the loop is over. *)
Definition manifest {T : Type} (keywords : list string) (embeddings : ndarray T)
    (chunk_size : Z) : metadata :=
  let num_chunks := (len keywords + chunk_size - 1) / chunk_size in
  {| version := "1.0.0";
     total_keywords := len keywords;
     embedding_dimension := (shape embeddings).2;
     chunk_size := chunk_size;
     num_chunks := num_chunks;
     chunks := chunk_info_at keywords chunk_size <$> range num_chunks |}.

End ConvertVectorDatabase.

(** ** scripts/convert-pickle-to-binary.py *)

Module ConvertPickleToBinary.

Definition CHUNK_SIZE : Z := 2000.
Definition EMBEDDING_DIM : Z := 384.

(** One entry of [keyword_index]. *)
Record keyword_entry := KeywordEntry {
  keyword : string;
  entry_chunk_id : Z;
  local_index : Z
}.

(** One entry of [chunks]. *)
Record chunk_record := ChunkRecord {
  chunk_id : Z;
  start_index : Z;
  end_index : Z;
  keyword_count : Z;
  file_path : string
}.

(** The dictionary dumped to [data/embeddings_metadata.json]. *)
Record metadata := Metadata {
  version : string;
  created_at : string;
  total_keywords : Z;
  embedding_dimensions : Z;
  chunk_size : Z;
  chunks : list chunk_record;
  keywords : list keyword_entry
}.

Definition pickle_path : string := "new_keywords/vector_database.pkl".
Definition embeddings_dir : string := "data/embeddings_chunks".
Definition metadata_path : string := "data/embeddings_metadata.json".

Section Script.

Context {T : Type} `{!Dtype T}.
Context (pickle_loads : list Z → result (database T)).
Context (json_dumps : metadata → list Z).

(** The constants of the module, as the variables [main] reads. *)
Context (CHUNK_SIZE EMBEDDING_DIM : Z).

(** Step 1 of [main]: load the pickle and verify the shape. *)
Definition load : M (ndarray T * list string) :=
  found ← path_exists pickle_path;
  if negb found then raise FileNotFoundError
  else
    f ← read_file pickle_path;
    data ← unpickle pickle_loads f;
    embeddings ← get_embeddings data;
    keywords ← get_keywords data;
    let total_keywords := len keywords in
    if negb (bool_decide (shape embeddings = (total_keywords, EMBEDDING_DIM)))
    then raise ValueError
    else mret (embeddings, keywords).

(** The inner loop: one index entry per keyword of the chunk. *)
Definition index_keyword (keywords : list string) (start_index chunk_id : Z)
    (i : Z) (keyword_index : list keyword_entry) : M (list keyword_entry) :=
  kw ← getitem keywords (start_index + i);
  mret (keyword_index ++
        [{| keyword := kw; entry_chunk_id := chunk_id; local_index := i |}]).

(** The body of the loop over the chunks. *)
Definition write_chunk (keywords : list string) (embeddings : ndarray T)
    (total_keywords : Z) (chunk_id : Z)
    (acc : list chunk_record * list keyword_entry)
    : M (list chunk_record * list keyword_entry) :=
  let '(chunks, keyword_index) := acc in
  let start_index := chunk_id * CHUNK_SIZE in
  let end_index := Z.min (start_index + CHUNK_SIZE) total_keywords in
  let chunk_keyword_count := end_index - start_index in
  let chunk_embeddings := astype_float32 (slice_rows embeddings start_index end_index) in
  let chunk_filename := ("chunk_" +:+ format_0d 3 chunk_id +:+ ".bin")%string in
  let chunk_path := path_join embeddings_dir chunk_filename in
  write_file chunk_path (tobytes chunk_embeddings);;
  keyword_index ← for_each (range chunk_keyword_count) keyword_index
    (index_keyword keywords start_index chunk_id);
  mret (chunks ++
        [{| chunk_id := chunk_id;
            start_index := start_index;
            end_index := end_index - 1;
            keyword_count := chunk_keyword_count;
            file_path := chunk_filename |}],
        keyword_index).

(** Steps 2 and 3 of [main]: split into chunks, save the metadata. *)
Definition export (embeddings : ndarray T) (keywords : list string) : M unit :=
  let total_keywords := len keywords in
  makedirs embeddings_dir;;
  total_chunks ← floordiv (total_keywords + CHUNK_SIZE - 1) CHUNK_SIZE;
  '(chunks, keyword_index) ← for_each (range total_chunks) ([], [])
    (write_chunk keywords embeddings total_keywords);
  now ← datetime_now;
  let metadata :=
    {| version := "3.0.0";
       created_at := now;
       total_keywords := total_keywords;
       embedding_dimensions := EMBEDDING_DIM;
       chunk_size := CHUNK_SIZE;
       chunks := chunks;
       keywords := keyword_index |} in
  write_file metadata_path (json_dumps metadata).

Definition main_with : M unit :=
  '(embeddings, keywords) ← load;
  export embeddings keywords.

End Script.

(** Where [write_chunk] writes chunk [i]. *)
Definition chunk_path (i : Z) : string :=
  path_join embeddings_dir ("chunk_" +:+ format_0d 3 i +:+ ".bin").

(** The record [write_chunk] appends for chunk [i]. *)
Definition chunk_record_at (CHUNK_SIZE total_keywords i : Z) : chunk_record :=
  let start_index := i * CHUNK_SIZE in
  let end_index := Z.min (start_index + CHUNK_SIZE) total_keywords in
  {| chunk_id := i;
     start_index := start_index;
     end_index := end_index - 1;
     keyword_count := end_index - start_index;
     file_path := ("chunk_" +:+ format_0d 3 i +:+ ".bin")%string |}.

(** The index entries the inner loop appends for chunk [i]. *)
Definition index_block (keywords : list string) (CHUNK_SIZE i : Z)
    : list keyword_entry :=
  let start_index := i * CHUNK_SIZE in
  let end_index := Z.min (start_index + CHUNK_SIZE) (len keywords) in
  (λ j, {| keyword := default EmptyString (keywords !! Z.to_nat (start_index + j));
           entry_chunk_id := i;
           local_index := j |})
  <$> range (end_index - start_index).

(** The bytes [write_chunk] writes for chunk [i]. *)
Definition chunk_bytes {T : Type} `{!Dtype T} (embeddings : ndarray T)
    (CHUNK_SIZE total_keywords i : Z) : list Z :=
  tobytes (astype_float32
    (slice_rows embeddings (i * CHUNK_SIZE)
       (Z.min (i * CHUNK_SIZE + CHUNK_SIZE) total_keywords))).

(** The dictionary [main] dumps once the loop is over, at time [now]. *)
Definition manifest (keywords : list string) (CHUNK_SIZE EMBEDDING_DIM : Z)
    (now : string) : metadata :=
  let total_chunks := (len keywords + CHUNK_SIZE - 1) / CHUNK_SIZE in
  {| version := "3.0.0";
     created_at := now;
     total_keywords := len keywords;
     embedding_dimensions := EMBEDDING_DIM;
     chunk_size := CHUNK_SIZE;
     chunks := chunk_record_at CHUNK_SIZE (len keywords) <$> range total_chunks;
     keywords := concat (index_block keywords CHUNK_SIZE <$> range total_chunks) |}.

(** [main], at the constants of the module. *)
Definition main {T : Type} `{!Dtype T}
    (pickle_loads : list Z → result (database T))
    (json_dumps : metadata → list Z) : M unit :=
  main_with pickle_loads json_dumps CHUNK_SIZE EMBEDDING_DIM.

End ConvertPickleToBinary.

(** ** attached_assets/convert_vector_database_1761128315212.py: the
    other formats and [main] *)

Module VectorDatabaseFormats.

(** [pickle.load(f)], for a decoder of any container type. *)
Definition unpickle_with {C : Type} (pickle_loads : list Z → result C)
    (bs : list Z) : M C :=
  match pickle_loads bs with
  | Ok d => mret d
  | Raise e => raise e
  end.

(** The unpickled [dict] with its third key: [keywords_df], a pandas
    [DataFrame], next to the two keys of [database]. *)
Record container (T DF : Type) := Container {
  dict : database T;
  db_keywords_df : option DF
}.
Arguments Container {T DF} dict db_keywords_df.
Arguments dict {T DF} _.
Arguments db_keywords_df {T DF} _.

(** [d['keywords_df']] *)
Definition get_keywords_df {T DF} (d : container T DF) : M DF :=
  match db_keywords_df d with
  | Some df => mret df
  | None => raise (KeyError "keywords_df")
  end.

(** The dictionary [convert_to_json_format] dumps. *)
Record json_data (T : Type) := JsonData {
  keywords : list string;
  embeddings : list (list T);
  version : string;
  total_keywords : Z;
  embedding_dimension : Z
}.
Arguments JsonData {T} keywords embeddings version total_keywords
  embedding_dimension.
Arguments keywords {T} _.
Arguments embeddings {T} _.
Arguments version {T} _.
Arguments total_keywords {T} _.
Arguments embedding_dimension {T} _.

(** The dictionary [convert_to_csv_and_binary] dumps. *)
Record csv_metadata := CsvMetadata {
  csv_version : string;
  csv_total_keywords : Z;
  csv_embedding_dimension : Z;
  keywords_file : string;
  embeddings_file : string
}.

Definition pickle_path : string :=
  "/home/valentin/Home/Pioneers/InnovationMachine/vector_database.pkl".

Section Script.

Context {T DF : Type} `{!Dtype T}.
(** [pickle.load], [json.dump] of the three dictionaries,
    [DataFrame.to_csv(index=False)] and [np.save], as byte codecs. *)
Context (pickle_loads : list Z → result (container T DF)).
Context (json_dumps_chunks : ConvertVectorDatabase.metadata → list Z).
Context (json_dumps_data : json_data T → list Z).
Context (json_dumps_csv : csv_metadata → list Z).
Context (to_csv : DF → list Z).
Context (np_save : ndarray T → list Z).

(** [load_pickle_database], on the container with all its keys. *)
Definition load_pickle_database (pickle_path : string) : M (container T DF) :=
  f ← read_file pickle_path;
  database ← unpickle_with pickle_loads f;
  _ ← get_keywords (dict database);
  _ ← get_embeddings (dict database);
  mret database.

(** [convert_to_json_format]; [tolist] gives the rows as nested lists. *)
Definition convert_to_json_format (database : database T)
    (output_path : string) : M unit :=
  embeddings ← get_embeddings database;
  let embeddings_list := rows embeddings in
  keywords ← get_keywords database;
  let json_data :=
    {| keywords := keywords;
       embeddings := embeddings_list;
       version := "1.0.0";
       total_keywords := len keywords;
       embedding_dimension := (shape embeddings).2 |} in
  write_file output_path (json_dumps_data json_data).

(** [convert_to_csv_and_binary] *)
Definition convert_to_csv_and_binary (database : container T DF)
    (output_dir : string) : M unit :=
  makedirs output_dir;;
  keywords_df ← get_keywords_df database;
  let csv_path := path_join output_dir "keywords.csv" in
  write_file csv_path (to_csv keywords_df);;
  let embeddings_path := path_join output_dir "embeddings.npy" in
  embeddings ← get_embeddings (dict database);
  write_file embeddings_path (np_save embeddings);;
  keywords ← get_keywords (dict database);
  embeddings ← get_embeddings (dict database);
  let metadata :=
    {| csv_version := "1.0.0";
       csv_total_keywords := len keywords;
       csv_embedding_dimension := (shape embeddings).2;
       keywords_file := "keywords.csv";
       embeddings_file := "embeddings.npy" |} in
  let metadata_path := path_join output_dir "metadata.json" in
  write_file metadata_path (json_dumps_csv metadata).

(** [main]: a missing pickle is reported and [main] returns. *)
Definition main : M unit :=
  found ← path_exists pickle_path;
  if negb found then mret ()
  else
    database ← load_pickle_database pickle_path;
    ConvertVectorDatabase.convert_to_binary_chunks json_dumps_chunks
      (dict database) "vector_database_chunks"
      ConvertVectorDatabase.default_chunk_size;;
    convert_to_json_format (dict database) "vector_database.json";;
    convert_to_csv_and_binary database "vector_database_csv_binary".

End Script.

End VectorDatabaseFormats.

(** ** scripts/data/load-embeddings-temp.py *)

Module LoadEmbeddingsTemp.

Definition pickle_path : string := "new_keywords/vector_database.pkl".
Definition output_path : string := "new_keywords/embeddings.bin".

(** The script, top to bottom. *)
Definition script {T : Type} `{!Dtype T}
    (pickle_loads : list Z → result (database T)) : M unit :=
  f ← read_file pickle_path;
  data ← unpickle pickle_loads f;
  embeddings ← get_embeddings data;
  let embeddings_bytes := tobytes (astype_float32 embeddings) in
  write_file output_path embeddings_bytes.

End LoadEmbeddingsTemp.

(** ** scripts/data/extract-pickle-temp.py *)

Module ExtractPickleTemp.

Definition pickle_path : string := "new_keywords/vector_database.pkl".
Definition output_path : string := "new_keywords/keywords_list.json".

(** The script, top to bottom; [json_dumps] is [json.dump] of a list of
    strings. *)
Definition script {T : Type}
    (pickle_loads : list Z → result (database T))
    (json_dumps : list string → list Z) : M unit :=
  f ← read_file pickle_path;
  data ← unpickle pickle_loads f;
  embeddings ← get_embeddings data;
  keywords ← get_keywords data;
  let embeddings_list := rows embeddings in
  write_file output_path (json_dumps keywords).

End ExtractPickleTemp.

(** ** scripts/convert-pickle-to-binary.py: the sizes [main] reports *)

Module PickleToBinaryReport.

(** [Path(p).stat().st_size] *)
Definition stat_size (p : string) : M Z := λ w,
  match files w !! p with
  | Some bs => (Ok (len bs), w)
  | None => (Raise FileNotFoundError, w)
  end.

(** [sum((embeddings_dir / chunk['file_path']).stat().st_size
        for chunk in chunks)] *)
Definition total_size (chunks : list ConvertPickleToBinary.chunk_record)
    : M Z :=
  for_each chunks 0 (λ chunk acc,
    size ← stat_size (path_join ConvertPickleToBinary.embeddings_dir
                        (ConvertPickleToBinary.file_path chunk));
    mret (acc + size)).

End PickleToBinaryReport.

(** ** Vocabulary of the statements *)

(** [ceil(n / d)] for a positive [d]. *)
Definition ceil_div (n d : Z) : Z :=
  n / d + (if decide (n mod d = 0) then 0 else 1).

Definition sumZ (l : list Z) : Z := foldr Z.add 0 l.

(** The operating system injects no fault. *)
Definition quiet (w : world) : Prop := Forall (λ f, f = NoFault) (faults w).

(** The directory [d] is there or can be created:
    [os.makedirs(d, exist_ok=True)] returns. *)
Definition can_makedirs (w : world) (d : string) : Prop :=
  mkdir_error d w = None.

(** No fault among the next [n] writes. *)
Definition benign (n : nat) (w : world) : Prop :=
  Forall (λ f, f = NoFault) (take n (faults w)).

(** Reading a zero-padded decimal back. *)
Definition parse_decimal (s : string) : option N :=
  N.of_uint <$> NilEmpty.uint_of_string s.

(** What [os.path.join] puts in front of a relative name. *)
Definition dir_prefix (a : string) : string :=
  if decide (a = EmptyString) then EmptyString
  else if ends_with_slash a then a
  else a +:+ "/".

(** The run of [c] from [w] completes. *)
Definition completes (c : M unit) (w : world) : Prop := ∃ w', c w = (Ok (), w').

(** Byte [k] of the little-endian encoding of the 32-bit pattern [x]. *)
Definition le_byte (x : Z) (k : Z) : Z := (x / 2 ^ (8 * k)) mod 256.

(** Modelled from the spec: the reader of the round-trip contract, which the
    repository does not contain.  A chunk file is decoded as consecutive
    4-byte little-endian float32 values, grouped into rows of [D]; the rows
    of all chunk files, read in the given order, are concatenated. *)
Fixpoint frombuffer_f32 (bs : list Z) : list Z :=
  match bs with
  | b0 :: b1 :: b2 :: b3 :: rest =>
      (b0 + 2 ^ 8 * b1 + 2 ^ 16 * b2 + 2 ^ 24 * b3) :: frombuffer_f32 rest
  | _ => []
  end.

Definition reshape_rows (D : nat) (xs : list Z) : list (list Z) :=
  (λ i, take D (drop (i * D) xs)) <$> seq 0 (length xs `div` D)%nat.

Definition read_chunk (fs : gmap string (list Z)) (D : nat) (path : string)
    : option (list (list Z)) :=
  bs ← fs !! path; Some (reshape_rows D (frombuffer_f32 bs)).

Definition read_chunks (fs : gmap string (list Z)) (D : nat)
    (paths : list string) : option (list (list Z)) :=
  rowss ← mapM (read_chunk fs D) paths; Some (concat rowss).

(** The path of a chunk file of [convert_to_binary_chunks]. *)
Definition chunk_path_A (output_dir : string)
    (c : ConvertVectorDatabase.chunk_info) : string :=
  path_join output_dir (ConvertVectorDatabase.filename c).

(** The path of a chunk file of [scripts/convert-pickle-to-binary.py]. *)
Definition chunk_path_B (c : ConvertPickleToBinary.chunk_record) : string :=
  path_join ConvertPickleToBinary.embeddings_dir (ConvertPickleToBinary.file_path c).

(** A manifest of the script with its timestamp blanked. *)
Definition without_created_at (m : ConvertPickleToBinary.metadata)
    : ConvertPickleToBinary.metadata :=
  ConvertPickleToBinary.Metadata
    (ConvertPickleToBinary.version m) EmptyString
    (ConvertPickleToBinary.total_keywords m)
    (ConvertPickleToBinary.embedding_dimensions m)
    (ConvertPickleToBinary.chunk_size m)
    (ConvertPickleToBinary.chunks m)
    (ConvertPickleToBinary.keywords m).

(** What the counting properties of the spec say of the sizes
    [counts] of the chunks of [N] keywords cut every [cs]. *)
Definition tiles (N cs : Z) (counts : list Z) : Prop :=
  len counts = ceil_div N cs ∧
  sumZ counts = N ∧
  (N = 0 → counts = []) ∧
  (N mod cs = 0 → Forall (λ c, c = cs) counts) ∧
  (∀ k, 0 ≤ k → N = k * cs + 1 → last counts = Some 1).

(** The index entries of one chunk record, in local order. *)
Definition entries_of (keywords : list string)
    (c : ConvertPickleToBinary.chunk_record)
    : list ConvertPickleToBinary.keyword_entry :=
  (λ j, ConvertPickleToBinary.KeywordEntry
          (default EmptyString
             (keywords !! Z.to_nat (ConvertPickleToBinary.start_index c + j)))
          (ConvertPickleToBinary.chunk_id c) j)
  <$> range (ConvertPickleToBinary.keyword_count c).

(** ** Concrete inputs for the examples *)

Module Sample.

(** Embeddings stored as integers, cast by wrapping to 32 bits. *)
Definition wrap32 : Dtype Z :=
  {| to_float32 := λ x, x mod 2 ^ 32;
     to_float32_range := λ x, Z.mod_pos_bound x (2 ^ 32) eq_refl |}.

(** The scenario of the spec: three keywords, dimension 2. *)
Definition keywords : list string := ["a"; "b"; "c"]%string.
Definition embeddings : ndarray Z := NDArray 2 [[1; 2]; [3; 4]; [5; 6]].
Definition db : database Z := Database (Some keywords) (Some embeddings).

(** A toy pickle codec: one byte string decodes to [db]; the empty file
    is refused with [EOFError], any other with [UnpicklingError]. *)
Definition pickle : list Z := [128; 4; 46].
Definition pickle_error (bs : list Z) : exn :=
  if decide (bs = []) then EOFError else UnpicklingError.
Definition pickle_loads (bs : list Z) : result (database Z) :=
  if decide (bs = pickle) then Ok db else Raise (pickle_error bs).

(** Toy JSON codecs: the numbers of the chunk records, in order. *)
Definition dumps_A (m : ConvertVectorDatabase.metadata) : list Z :=
  flat_map (λ c, [ConvertVectorDatabase.chunk_id c;
                  ConvertVectorDatabase.start_index c;
                  ConvertVectorDatabase.end_index c;
                  ConvertVectorDatabase.keyword_count c])
    (ConvertVectorDatabase.chunks m).

Definition dumps_B (m : ConvertPickleToBinary.metadata) : list Z :=
  flat_map (λ c, [ConvertPickleToBinary.chunk_id c;
                  ConvertPickleToBinary.start_index c;
                  ConvertPickleToBinary.end_index c;
                  ConvertPickleToBinary.keyword_count c])
    (ConvertPickleToBinary.chunks m).

(** One keyword with a 384-dimensional embedding, and its pickle. *)
Definition db_one : database Z :=
  Database (Some ["a"%string]) (Some (NDArray 384 [replicate 384 0])).
Definition pickle_one : list Z := [128; 4; 49].
Definition pickle_loads_one (bs : list Z) : result (database Z) :=
  if decide (bs = pickle_one) then Ok db_one else Raise (pickle_error bs).
Definition loaded_one : world :=
  World {[ ConvertPickleToBinary.pickle_path := pickle_one ]} []
    "2025-01-01T00:00:00" [].

(** One keyword with an embedding of dimension 0. *)
Definition embeddings_flat : ndarray Z := NDArray 0 [[]].
Definition db_flat : database Z :=
  Database (Some ["a"%string]) (Some embeddings_flat).

(** A hundred and one keywords of dimension 1. *)
Definition keywords_101 : list string := replicate 101 "k"%string.
Definition embeddings_101 : ndarray Z := NDArray 1 (replicate 101 [0]).
Definition db_101 : database Z :=
  Database (Some keywords_101) (Some embeddings_101).

(** An empty disk, and a disk that holds the pickle. *)
Definition fresh : world := World ∅ [] "2025-01-01T00:00:00" [].
Definition loaded : world :=
  World {[ ConvertPickleToBinary.pickle_path := pickle ]} []
    "2025-01-01T00:00:00" [].

(** The same pickle on another disk, at another time. *)
Definition loaded_later : world :=
  World {[ ConvertPickleToBinary.pickle_path := pickle;
           "notes.txt"%string := [104; 105] ]} []
    "2025-06-30T12:00:00" [].

(** Empty disks on which a write is going to fail. *)
Definition second_open_refused : world :=
  World ∅ [NoFault; OpenFails] "2025-01-01T00:00:00" [].

(** A disk on which a regular file holds the place of the directory
    ["out"], and one on which the operating system refuses to create it. *)
Definition out_is_a_file : world :=
  World {[ "out"%string := [120] ]} [] "2025-01-01T00:00:00" [].
Definition out_refused : world :=
  World ∅ [] "2025-01-01T00:00:00" ["out"%string].

(** The directory an earlier run of the spec's scenario left behind, with
    the disk now full three bytes into the next write. *)
Definition rerun_disk_full : world :=
  World {[ "out/chunk_00.bin"%string
             := [1; 0; 0; 0; 2; 0; 0; 0; 3; 0; 0; 0; 4; 0; 0; 0];
           "out/chunk_01.bin"%string := [5; 0; 0; 0; 6; 0; 0; 0];
           "out/metadata.json"%string := [0; 0; 2; 2; 1; 2; 3; 1] ]}
    [WriteFails 3] "2025-01-02T00:00:00" [].

End Sample.

(** Nothing is stored under [dir] yet. *)
Definition fresh_dir (w : world) (dir : string) : Prop :=
  ∀ name, files w !! path_join dir name = None.

(** ** More concrete inputs *)

Module Sample2.

(** A pickle codec whose container has the matrix of the spec's scenario
    and no [keywords]. *)
Definition pickle_loads_bare (bs : list Z) : result (database Z) :=
  if decide (bs = Sample.pickle) then
    Ok (Database None (Some Sample.embeddings))
  else Raise (Sample.pickle_error bs).

(** A toy JSON codec for a list of strings: their lengths. *)
Definition dumps_keywords (ks : list string) : list Z :=
  (λ k, Z.of_nat (String.length k)) <$> ks.

End Sample2.

(** ** What the exporters of [convert_vector_database] leave behind *)

Module FormatsOutput.

(** The two directories and the file [main] passes to the exporters. *)
Definition chunks_dir : string := "vector_database_chunks".
Definition json_path : string := "vector_database.json".
Definition csv_dir : string := "vector_database_csv_binary".

(** The three files of [convert_to_csv_and_binary]. *)
Definition csv_path (output_dir : string) : string :=
  path_join output_dir "keywords.csv".
Definition npy_path (output_dir : string) : string :=
  path_join output_dir "embeddings.npy".
Definition metadata_path (output_dir : string) : string :=
  path_join output_dir "metadata.json".

(** The dictionary [convert_to_json_format] dumps. *)
Definition json_data_of {T : Type} (keywords : list string)
    (embeddings : ndarray T) : VectorDatabaseFormats.json_data T :=
  {| VectorDatabaseFormats.keywords := keywords;
     VectorDatabaseFormats.embeddings := rows embeddings;
     VectorDatabaseFormats.version := "1.0.0";
     VectorDatabaseFormats.total_keywords := len keywords;
     VectorDatabaseFormats.embedding_dimension := (shape embeddings).2 |}.

(** The dictionary [convert_to_csv_and_binary] dumps. *)
Definition csv_metadata_of {T : Type} (keywords : list string)
    (embeddings : ndarray T) : VectorDatabaseFormats.csv_metadata :=
  {| VectorDatabaseFormats.csv_version := "1.0.0";
     VectorDatabaseFormats.csv_total_keywords := len keywords;
     VectorDatabaseFormats.csv_embedding_dimension := (shape embeddings).2;
     VectorDatabaseFormats.keywords_file := "keywords.csv";
     VectorDatabaseFormats.embeddings_file := "embeddings.npy" |}.

End FormatsOutput.

(** Concrete inputs for the three exporters. *)
Module SampleFormats.

(** A toy data frame, its lines; the container of the spec's scenario with
    and without it. *)
Definition keywords_df : list string := ["keyword"; "a"; "b"; "c"]%string.
Definition container : VectorDatabaseFormats.container Z (list string) :=
  VectorDatabaseFormats.Container Sample.db (Some keywords_df).
Definition container_bare : VectorDatabaseFormats.container Z (list string) :=
  VectorDatabaseFormats.Container Sample.db None.

Definition pickle_loads (bs : list Z)
    : result (VectorDatabaseFormats.container Z (list string)) :=
  if decide (bs = Sample.pickle) then Ok container
  else Raise (Sample.pickle_error bs).
Definition pickle_loads_bare (bs : list Z)
    : result (VectorDatabaseFormats.container Z (list string)) :=
  if decide (bs = Sample.pickle) then Ok container_bare
  else Raise (Sample.pickle_error bs).

(** Toy codecs. *)
Definition dumps_data (d : VectorDatabaseFormats.json_data Z) : list Z :=
  VectorDatabaseFormats.total_keywords d
  :: VectorDatabaseFormats.embedding_dimension d
  :: concat (VectorDatabaseFormats.embeddings d).
Definition dumps_csv (m : VectorDatabaseFormats.csv_metadata) : list Z :=
  [VectorDatabaseFormats.csv_total_keywords m;
   VectorDatabaseFormats.csv_embedding_dimension m].
Definition to_csv (df : list string) : list Z :=
  (λ k, Z.of_nat (String.length k)) <$> df.
Definition np_save (a : ndarray Z) : list Z :=
  Z.of_nat (ncols a) :: concat (rows a).

(** A disk that holds the pickle where [main] looks for it. *)
Definition loaded : world :=
  World {[ VectorDatabaseFormats.pickle_path := Sample.pickle ]} []
    "2025-01-01T00:00:00" [].

End SampleFormats.

(** Unfold one layer of the monad in a goal. *)
Ltac run_step := unfold mbind, M_bind, bind, mret, M_ret, ret; cbn beta iota.

(** ** Bytes *)

Section Bytes.

Lemma f32_bytes_le_byte w :
  f32_bytes w = [le_byte w 0; le_byte w 1; le_byte w 2; le_byte w 3].
Proof.
  unfold f32_bytes, le_byte.
  change 255 with (Z.ones 8).
  rewrite !Z.land_ones, !Z.shiftr_div_pow2 by lia.
  rewrite Z.div_1_r. reflexivity.
Qed.

Lemma frombuffer_f32_bytes w rest :
  0 ≤ w < 2 ^ 32 →
  frombuffer_f32 (f32_bytes w ++ rest) = w :: frombuffer_f32 rest.
Proof.
  intros Hw. rewrite f32_bytes_le_byte. unfold le_byte. simpl.
  f_equal. change (2 ^ 32) with 4294967296 in Hw.
  change (2 ^ (8 * 0)) with 1. change (2 ^ (8 * 1)) with 256.
  change (2 ^ (8 * 2)) with 65536. change (2 ^ (8 * 3)) with 16777216.
  change (2 ^ 8) with 256. change (2 ^ 16) with 65536.
  change (2 ^ 24) with 16777216.
  Z.div_mod_to_equations. lia.
Qed.

Lemma frombuffer_flat_map xs :
  Forall (λ w, 0 ≤ w < 2 ^ 32) xs →
  frombuffer_f32 (flat_map f32_bytes xs) = xs.
Proof.
  induction 1 as [|w xs Hw _ IH]; [reflexivity|].
  cbn [flat_map]. rewrite frombuffer_f32_bytes by done. by rewrite IH.
Qed.

Lemma flat_map_flat_map {A B} (f : A → list B) (ls : list (list A)) :
  flat_map (flat_map f) ls = flat_map f (concat ls).
Proof.
  induction ls as [|l ls IH]; [reflexivity|].
  cbn [flat_map concat]. by rewrite flat_map_app, IH.
Qed.

End Bytes.

(** ** Slices and the chunk grid *)

Section Slices.

Context {A : Type}.
Implicit Types l : list A.

Lemma slice_nonneg l a b :
  0 ≤ a → 0 ≤ b →
  slice l a b =
  take (Z.to_nat (Z.min b (len l)) - Z.to_nat (Z.min a (len l)))
       (drop (Z.to_nat (Z.min a (len l))) l).
Proof.
  intros Ha Hb. unfold slice, slice_index.
  repeat case_decide; try lia.
  f_equal. unfold len. lia.
Qed.

Lemma slice_inside l a b :
  0 ≤ a ≤ b → b ≤ len l →
  slice l a b = take (Z.to_nat (b - a)) (drop (Z.to_nat a) l).
Proof.
  intros Ha Hb. rewrite slice_nonneg by lia.
  rewrite !Z.min_l by lia. f_equal. lia.
Qed.

Lemma length_slice_inside l a b :
  0 ≤ a ≤ b → b ≤ len l → len (slice l a b) = b - a.
Proof.
  intros Ha Hb. rewrite slice_inside by done. unfold len in *.
  rewrite length_take, length_drop. lia.
Qed.

Lemma lookup_slice_inside l a b (j : nat) :
  0 ≤ a ≤ b → b ≤ len l → Z.of_nat j < b - a →
  slice l a b !! j = l !! (Z.to_nat a + j)%nat.
Proof.
  intros Ha Hb Hj. rewrite slice_inside by done.
  rewrite lookup_take_lt by lia. by rewrite lookup_drop.
Qed.

(** The first [k] chunks of a grid of step [cs] tile the prefix they
    cover. *)
Lemma concat_slices l cs (k : nat) :
  0 < cs →
  concat ((λ i, slice l (i * cs) (Z.min (i * cs + cs) (len l)))
          <$> seqZ 0 (Z.of_nat k))
  = take (Z.to_nat (Z.min (Z.of_nat k * cs) (len l))) l.
Proof.
  intros Hcs. induction k as [|k IH].
  - rewrite seqZ_nil by lia. rewrite Z.min_l by (unfold len; lia). reflexivity.
  - rewrite seqZ_S, fmap_app, concat_app, IH. simpl.
    rewrite app_nil_r, Z.add_0_l.
    rewrite slice_nonneg by (unfold len; lia).
    rewrite take_take_drop. f_equal. unfold len. lia.
Qed.

End Slices.

Section Grid.

Variables N cs : Z.
Hypothesis HN : 0 ≤ N.
Hypothesis Hcs : 0 < cs.

Lemma num_chunks_ceil : (N + cs - 1) / cs = ceil_div N cs.
Proof.
  unfold ceil_div. case_decide; Z.div_mod_to_equations; nia.
Qed.

Lemma ceil_div_spec : cs * (ceil_div N cs - 1) < N ∧ N ≤ cs * ceil_div N cs.
Proof.
  unfold ceil_div. pose proof (Z.div_mod N cs) as Hdm.
  pose proof (Z.mod_pos_bound N cs Hcs) as Hr. case_decide; lia.
Qed.

Lemma num_chunks_bounds :
  0 ≤ (N + cs - 1) / cs ∧
  cs * ((N + cs - 1) / cs - 1) < N ∧ N ≤ cs * ((N + cs - 1) / cs).
Proof.
  split; [apply Z.div_pos; lia|].
  pose proof (Z.div_mod (N + cs - 1) cs) as Hdm.
  pose proof (Z.mod_pos_bound (N + cs - 1) cs Hcs) as Hr.
  lia.
Qed.

Lemma chunk_inside i :
  0 ≤ i < (N + cs - 1) / cs →
  0 ≤ i * cs ∧ i * cs < Z.min (i * cs + cs) N ∧ Z.min (i * cs + cs) N ≤ N.
Proof. intros Hi. pose proof num_chunks_bounds. nia. Qed.

Lemma chunk_full i :
  N mod cs = 0 → 0 ≤ i < (N + cs - 1) / cs →
  Z.min (i * cs + cs) N - i * cs = cs.
Proof.
  intros Hm Hi. rewrite num_chunks_ceil in Hi. unfold ceil_div in Hi.
  rewrite decide_True in Hi by done.
  pose proof (Z.div_mod N cs) as Hdm. rewrite Hm in Hdm.
  assert ((i + 1) * cs ≤ (N / cs) * cs) by (apply Z.mul_le_mono_nonneg_r; lia).
  lia.
Qed.

Lemma chunk_last_one k :
  0 ≤ k → N = k * cs + 1 →
  (N + cs - 1) / cs = k + 1 ∧ Z.min (k * cs + cs) N - k * cs = 1.
Proof.
  intros Hk ->. split; [|lia].
  replace (k * cs + 1 + cs - 1) with ((k + 1) * cs) by lia.
  apply Z.div_mul. lia.
Qed.

End Grid.

(** ** File names *)

Section Names.

Lemma length_app_string (s t : string) :
  String.length (s +:+ t) = (String.length s + String.length t)%nat.
Proof. induction s as [|c s IH]; simpl; [done|by rewrite IH]. Qed.

Lemma app_string_inj_r (t s1 s2 : string) : s1 +:+ t = s2 +:+ t → s1 = s2.
Proof.
  revert s2. induction s1 as [|c s1 IH]; intros [|d s2] Heq; simpl in Heq.
  - done.
  - apply (f_equal String.length) in Heq. simpl in Heq.
    rewrite !length_app_string in Heq. simpl in Heq. lia.
  - apply (f_equal String.length) in Heq. simpl in Heq.
    rewrite !length_app_string in Heq. simpl in Heq. lia.
  - injection Heq as -> Heq. f_equal. by apply IH.
Qed.

Lemma length_zeros k : String.length (zeros k) = k.
Proof. induction k as [|k IH]; simpl; [done|by rewrite IH]. Qed.

Lemma parse_decimal_zero s : parse_decimal (String "0" s) = parse_decimal s.
Proof.
  unfold parse_decimal. simpl. by destruct (NilEmpty.uint_of_string s).
Qed.

Lemma parse_decimal_digits k n :
  0 ≤ n → parse_decimal (zeros k +:+ digits n) = Some (Z.to_N n).
Proof.
  intros Hn. induction k as [|k IH].
  - change (zeros 0 +:+ digits n) with (digits n).
    unfold parse_decimal, digits. rewrite NilEmpty.usu.
    cbn [fmap option_fmap option_map]. rewrite Unsigned.of_to. f_equal. lia.
  - change (zeros (S k) +:+ digits n) with (String "0" (zeros k +:+ digits n)).
    by rewrite parse_decimal_zero.
Qed.

Lemma format_0d_nonneg width n :
  0 ≤ n →
  format_0d width n = zeros (width - String.length (digits n)) +:+ digits n.
Proof.
  intros Hn. unfold format_0d. rewrite decide_False by lia. simpl.
  by rewrite Nat.sub_0_r.
Qed.

Lemma format_0d_inj width a b :
  0 ≤ a → 0 ≤ b → format_0d width a = format_0d width b → a = b.
Proof.
  intros Ha Hb Heq. rewrite !format_0d_nonneg in Heq by done.
  apply (f_equal parse_decimal) in Heq.
  rewrite !parse_decimal_digits in Heq by done.
  injection Heq as Heq. lia.
Qed.

Lemma length_format_0d width n :
  0 ≤ n →
  String.length (format_0d width n) = (width `max` String.length (digits n))%nat.
Proof.
  intros Hn. rewrite format_0d_nonneg by done.
  rewrite length_app_string, length_zeros. lia.
Qed.

Lemma chunk_filename_inj width a b :
  0 ≤ a → 0 ≤ b →
  "chunk_" +:+ format_0d width a +:+ ".bin"
  = "chunk_" +:+ format_0d width b +:+ ".bin" →
  a = b.
Proof.
  intros Ha Hb Heq. apply (inj (String.app "chunk_")) in Heq.
  apply app_string_inj_r in Heq. by apply (format_0d_inj width).
Qed.

Lemma app_string_assoc (s t u : string) : (s +:+ t) +:+ u = s +:+ (t +:+ u).
Proof.
  induction s as [|c s IH]; [done|].
  change (String c ((s +:+ t) +:+ u) = String c (s +:+ (t +:+ u))).
  by f_equal.
Qed.

Lemma path_join_relative a b :
  starts_with_slash b = false → path_join a b = dir_prefix a +:+ b.
Proof.
  intros Hb. unfold path_join, dir_prefix. rewrite Hb.
  case_decide; [done|]. destruct (ends_with_slash a); [done|].
  symmetry. apply app_string_assoc.
Qed.

Lemma path_join_inj a b1 b2 :
  starts_with_slash b1 = false → starts_with_slash b2 = false →
  path_join a b1 = path_join a b2 → b1 = b2.
Proof.
  intros H1 H2. rewrite !path_join_relative by done.
  apply (inj (String.app _)).
Qed.

Lemma chunk_path_inj dir width a b :
  0 ≤ a → 0 ≤ b →
  path_join dir ("chunk_" +:+ format_0d width a +:+ ".bin")
  = path_join dir ("chunk_" +:+ format_0d width b +:+ ".bin") →
  a = b.
Proof.
  intros Ha Hb Heq. apply path_join_inj in Heq; [|done..].
  by apply (chunk_filename_inj width).
Qed.

Lemma chunk_path_not_manifest dir width a :
  path_join dir ("chunk_" +:+ format_0d width a +:+ ".bin")
  ≠ path_join dir "metadata.json".
Proof.
  intros Heq. apply path_join_inj in Heq; [|done..]. discriminate.
Qed.

Lemma chunk_path_B_not_manifest a :
  path_join ConvertPickleToBinary.embeddings_dir
    ("chunk_" +:+ format_0d 3 a +:+ ".bin")
  ≠ ConvertPickleToBinary.metadata_path.
Proof.
  rewrite path_join_relative by done. discriminate.
Qed.

End Names.

(** ** Runs *)

Section Runs.

Lemma bind_run {A B} (c : M A) (k : A → M B) w :
  (c ≫= k) w =
  match c w with
  | (Ok a, w') => k a w'
  | (Raise e, w') => (Raise e, w')
  end.
Proof. reflexivity. Qed.

(** A run whose result is [Ok a], with the world it leaves. *)
Lemma run_ok {A} (c : M A) w a : (c w).1 = Ok a → c w = (Ok a, (c w).2).
Proof. destruct (c w) as [r w']. simpl. by intros ->. Qed.

Lemma quiet_benign n w : quiet w → benign n w.
Proof. apply Forall_take. Qed.

Lemma benign_S n w :
  benign (S n) w ↔
  benign 1 w ∧ Forall (λ f, f = NoFault) (take n (tail (faults w))).
Proof.
  unfold benign. destruct (faults w) as [|f fs]; simpl.
  - rewrite take_nil. split; [by split|constructor].
  - rewrite take_0. rewrite !Forall_cons. split; [intros [??]|intros [[??] ?]]; done.
Qed.

(** One write: what it leaves on disk. *)
Lemma write_file_spec p data w :
  ∃ r w', write_file p data w = (r, w') ∧
    clock w' = clock w ∧
    faults w' = tail (faults w) ∧
    (∀ q, q ≠ p → files w' !! q = files w !! q) ∧
    match r with
    | Ok _ => benign 1 w ∧ files w' !! p = Some data
    | Raise e =>
        e = OSError ∧ ¬ benign 1 w ∧
        (files w' !! p = files w !! p ∨ ∃ n, files w' !! p = Some (take n data))
    end.
Proof.
  unfold write_file, benign. destruct (faults w) as [|[| |n] rest] eqn:Hf;
    eexists _, _; (split; [reflexivity|]); simpl.
  - repeat split; [by intros; apply lookup_insert_ne|constructor|apply lookup_insert_eq].
  - rewrite take_0. repeat split; [by intros; apply lookup_insert_ne|by repeat constructor|apply lookup_insert_eq].
  - rewrite take_0. repeat split; [|by left]. by intros [[=] _]%Forall_cons_1.
  - rewrite take_0. repeat split; [by intros; apply lookup_insert_ne| |right; eexists; apply lookup_insert_eq].
    by intros [[=] _]%Forall_cons_1.
Qed.

(** [makedirs] writes nothing; it returns when the directory can be made
    and raises the error of [mkdir] otherwise. *)
Lemma makedirs_ok d w : can_makedirs w d → makedirs d w = (Ok (), w).
Proof. unfold can_makedirs, makedirs. by intros ->. Qed.

Lemma makedirs_raise d w e :
  mkdir_error d w = Some e → makedirs d w = (Raise e, w).
Proof. unfold makedirs. by intros ->. Qed.

Lemma makedirs_cases d w :
  can_makedirs w d ∨ ∃ e, mkdir_error d w = Some e.
Proof. unfold can_makedirs. destruct (mkdir_error d w); eauto. Qed.

(** The error of [mkdir] depends on the regular files at the path and
    above it, and on what the operating system refuses. *)
Lemma mkdir_error_ext d w1 w2 :
  refused w2 = refused w1 →
  (∀ p, p = strip_slashes d ∨ p ∈ parents (strip_slashes d) →
        files w2 !! p = files w1 !! p) →
  mkdir_error d w2 = mkdir_error d w1.
Proof.
  intros Href Hfiles. unfold mkdir_error. cbn zeta.
  rewrite Href, (Hfiles (strip_slashes d)) by (by left).
  rewrite (bool_decide_ext
             (Exists (λ a, is_Some (files w2 !! a)) (parents (strip_slashes d)))
             (Exists (λ a, is_Some (files w1 !! a)) (parents (strip_slashes d))));
    [done|].
  rewrite !Exists_exists.
  split; intros (a & Ha & Hs); exists a; (split; [done|]);
    [rewrite <- Hfiles by (by right)|rewrite Hfiles by (by right)]; done.
Qed.

Lemma write_file_refused p data w :
  refused (write_file p data w).2 = refused w.
Proof. unfold write_file. by destruct (faults w) as [|[| |n] rest]. Qed.

Context {S : Type}.
Context (body : Z → S → M S) (path : Z → string) (data : Z → list Z)
        (step : Z → S → S).

(** A loop whose body writes one file and updates the accumulator. *)
Lemma write_loop (all : list Z) :
  (∀ i acc w, i ∈ all →
     body i acc w = (write_file (path i) (data i) ≫= λ _, mret (step i acc)) w) →
  NoDup (path <$> all) →
  ∀ acc w, ∃ r w', for_each all acc body w = (r, w') ∧
    clock w' = clock w ∧
    (∀ p, p ∉ path <$> all → files w' !! p = files w !! p) ∧
    match r with
    | Ok acc' =>
        acc' = foldl (λ a i, step i a) acc all ∧
        benign (length all) w ∧
        faults w' = drop (length all) (faults w) ∧
        (∀ i, i ∈ all → files w' !! path i = Some (data i))
    | Raise e => e = OSError ∧ ¬ benign (length all) w
    end.
Proof.
  induction all as [|x xs IH]; intros Hbody Hnd acc w.
  - eexists _, _. split; [reflexivity|]. simpl. repeat split; try done.
    + unfold benign. by rewrite take_0.
    + intros i Hi. by apply elem_of_nil in Hi.
  - rewrite fmap_cons in Hnd. apply NoDup_cons in Hnd as [Hx Hnd].
    cbn [for_each]. rewrite bind_run, Hbody by left. rewrite bind_run.
    destruct (write_file_spec (path x) (data x) w)
      as (r1 & w1 & -> & Hc1 & Hf1 & Hfr1 & Hr1).
    destruct r1 as [[]|e].
    + destruct Hr1 as [Hb1 Hw1].
      destruct (IH (λ i a w Hi, Hbody i a w (list_elem_of_further _ _ _ Hi))
                  Hnd (step x acc) w1) as (r & w' & Hrun & Hc & Hfr & Hr).
      unfold mret, M_ret, ret. cbn beta iota.
      eexists r, w'. split; [exact Hrun|].
      split; [congruence|]. split.
      { intros p Hp. rewrite fmap_cons, not_elem_of_cons in Hp.
        destruct Hp as [Hp1 Hp2]. rewrite Hfr by done. by apply Hfr1. }
      destruct r as [acc'|e].
      * destruct Hr as (-> & Hb & Hfa & Hw).
        split; [done|]. split; [|split].
        -- simpl. apply benign_S. split; [done|]. by rewrite <- Hf1.
        -- rewrite Hfa, Hf1. destruct (faults w); simpl; [by rewrite drop_nil|done].
        -- intros i [->|Hi]%elem_of_cons; [|by apply Hw].
           rewrite Hfr by done. done.
      * destruct Hr as [-> Hb]. split; [done|]. simpl.
        rewrite benign_S. intros [_ Hb']. apply Hb. unfold benign.
        by rewrite Hf1.
    + destruct Hr1 as (-> & Hb1 & _).
      eexists _, _. split; [reflexivity|]. split; [done|]. split.
      { intros p Hp. rewrite fmap_cons, not_elem_of_cons in Hp.
        destruct Hp as [Hp _]. by apply Hfr1. }
      split; [done|]. simpl. rewrite benign_S. by intros [? _].
Qed.

Lemma write_loop_refused (all : list Z) :
  (∀ i acc w, i ∈ all →
     body i acc w = (write_file (path i) (data i) ≫= λ _, mret (step i acc)) w) →
  ∀ acc w, refused (for_each all acc body w).2 = refused w.
Proof.
  induction all as [|x xs IH]; intros Hbody acc w; [done|].
  cbn [for_each]. rewrite bind_run, Hbody by left. rewrite bind_run.
  pose proof (write_file_refused (path x) (data x) w) as Hw.
  destruct (write_file (path x) (data x) w) as [[[]|e] w1]; [|done].
  unfold mret, M_ret, ret. cbn beta iota.
  rewrite IH; [done|]. intros i a w0 Hi. apply Hbody. by right.
Qed.

End Runs.

Lemma benign_snoc n w w1 :
  faults w1 = drop n (faults w) → benign n w →
  benign 1 w1 ↔ benign (S n) w.
Proof.
  unfold benign. intros -> Hn.
  replace (S n) with (n + 1)%nat by lia.
  rewrite <- take_take_drop, Forall_app. split; [by split|by intros [_ ?]].
Qed.

Lemma not_elem_of_fmap_range (f : Z → string) n p :
  (∀ i, 0 ≤ i < n → p ≠ f i) → p ∉ f <$> range n.
Proof.
  intros Hp (i & -> & Hi)%list_elem_of_fmap. unfold range in Hi.
  apply elem_of_seqZ in Hi. apply (Hp i); [lia|done].
Qed.

Lemma not_elem_of_fmap_range_inv (f : Z → string) n p :
  p ∉ f <$> range n → ∀ i, 0 ≤ i < n → p ≠ f i.
Proof.
  intros Hp i Hi ->. apply Hp, list_elem_of_fmap. exists i.
  split; [done|]. apply elem_of_seqZ. lia.
Qed.

Lemma name_in_range (f : Z → string) n (name : string) :
  (∃ i, 0 ≤ i < n ∧ name = f i) ∨ (∀ i, 0 ≤ i < n → name ≠ f i).
Proof.
  destruct (decide (name ∈ f <$> range n)) as [Hin|Hno].
  - left. apply list_elem_of_fmap in Hin as (i & -> & Hi%elem_of_seqZ).
    exists i. split; [lia|done].
  - right. by apply not_elem_of_fmap_range_inv.
Qed.

Lemma NoDup_fmap_range (f : Z → string) n :
  (∀ i j, 0 ≤ i → 0 ≤ j → f i = f j → i = j) → NoDup (f <$> range n).
Proof.
  intros Hinj. apply NoDup_fmap_2_strong; [|apply NoDup_seqZ].
  intros i j Hi%elem_of_seqZ Hj%elem_of_seqZ. apply Hinj; lia.
Qed.

Section RunA.

Import ConvertVectorDatabase.

Context {T : Type} `{!Dtype T}.
Context (json_dumps : metadata → list Z).
Context (ks : list string) (emb : ndarray T) (dir : string) (cs : Z).

Local Abbreviation chunk_path := (ConvertVectorDatabase.chunk_path dir).
Local Abbreviation manifest_path := (ConvertVectorDatabase.metadata_path dir).

Lemma foldl_append_chunk (info : Z → chunk_info) m xs :
  foldl (λ a i, append_chunk a (info i)) m xs
  = Metadata (version m) (total_keywords m) (embedding_dimension m)
      (chunk_size m) (num_chunks m) (chunks m ++ (info <$> xs)).
Proof.
  revert m. induction xs as [|x xs IH]; intros m; simpl.
  - rewrite app_nil_r. by destruct m.
  - rewrite IH. simpl. by rewrite <- app_assoc.
Qed.

(** Every run of [convert_to_binary_chunks] on a container that has both
    keys, with a non-zero chunk size. *)
Lemma convert_run w :
  cs ≠ 0 → can_makedirs w dir →
  let n := (len ks + cs - 1) / cs in
  ∃ r w',
    convert_to_binary_chunks json_dumps (Database (Some ks) (Some emb)) dir cs w
      = (r, w') ∧
    clock w' = clock w ∧
    (∀ p, p ≠ manifest_path → (∀ i, 0 ≤ i < n → p ≠ chunk_path i) →
          files w' !! p = files w !! p) ∧
    match r with
    | Ok _ =>
        benign (S (Z.to_nat n)) w ∧
        (∀ i, 0 ≤ i < n →
              files w' !! chunk_path i = Some (chunk_bytes emb cs (len ks) i)) ∧
        files w' !! manifest_path = Some (json_dumps (manifest ks emb cs))
    | Raise e =>
        e = OSError ∧ ¬ benign (S (Z.to_nat n)) w ∧
        (files w' !! manifest_path = files w !! manifest_path ∨
         (∀ i, 0 ≤ i < n →
               files w' !! chunk_path i = Some (chunk_bytes emb cs (len ks) i)) ∧
         ∃ k, files w' !! manifest_path
              = Some (take k (json_dumps (manifest ks emb cs))))
    end.
Proof.
  intros Hcs Hmk n.
  unfold convert_to_binary_chunks, get_keywords, get_embeddings, floordiv.
  cbn [db_keywords db_embeddings]. run_step. rewrite makedirs_ok by done.
  rewrite decide_False by done. run_step. fold n.
  set (m0 := Metadata _ _ _ _ _ []).
  destruct (write_loop (write_chunk ks emb dir cs (len ks)) chunk_path
              (chunk_bytes emb cs (len ks))
              (λ i a, append_chunk a (chunk_info_at ks cs i)) (range n))
    with (acc := m0) (w := w) as (r & w1 & Hrun & Hc & Hfr & Hr).
  { intros i acc w0 _. reflexivity. }
  { apply NoDup_fmap_range. intros i j Hi Hj. by apply chunk_path_inj. }
  rewrite Hrun. unfold range in Hr. rewrite length_seqZ in Hr.
  assert (Hmp : manifest_path ∉ chunk_path <$> range n).
  { apply not_elem_of_fmap_range. intros i _ Heq. symmetry in Heq.
    by apply chunk_path_not_manifest in Heq. }
  destruct r as [m|e].
  - destruct Hr as (-> & Hb & Hfa & Hw).
    rewrite foldl_append_chunk. cbn [version total_keywords embedding_dimension
      chunk_size num_chunks chunks m0 app].
    fold (metadata_path dir).
    change (json_dumps _) with (json_dumps (manifest ks emb cs)) at 1.
    destruct (write_file_spec manifest_path (json_dumps (manifest ks emb cs)) w1)
      as (r2 & w2 & -> & Hc2 & Hf2 & Hfr2 & Hr2).
    eexists _, _. split; [reflexivity|]. split; [congruence|]. split.
    { intros p Hp1 Hp2. rewrite Hfr2 by done. apply Hfr.
      by apply not_elem_of_fmap_range. }
    assert (Hall : ∀ i, 0 ≤ i < n →
              files w2 !! chunk_path i = Some (chunk_bytes emb cs (len ks) i)).
    { intros i Hi. rewrite Hfr2.
      - apply Hw. apply elem_of_seqZ. lia.
      - intros Heq. by apply chunk_path_not_manifest in Heq. }
    destruct r2 as [[]|e].
    + destruct Hr2 as [Hb2 Hm]. split; [by apply (benign_snoc _ _ w1)|]. done.
    + destruct Hr2 as (-> & Hb2 & Hm). split; [done|]. split.
      { by rewrite <- (benign_snoc _ _ w1). }
      destruct Hm as [Hm|Hm]; [left|right; done].
      rewrite Hm. by apply Hfr.
  - destruct Hr as [-> Hb]. eexists _, _. split; [reflexivity|].
    split; [done|]. split.
    { intros p _ Hp. apply Hfr. by apply not_elem_of_fmap_range. }
    split; [done|]. split.
    { intros Hb'. apply Hb. unfold benign in *.
      replace (Z.to_nat n) with (Z.to_nat n `min` S (Z.to_nat n))%nat by lia.
      rewrite <- take_take. by apply Forall_take. }
    left. by apply Hfr.
Qed.

(** A directory that cannot be made stops the run before anything else. *)
Lemma convert_mkdir_fails (db : database T) w e :
  mkdir_error dir w = Some e →
  convert_to_binary_chunks json_dumps db dir cs w = (Raise e, w).
Proof.
  intros Hmk. unfold convert_to_binary_chunks. run_step.
  by rewrite (makedirs_raise _ _ e).
Qed.

Lemma convert_ok_mkdir (db : database T) w w' :
  convert_to_binary_chunks json_dumps db dir cs w = (Ok (), w') →
  can_makedirs w dir.
Proof.
  intros Hrun. destruct (makedirs_cases dir w) as [?|[e He]]; [done|].
  by rewrite (convert_mkdir_fails db w e He) in Hrun.
Qed.

End RunA.

Section RunB.

Import ConvertPickleToBinary.

Context {T : Type} `{!Dtype T}.
Context (pickle_loads : list Z → result (database T)).
Context (json_dumps : metadata → list Z).
Context (cs dim : Z).

Lemma index_loop (ks : list string) (start id : Z) (js : list Z) kidx w :
  (∀ j, j ∈ js → 0 ≤ start + j < len ks) →
  for_each js kidx (index_keyword ks start id) w
  = (Ok (kidx ++
         ((λ j, KeywordEntry
                  (default EmptyString (ks !! Z.to_nat (start + j))) id j)
          <$> js)), w).
Proof.
  revert kidx. induction js as [|j js IH]; intros kidx Hjs.
  - simpl. by rewrite app_nil_r.
  - cbn [for_each]. rewrite bind_run. unfold index_keyword at 1.
    rewrite bind_run. unfold getitem.
    assert (0 ≤ start + j < len ks) as Hj by (apply Hjs; left).
    cbn zeta. rewrite (decide_False (P := start + j < 0)) by lia.
    rewrite (decide_False (P := start + j < 0)) by lia.
    destruct (ks !! Z.to_nat (start + j)) as [kw|] eqn:Hkw.
    + run_step. rewrite IH by (intros; apply Hjs; by right).
      rewrite fmap_cons, <- app_assoc. simpl. by rewrite Hkw.
    + apply lookup_ge_None in Hkw. unfold len in Hj. lia.
Qed.

Lemma write_chunk_step (ks : list string) (emb : ndarray T) i acc w :
  0 < cs → 0 ≤ i < (len ks + cs - 1) / cs →
  write_chunk cs ks emb (len ks) i acc w
  = (write_file (chunk_path i) (chunk_bytes emb cs (len ks) i) ≫= λ _,
     mret (acc.1 ++ [chunk_record_at cs (len ks) i],
           acc.2 ++ index_block ks cs i)) w.
Proof.
  intros Hcs Hi. destruct acc as [chunks kidx]. unfold write_chunk.
  rewrite !bind_run. fold (chunk_path i).
  change (tobytes _) with (chunk_bytes emb cs (len ks) i).
  destruct (write_file _ _ w) as [[[]|e] w1]; [|done].
  rewrite bind_run, index_loop; [done|].
  intros j Hj%elem_of_seqZ.
  pose proof (chunk_inside (len ks) cs ltac:(unfold len; lia) Hcs i Hi). lia.
Qed.

Lemma foldl_records (rec : Z → chunk_record) (block : Z → list keyword_entry)
    acc xs :
  foldl (λ (a : list chunk_record * list keyword_entry) i,
           (a.1 ++ [rec i], a.2 ++ block i)) acc xs
  = (acc.1 ++ (rec <$> xs), acc.2 ++ concat (block <$> xs)).
Proof.
  revert acc. induction xs as [|x xs IH]; intros [a b]; simpl.
  - by rewrite !app_nil_r.
  - rewrite IH. simpl. by rewrite <- !app_assoc.
Qed.

(** Every run of steps 2 and 3 of [main], for a positive chunk size. *)
Lemma export_run (ks : list string) (emb : ndarray T) w :
  0 < cs → can_makedirs w embeddings_dir →
  let n := (len ks + cs - 1) / cs in
  ∃ r w',
    export json_dumps cs dim emb ks w = (r, w') ∧
    clock w' = clock w ∧
    (∀ p, p ≠ metadata_path → (∀ i, 0 ≤ i < n → p ≠ chunk_path i) →
          files w' !! p = files w !! p) ∧
    match r with
    | Ok _ =>
        benign (S (Z.to_nat n)) w ∧
        (∀ i, 0 ≤ i < n →
              files w' !! chunk_path i = Some (chunk_bytes emb cs (len ks) i)) ∧
        files w' !! metadata_path
        = Some (json_dumps (manifest ks cs dim (clock w)))
    | Raise e =>
        e = OSError ∧ ¬ benign (S (Z.to_nat n)) w ∧
        (files w' !! metadata_path = files w !! metadata_path ∨
         (∀ i, 0 ≤ i < n →
               files w' !! chunk_path i = Some (chunk_bytes emb cs (len ks) i)) ∧
         ∃ k, files w' !! metadata_path
              = Some (take k (json_dumps (manifest ks cs dim (clock w)))))
    end.
Proof.
  intros Hcs Hmk n. unfold export, floordiv. run_step.
  rewrite makedirs_ok by done.
  rewrite decide_False by lia. run_step. fold n.
  destruct (write_loop (write_chunk cs ks emb (len ks)) chunk_path
              (chunk_bytes emb cs (len ks))
              (λ i (a : list chunk_record * list keyword_entry),
                 (a.1 ++ [chunk_record_at cs (len ks) i],
                  a.2 ++ index_block ks cs i)) (range n))
    with (acc := ([], []) : list chunk_record * list keyword_entry) (w := w)
    as (r & w1 & Hrun & Hc & Hfr & Hr).
  { intros i acc w0 Hi%elem_of_seqZ. apply write_chunk_step; [done|]. fold n. lia. }
  { apply NoDup_fmap_range. intros i j Hi Hj. by apply chunk_path_inj. }
  rewrite Hrun. unfold range in Hr. rewrite length_seqZ in Hr.
  assert (Hmp : metadata_path ∉ chunk_path <$> range n).
  { apply not_elem_of_fmap_range. intros i _ Heq. symmetry in Heq.
    by apply chunk_path_B_not_manifest in Heq. }
  destruct r as [acc|e].
  - destruct Hr as (-> & Hb & Hfa & Hw).
    rewrite foldl_records. cbn [fst snd app]. unfold datetime_now. cbn beta iota.
    rewrite Hc.
    change (json_dumps _) with (json_dumps (manifest ks cs dim (clock w))) at 1.
    destruct (write_file_spec metadata_path
                (json_dumps (manifest ks cs dim (clock w))) w1)
      as (r2 & w2 & -> & Hc2 & Hf2 & Hfr2 & Hr2).
    eexists _, _. split; [reflexivity|]. split; [congruence|]. split.
    { intros p Hp1 Hp2. rewrite Hfr2 by done. apply Hfr.
      by apply not_elem_of_fmap_range. }
    assert (Hall : ∀ i, 0 ≤ i < n →
              files w2 !! chunk_path i = Some (chunk_bytes emb cs (len ks) i)).
    { intros i Hi. rewrite Hfr2.
      - apply Hw. apply elem_of_seqZ. lia.
      - intros Heq. by apply chunk_path_B_not_manifest in Heq. }
    destruct r2 as [[]|e].
    + destruct Hr2 as [Hb2 Hm]. split; [by apply (benign_snoc _ _ w1)|]. done.
    + destruct Hr2 as (-> & Hb2 & Hm). split; [done|]. split.
      { by rewrite <- (benign_snoc _ _ w1). }
      destruct Hm as [Hm|Hm]; [left|right; done].
      rewrite Hm. by apply Hfr.
  - destruct Hr as [-> Hb]. eexists _, _. split; [reflexivity|].
    split; [done|]. split.
    { intros p _ Hp. apply Hfr. by apply not_elem_of_fmap_range. }
    split; [done|]. split.
    { intros Hb'. apply Hb. unfold benign in *.
      replace (Z.to_nat n) with (Z.to_nat n `min` S (Z.to_nat n))%nat by lia.
      rewrite <- take_take. by apply Forall_take. }
    left. by apply Hfr.
Qed.

Lemma export_mkdir_fails (ks : list string) (emb : ndarray T) w e :
  mkdir_error embeddings_dir w = Some e →
  export json_dumps cs dim emb ks w = (Raise e, w).
Proof.
  intros Hmk. unfold export. run_step. by rewrite (makedirs_raise _ _ e).
Qed.

Lemma export_ok_mkdir (ks : list string) (emb : ndarray T) w w' :
  export json_dumps cs dim emb ks w = (Ok (), w') →
  can_makedirs w embeddings_dir.
Proof.
  intros Hrun. destruct (makedirs_cases embeddings_dir w) as [?|[e He]];
    [done|].
  by rewrite (export_mkdir_fails ks emb w e He) in Hrun.
Qed.

End RunB.

(** ** Successful runs *)

Section Success.

Context {T : Type} `{!Dtype T}.
Context (pickle_loads : list Z → result (database T)).
Context (json_dumps_A : ConvertVectorDatabase.metadata → list Z).
Context (json_dumps_B : ConvertPickleToBinary.metadata → list Z).

Lemma convert_success ks emb dir cs w w' :
  cs ≠ 0 →
  ConvertVectorDatabase.convert_to_binary_chunks json_dumps_A
    (Database (Some ks) (Some emb)) dir cs w = (Ok (), w') →
  files w' !! ConvertVectorDatabase.metadata_path dir
    = Some (json_dumps_A (ConvertVectorDatabase.manifest ks emb cs)) ∧
  ∀ i, 0 ≤ i < (len ks + cs - 1) / cs →
    files w' !! ConvertVectorDatabase.chunk_path dir i
    = Some (ConvertVectorDatabase.chunk_bytes emb cs (len ks) i).
Proof.
  intros Hcs Hrun.
  pose proof (convert_ok_mkdir _ _ _ _ _ _ Hrun) as Hmk.
  destruct (convert_run json_dumps_A ks emb dir cs w Hcs Hmk)
    as (r & w1 & Hrun' & _ & _ & Hr).
  rewrite Hrun in Hrun'. injection Hrun' as <- <-.
  destruct Hr as (_ & Hchunks & Hm). done.
Qed.

Lemma convert_completes ks emb dir cs w :
  cs ≠ 0 → can_makedirs w dir → quiet w →
  completes (ConvertVectorDatabase.convert_to_binary_chunks json_dumps_A
               (Database (Some ks) (Some emb)) dir cs) w.
Proof.
  intros Hcs Hmk Hq.
  destruct (convert_run json_dumps_A ks emb dir cs w Hcs Hmk)
    as (r & w1 & Hrun & _ & _ & Hr).
  destruct r as [[]|e]; [by exists w1|].
  destruct Hr as (_ & Hb & _). destruct Hb. by apply quiet_benign.
Qed.

(** Step 1 of [main], case by case. *)
Lemma load_spec dim w :
  ConvertPickleToBinary.load pickle_loads dim w =
  match files w !! ConvertPickleToBinary.pickle_path with
  | None => (Raise FileNotFoundError, w)
  | Some bs =>
      match pickle_loads bs with
      | Raise e => (Raise e, w)
      | Ok d =>
          match db_embeddings d, db_keywords d with
          | None, _ => (Raise (KeyError "embeddings"), w)
          | Some _, None => (Raise (KeyError "keywords"), w)
          | Some emb, Some ks =>
              if decide (shape emb = (len ks, dim))
              then (Ok (emb, ks), w)
              else (Raise ValueError, w)
          end
      end
  end.
Proof.
  unfold ConvertPickleToBinary.load, path_exists, read_file, unpickle,
    get_embeddings, get_keywords.
  run_step.
  destruct (files w !! ConvertPickleToBinary.pickle_path) as [bs|] eqn:Hf.
  - rewrite bool_decide_eq_true_2 by eauto. cbn [negb]. run_step. rewrite Hf.
    destruct (pickle_loads bs) as [[[ks|] [emb|]]|e]; try done.
    cbn [db_embeddings db_keywords]. cbn beta iota.
    case_decide.
    + by rewrite bool_decide_eq_true_2.
    + by rewrite bool_decide_eq_false_2.
  - rewrite bool_decide_eq_false_2; [done|]. by intros [? [=]].
Qed.

Lemma main_with_loaded ks emb bs cs dim w :
  files w !! ConvertPickleToBinary.pickle_path = Some bs →
  pickle_loads bs = Ok (Database (Some ks) (Some emb)) →
  ConvertPickleToBinary.main_with pickle_loads json_dumps_B cs dim w =
  if decide (shape emb = (len ks, dim))
  then ConvertPickleToBinary.export json_dumps_B cs dim emb ks w
  else (Raise ValueError, w).
Proof.
  intros Hf Hp. unfold ConvertPickleToBinary.main_with.
  rewrite bind_run, load_spec, Hf, Hp. cbn [db_embeddings db_keywords].
  by case_decide.
Qed.

Lemma main_success ks emb bs cs dim w w' :
  files w !! ConvertPickleToBinary.pickle_path = Some bs →
  pickle_loads bs = Ok (Database (Some ks) (Some emb)) →
  0 < cs →
  ConvertPickleToBinary.main_with pickle_loads json_dumps_B cs dim w
    = (Ok (), w') →
  shape emb = (len ks, dim) ∧
  files w' !! ConvertPickleToBinary.metadata_path
    = Some (json_dumps_B (ConvertPickleToBinary.manifest ks cs dim (clock w))) ∧
  ∀ i, 0 ≤ i < (len ks + cs - 1) / cs →
    files w' !! ConvertPickleToBinary.chunk_path i
    = Some (ConvertPickleToBinary.chunk_bytes emb cs (len ks) i).
Proof.
  intros Hf Hp Hcs. rewrite (main_with_loaded ks emb bs) by done.
  case_decide as Hshape; [|done]. intros Hrun. split; [done|].
  pose proof (export_ok_mkdir _ _ _ _ _ _ _ Hrun) as Hmk.
  destruct (export_run json_dumps_B cs dim ks emb w Hcs Hmk)
    as (r & w1 & Hrun' & _ & _ & Hr).
  rewrite Hrun in Hrun'. injection Hrun' as <- <-.
  destruct Hr as (_ & Hchunks & Hm). done.
Qed.

Lemma main_completes ks emb bs cs dim w :
  files w !! ConvertPickleToBinary.pickle_path = Some bs →
  pickle_loads bs = Ok (Database (Some ks) (Some emb)) →
  0 < cs → shape emb = (len ks, dim) →
  can_makedirs w ConvertPickleToBinary.embeddings_dir → quiet w →
  completes (ConvertPickleToBinary.main_with pickle_loads json_dumps_B cs dim) w.
Proof.
  intros Hf Hp Hcs Hshape Hmk Hq. unfold completes.
  rewrite (main_with_loaded ks emb bs) by done.
  rewrite decide_True by done.
  destruct (export_run json_dumps_B cs dim ks emb w Hcs Hmk)
    as (r & w1 & Hrun & _ & _ & Hr).
  destruct r as [[]|e]; [by exists w1|].
  destruct Hr as (_ & Hb & _). destruct Hb. by apply quiet_benign.
Qed.

End Success.

(** ** The chunk grid in the manifests *)

Section GridFacts.

Variables N cs : Z.
Hypothesis HN : 0 ≤ N.
Hypothesis Hcs : 0 < cs.

Local Abbreviation n := ((N + cs - 1) / cs).
Local Abbreviation count := (λ i, Z.min (i * cs + cs) N - i * cs).

Lemma sumZ_app l1 l2 : sumZ (l1 ++ l2) = sumZ l1 + sumZ l2.
Proof. induction l1 as [|x l1 IH]; simpl; lia. Qed.

Lemma sum_counts (k : nat) :
  Z.of_nat k * cs < N + cs →
  sumZ (count <$> seqZ 0 (Z.of_nat k)) = Z.min (Z.of_nat k * cs) N.
Proof.
  induction k as [|k IH]; intros Hk.
  - rewrite seqZ_nil by lia. simpl. lia.
  - rewrite seqZ_S, fmap_app, sumZ_app, IH by lia. simpl. lia.
Qed.

Lemma grid_tiles : tiles N cs (count <$> range n).
Proof.
  pose proof (num_chunks_bounds N cs HN Hcs) as (Hn0 & Hn1 & Hn2).
  unfold tiles, range. repeat split.
  - unfold len. rewrite length_fmap, length_seqZ, <- num_chunks_ceil by done. lia.
  - rewrite <- (Z2Nat.id n) at 1 by done. rewrite sum_counts by lia. lia.
  - intros ->. rewrite seqZ_nil; [done|]. 
    rewrite Z.add_0_l. rewrite Z.div_small by lia. done.
  - intros Hm. apply Forall_fmap, Forall_seqZ. intros i Hi. simpl.
    apply chunk_full; [done..|lia].
  - intros k Hk HNk.
    destruct (chunk_last_one N cs HN Hcs k Hk HNk) as [Hn Hlast].
    rewrite Hn. replace (k + 1) with (Z.of_nat (S (Z.to_nat k))) by lia.
    rewrite seqZ_S, fmap_app. cbn [fmap list_fmap].
    rewrite last_snoc, Z2Nat.id by done. f_equal. lia.
Qed.

End GridFacts.

(** ** The manifests, field by field *)

Section ManifestFacts.

Lemma fmap_range_ext {B} (f g : Z → B) n :
  (∀ i, 0 ≤ i < n → f i = g i) → f <$> range n = g <$> range n.
Proof.
  intros Hfg. apply list_fmap_ext. intros k i Hk.
  apply lookup_seqZ in Hk as [-> Hk]. apply Hfg. lia.
Qed.

Lemma len_fmap {A B} (f : A → B) (l : list A) : len (f <$> l) = len l.
Proof. unfold len. by rewrite length_fmap. Qed.

Lemma length_range n : 0 ≤ n → len (range n) = n.
Proof. intros Hn. unfold len, range. rewrite length_seqZ. lia. Qed.

Lemma keyword_counts_A (ks : list string) cs :
  0 < cs →
  ConvertVectorDatabase.keyword_count
    <$> (ConvertVectorDatabase.chunk_info_at ks cs
           <$> range ((len ks + cs - 1) / cs))
  = (λ i, Z.min (i * cs + cs) (len ks) - i * cs)
    <$> range ((len ks + cs - 1) / cs).
Proof.
  intros Hcs. rewrite <- list_fmap_compose. apply fmap_range_ext.
  intros i Hi. simpl.
  pose proof (chunk_inside (len ks) cs ltac:(unfold len; lia) Hcs i Hi).
  apply length_slice_inside; lia.
Qed.

Lemma keyword_counts_B N cs :
  ConvertPickleToBinary.keyword_count
    <$> (ConvertPickleToBinary.chunk_record_at cs N
           <$> range ((N + cs - 1) / cs))
  = (λ i, Z.min (i * cs + cs) N - i * cs) <$> range ((N + cs - 1) / cs).
Proof. by rewrite <- list_fmap_compose. Qed.

End ManifestFacts.

(** ** Keyword order *)

Section KeywordOrder.

Lemma concat_slices_all {A} (l : list A) cs :
  0 < cs →
  concat ((λ i, slice l (i * cs) (Z.min (i * cs + cs) (len l)))
          <$> range ((len l + cs - 1) / cs)) = l.
Proof.
  intros Hcs.
  pose proof (num_chunks_bounds (len l) cs ltac:(unfold len; lia) Hcs)
    as (Hn0 & _ & Hn2).
  unfold range. rewrite <- (Z2Nat.id (_ / _)) by done.
  rewrite concat_slices by done. apply take_ge. unfold len in *. lia.
Qed.

Lemma slice_as_lookups (l : list string) a b :
  0 ≤ a ≤ b → b ≤ len l →
  (λ j, default EmptyString (l !! Z.to_nat (a + j))) <$> seqZ 0 (b - a)
  = slice l a b.
Proof.
  intros Ha Hb. rewrite slice_inside by done. apply list_eq. intros k.
  rewrite list_lookup_fmap.
  destruct (decide (Z.of_nat k < b - a)) as [Hk|Hk].
  - rewrite lookup_seqZ_lt by done. rewrite lookup_take_lt by lia.
    rewrite lookup_drop. cbn [fmap option_fmap option_map].
    replace (Z.to_nat (a + (0 + Z.of_nat k))) with (Z.to_nat a + k)%nat by lia.
    destruct (l !! (Z.to_nat a + k)%nat) eqn:Hl; [done|].
    apply lookup_ge_None in Hl. unfold len in Hb. lia.
  - rewrite lookup_seqZ_ge by lia. by rewrite lookup_take_ge by lia.
Qed.

Lemma fmap_concat {A B} (f : A → B) (ls : list (list A)) :
  f <$> concat ls = concat ((λ l : list A, f <$> l) <$> ls).
Proof.
  induction ls as [|l ls IH]; [done|]. simpl. by rewrite fmap_app, IH.
Qed.

Lemma keyword_index_block (ks : list string) cs i :
  0 < cs → 0 ≤ i < (len ks + cs - 1) / cs →
  ConvertPickleToBinary.keyword <$> ConvertPickleToBinary.index_block ks cs i
  = slice ks (i * cs) (Z.min (i * cs + cs) (len ks)).
Proof.
  intros Hcs Hi. unfold ConvertPickleToBinary.index_block. cbn zeta.
  rewrite <- list_fmap_compose.
  pose proof (chunk_inside (len ks) cs ltac:(unfold len; lia) Hcs i Hi).
  rewrite <- slice_as_lookups by lia. done.
Qed.

Lemma keywords_of_index (ks : list string) cs :
  0 < cs →
  ConvertPickleToBinary.keyword
    <$> concat (ConvertPickleToBinary.index_block ks cs
                  <$> range ((len ks + cs - 1) / cs)) = ks.
Proof.
  intros Hcs. rewrite fmap_concat, <- list_fmap_compose.
  rewrite (fmap_range_ext _
             (λ i, slice ks (i * cs) (Z.min (i * cs + cs) (len ks)))).
  - by apply concat_slices_all.
  - intros i Hi. by apply keyword_index_block.
Qed.

End KeywordOrder.

(** ** The bytes of a chunk *)

Section ChunkBytes.

Lemma length_flat_map_uniform {A B} (f : A → list B) (k : nat) (l : list A) :
  Forall (λ x, length (f x) = k) l →
  length (flat_map f l) = (length l * k)%nat.
Proof.
  induction 1 as [|x l Hx _ IH]; [done|].
  cbn [flat_map]. rewrite length_app, Hx, IH. simpl. lia.
Qed.

Lemma lookup_flat_map_uniform {A B} (f : A → list B) (k : nat) (l : list A)
    (i j : nat) x y :
  Forall (λ x, length (f x) = k) l →
  l !! i = Some x → f x !! j = Some y →
  flat_map f l !! (i * k + j)%nat = Some y.
Proof.
  intros Hl. revert i. induction Hl as [|x0 l Hx0 _ IH]; intros i Hi Hj.
  - by rewrite lookup_nil in Hi.
  - cbn [flat_map]. destruct i as [|i].
    + injection Hi as ->. rewrite lookup_app_l; [done|].
      by apply lookup_lt_Some in Hj.
    + rewrite lookup_app_r by lia.
      replace (S i * k + j - length (f x0))%nat with (i * k + j)%nat by lia.
      by apply IH.
Qed.

Lemma lookup_f32_bytes w (k : nat) :
  (k < 4)%nat → f32_bytes w !! k = Some (le_byte w (Z.of_nat k)).
Proof.
  intros Hk. rewrite f32_bytes_le_byte.
  destruct k as [|[|[|[|k]]]]; [done..|lia].
Qed.

Context {T : Type} `{!Dtype T}.

(** The bytes written for the rows [[s, e)] of a rectangular array: no
    more and no less than four bytes per element, row-major. *)
Lemma slice_bytes_layout (emb : ndarray T) (s e : Z) :
  rectangular emb → 0 ≤ s ≤ e → e ≤ len (rows emb) →
  let bytes := tobytes (astype_float32 (slice_rows emb s e)) in
  len bytes = (e - s) * Z.of_nat (ncols emb) * 4 ∧
  ∀ (r col k : nat) row x,
    Z.of_nat r < e - s →
    rows emb !! (Z.to_nat s + r)%nat = Some row →
    row !! col = Some x → (k < 4)%nat →
    bytes !! ((r * ncols emb + col) * 4 + k)%nat
    = Some (le_byte (to_float32 x) (Z.of_nat k)).
Proof.
  intros Hrect Hs He bytes. subst bytes.
  unfold tobytes, astype_float32, slice_rows. cbn [rows ncols].
  set (rs := slice (rows emb) s e).
  assert (Hrs : Forall (λ row, length row = ncols emb) rs).
  { unfold rs. rewrite slice_inside by done. by apply Forall_take, Forall_drop. }
  assert (Hinner : Forall (λ row : list Z,
            length (flat_map f32_bytes row) = (ncols emb * 4)%nat)
            ((λ row : list T, to_float32 <$> row) <$> rs)).
  { apply Forall_fmap. eapply Forall_impl; [exact Hrs|]. intros row Hrow. simpl.
    rewrite (length_flat_map_uniform _ 4).
    - by rewrite length_fmap, Hrow.
    - by apply Forall_true. }
  split.
  - unfold len. rewrite (length_flat_map_uniform _ (ncols emb * 4)) by done.
    rewrite length_fmap. fold (len rs). unfold rs.
    rewrite Nat2Z.inj_mul, Nat2Z.inj_mul.
    fold (len (slice (rows emb) s e)).
    rewrite length_slice_inside by done. lia.
  - intros r col k row x Hr Hrow Hx Hk.
    replace ((r * ncols emb + col) * 4 + k)%nat
      with (r * (ncols emb * 4) + (col * 4 + k))%nat by lia.
    apply (lookup_flat_map_uniform _ _ _ _ _ (to_float32 <$> row)); [done| |].
    + rewrite list_lookup_fmap. unfold rs.
      rewrite lookup_slice_inside by done. by rewrite Hrow.
    + apply (lookup_flat_map_uniform _ 4 _ _ _ (to_float32 x)).
      * by apply Forall_true.
      * by rewrite list_lookup_fmap, Hx.
      * by apply lookup_f32_bytes.
Qed.

End ChunkBytes.

(** ** Reading the chunks back *)

Section ReadBack.

Lemma length_concat_uniform {A} (D : nat) (rs : list (list A)) :
  Forall (λ r, length r = D) rs → length (concat rs) = (length rs * D)%nat.
Proof.
  induction 1 as [|r rs Hr _ IH]; [done|].
  simpl. rewrite length_app, Hr, IH. done.
Qed.

Lemma row_of_concat {A} (D : nat) (rs : list (list A)) (i : nat) r :
  Forall (λ r, length r = D) rs → rs !! i = Some r →
  take D (drop (i * D) (concat rs)) = r.
Proof.
  intros Hrs. revert i. induction Hrs as [|r0 rs Hr0 _ IH]; intros i Hi.
  - by rewrite lookup_nil in Hi.
  - cbn [concat]. destruct i as [|i].
    + injection Hi as ->. rewrite Nat.mul_0_l, drop_0.
      by rewrite take_app_length'.
    + replace (S i * D)%nat with (D + i * D)%nat by lia.
      rewrite <- drop_drop, drop_app_length' by done. by apply IH.
Qed.

Lemma reshape_concat (D : nat) (rs : list (list Z)) :
  (0 < D)%nat → Forall (λ r, length r = D) rs →
  reshape_rows D (concat rs) = rs.
Proof.
  intros HD Hrs. unfold reshape_rows.
  rewrite (length_concat_uniform D) by done.
  rewrite Nat.div_mul by lia. apply list_eq. intros i.
  rewrite list_lookup_fmap.
  destruct (rs !! i) as [r|] eqn:Hi.
  - rewrite lookup_seq_lt by (by apply lookup_lt_Some in Hi). simpl.
    f_equal. by apply row_of_concat.
  - apply lookup_ge_None in Hi. by rewrite lookup_seq_ge.
Qed.

Context {T : Type} `{!Dtype T}.

Lemma frombuffer_tobytes (a : ndarray T) :
  frombuffer_f32 (tobytes (astype_float32 a)) = concat (rows (astype_float32 a)).
Proof.
  unfold tobytes. rewrite flat_map_flat_map. apply frombuffer_flat_map.
  apply Forall_concat. cbn [astype_float32 rows].
  apply Forall_fmap, Forall_true. intros row. simpl.
  apply Forall_fmap, Forall_true. intros x. apply to_float32_range.
Qed.

(** Decoding one chunk file gives back the float32 rows of its slice. *)
Lemma decode_chunk (emb : ndarray T) (s e : Z) :
  rectangular emb → (0 < ncols emb)%nat → 0 ≤ s ≤ e → e ≤ len (rows emb) →
  reshape_rows (ncols emb)
    (frombuffer_f32 (tobytes (astype_float32 (slice_rows emb s e))))
  = (λ row : list T, to_float32 <$> row) <$> slice (rows emb) s e.
Proof.
  intros Hrect HD Hs He. rewrite frombuffer_tobytes.
  cbn [astype_float32 slice_rows rows ncols]. apply reshape_concat; [done|].
  apply Forall_fmap. rewrite slice_inside by done.
  apply Forall_take, Forall_drop. eapply Forall_impl; [exact Hrect|].
  intros row Hrow. simpl. by rewrite length_fmap.
Qed.

Lemma mapM_fmap_Some_ext {A B C} (f : B → option C) (g : A → B) (h : A → C)
    (l : list A) :
  (∀ x, x ∈ l → f (g x) = Some (h x)) → mapM f (g <$> l) = Some (h <$> l).
Proof.
  intros Hl. apply mapM_Some_2, Forall2_fmap, Forall_Forall2_diag.
  by apply Forall_forall.
Qed.

(** Reading the chunk files of a grid in order gives back the matrix. *)
Lemma read_grid (fs : gmap string (list Z)) (emb : ndarray T)
    (path : Z → string) (cs : Z) :
  rectangular emb → (0 < ncols emb)%nat → 0 < cs →
  (∀ i, 0 ≤ i < (len (rows emb) + cs - 1) / cs →
     fs !! path i
     = Some (tobytes (astype_float32
               (slice_rows emb (i * cs)
                  (Z.min (i * cs + cs) (len (rows emb))))))) →
  read_chunks fs (ncols emb)
    (path <$> range ((len (rows emb) + cs - 1) / cs))
  = Some (rows (astype_float32 emb)).
Proof.
  intros Hrect HD Hcs Hfs. unfold read_chunks.
  rewrite (mapM_fmap_Some_ext _ _
             (λ i, (λ row : list T, to_float32 <$> row)
                   <$> slice (rows emb) (i * cs)
                         (Z.min (i * cs + cs) (len (rows emb))))).
  - cbn [mbind option_bind astype_float32 rows]. f_equal.
    transitivity
      ((λ row : list T, to_float32 <$> row)
       <$> concat ((λ i, slice (rows emb) (i * cs)
                           (Z.min (i * cs + cs) (len (rows emb))))
                   <$> range ((len (rows emb) + cs - 1) / cs)));
      [|by rewrite concat_slices_all].
    by rewrite fmap_concat, <- list_fmap_compose.
  - intros i Hi%elem_of_seqZ. unfold read_chunk. rewrite Hfs by lia.
    cbn [mbind option_bind]. f_equal.
    pose proof (chunk_inside (len (rows emb)) cs
                  ltac:(unfold len; lia) Hcs i ltac:(lia)).
    apply decode_chunk; [done|done|lia|lia].
Qed.

End ReadBack.

(** ** The flat keyword index *)

Section FlatIndex.

Import ConvertPickleToBinary.

Lemma index_block_shift (ks : list string) cs i :
  0 < cs → 0 ≤ i →
  index_block ks cs i
  = (λ g, KeywordEntry (default EmptyString (ks !! Z.to_nat g))
            (g / cs) (g mod cs))
    <$> seqZ (i * cs) (Z.min (i * cs + cs) (len ks) - i * cs).
Proof.
  intros Hcs Hi. unfold index_block, range. cbn zeta.
  set (count := Z.min (i * cs + cs) (len ks) - i * cs).
  replace (seqZ (i * cs) count) with (seqZ (i * cs + 0) count)
    by (f_equal; lia).
  rewrite <- fmap_add_seqZ, <- list_fmap_compose. apply list_fmap_ext.
  intros k j Hj. apply lookup_seqZ in Hj as [-> Hk]. simpl.
  assert (0 ≤ Z.of_nat k < cs) as Hkc by lia.
  rewrite Z.add_0_l.
  assert ((i * cs + Z.of_nat k) / cs = i) as ->.
  { rewrite Z.add_comm, Z.div_add by lia. rewrite Z.div_small by done. lia. }
  assert ((i * cs + Z.of_nat k) mod cs = Z.of_nat k) as ->; [|done].
  rewrite Z.add_comm, Z.mod_add by lia. by apply Z.mod_small.
Qed.

Lemma index_prefix (ks : list string) cs (k : nat) :
  0 < cs → Z.of_nat k * cs < len ks + cs →
  concat (index_block ks cs <$> seqZ 0 (Z.of_nat k))
  = (λ g, KeywordEntry (default EmptyString (ks !! Z.to_nat g))
            (g / cs) (g mod cs))
    <$> seqZ 0 (Z.min (Z.of_nat k * cs) (len ks)).
Proof.
  intros Hcs. induction k as [|k IH]; intros Hk.
  - rewrite seqZ_nil by lia. rewrite (seqZ_nil 0) by (unfold len; lia). done.
  - rewrite seqZ_S, fmap_app, concat_app, IH by lia.
    cbn [fmap list_fmap concat]. rewrite app_nil_r, Z.add_0_l.
    rewrite index_block_shift by lia. rewrite <- fmap_app. f_equal.
    rewrite Z.min_l by lia.
    replace (Z.min (Z.of_nat (S k) * cs) (len ks))
      with (Z.of_nat k * cs
            + (Z.min (Z.of_nat k * cs + cs) (len ks) - Z.of_nat k * cs))
      by lia.
    rewrite seqZ_app by lia. by rewrite Z.add_0_l.
Qed.

(** The flat index lists position [g] as chunk [g / cs], row [g mod cs]. *)
Lemma index_flat (ks : list string) cs :
  0 < cs →
  concat (index_block ks cs <$> range ((len ks + cs - 1) / cs))
  = (λ g, KeywordEntry (default EmptyString (ks !! Z.to_nat g))
            (g / cs) (g mod cs))
    <$> range (len ks).
Proof.
  intros Hcs.
  pose proof (num_chunks_bounds (len ks) cs ltac:(unfold len; lia) Hcs)
    as (Hn0 & Hn1 & Hn2).
  unfold range. rewrite <- (Z2Nat.id (_ / _)) at 1 by done.
  rewrite index_prefix by lia. f_equal. f_equal. lia.
Qed.

End FlatIndex.

(** ** What a run leaves untouched *)

Section Frames.

Context {T : Type} `{!Dtype T}.
Context (pickle_loads : list Z → result (database T)).
Context (json_dumps_A : ConvertVectorDatabase.metadata → list Z).
Context (json_dumps_B : ConvertPickleToBinary.metadata → list Z).

Lemma convert_frame ks emb dir cs w r w' p :
  cs ≠ 0 →
  ConvertVectorDatabase.convert_to_binary_chunks json_dumps_A
    (Database (Some ks) (Some emb)) dir cs w = (r, w') →
  p ≠ ConvertVectorDatabase.metadata_path dir →
  (∀ i, 0 ≤ i < (len ks + cs - 1) / cs →
        p ≠ ConvertVectorDatabase.chunk_path dir i) →
  files w' !! p = files w !! p.
Proof.
  intros Hcs Hrun Hp1 Hp2.
  destruct (makedirs_cases dir w) as [Hmk|[e Hmk]].
  2: { rewrite (convert_mkdir_fails _ _ _ _ _ _ Hmk) in Hrun.
       by injection Hrun as <- <-. }
  destruct (convert_run json_dumps_A ks emb dir cs w Hcs Hmk)
    as (r1 & w1 & Hrun' & _ & Hfr & _).
  rewrite Hrun in Hrun'. injection Hrun' as <- <-. by apply Hfr.
Qed.

Lemma main_frame ks emb bs cs dim w r w' p :
  files w !! ConvertPickleToBinary.pickle_path = Some bs →
  pickle_loads bs = Ok (Database (Some ks) (Some emb)) →
  0 < cs →
  ConvertPickleToBinary.main_with pickle_loads json_dumps_B cs dim w
    = (r, w') →
  p ≠ ConvertPickleToBinary.metadata_path →
  (∀ i, 0 ≤ i < (len ks + cs - 1) / cs →
        p ≠ ConvertPickleToBinary.chunk_path i) →
  files w' !! p = files w !! p.
Proof.
  intros Hf Hp Hcs. rewrite (main_with_loaded _ _ ks emb bs) by done.
  case_decide; [|by intros [= <- <-]]. intros Hrun Hp1 Hp2.
  destruct (makedirs_cases ConvertPickleToBinary.embeddings_dir w)
    as [Hmk|[e Hmk]].
  2: { rewrite (export_mkdir_fails _ _ _ _ _ _ _ Hmk) in Hrun.
       by injection Hrun as <- <-. }
  destruct (export_run json_dumps_B cs dim ks emb w Hcs Hmk)
    as (r1 & w1 & Hrun' & _ & Hfr & _).
  rewrite Hrun in Hrun'. injection Hrun' as <- <-. by apply Hfr.
Qed.

End Frames.

(** ** Widths of the chunk numbers *)

Section Widths.

Lemma width_2_below_100 i :
  0 ≤ i < 100 → String.length (format_0d 2 i) = 2%nat.
Proof.
  revert i. apply (Forall_seqZ (λ i, String.length (format_0d 2 i) = 2%nat) 0 100).
  apply (bool_decide_unpack _). by vm_compute.
Qed.

Lemma width_3_below_1000 i :
  0 ≤ i < 1000 → String.length (format_0d 3 i) = 3%nat.
Proof.
  revert i.
  apply (Forall_seqZ (λ i, String.length (format_0d 3 i) = 3%nat) 0 1000).
  apply (bool_decide_unpack _). by vm_compute.
Qed.

Lemma parse_format_0d width i :
  0 ≤ i → parse_decimal (format_0d width i) = Some (Z.to_N i).
Proof.
  intros Hi. rewrite format_0d_nonneg by done. by apply parse_decimal_digits.
Qed.

Lemma min_width_format_0d width i :
  0 ≤ i → (width ≤ String.length (format_0d width i))%nat.
Proof. intros Hi. rewrite length_format_0d by done. lia. Qed.

End Widths.

(** ** The loaders, case by case *)

Section Loaders.

Context {T : Type} `{!Dtype T}.
Context (pickle_loads : list Z → result (database T)).



End Loaders.

(** ** Runs that fail before the first write *)

Section EarlyFailures.

Context {T : Type} `{!Dtype T}.
Context (pickle_loads : list Z → result (database T)).
Context (json_dumps_A : ConvertVectorDatabase.metadata → list Z).
Context (json_dumps_B : ConvertPickleToBinary.metadata → list Z).

Lemma run_raise {A} (c : M A) w e :
  (c w).1 = Raise e → c w = (Raise e, (c w).2).
Proof. destruct (c w) as [r w']. simpl. by intros ->. Qed.


Lemma main_with_cases cs dim w r w' :
  ConvertPickleToBinary.main_with pickle_loads json_dumps_B cs dim w
    = (r, w') →
  (w' = w ∧ ∃ e, r = Raise e) ∨
  ∃ bs ks emb,
    files w !! ConvertPickleToBinary.pickle_path = Some bs ∧
    pickle_loads bs = Ok (Database (Some ks) (Some emb)) ∧
    ConvertPickleToBinary.export json_dumps_B cs dim emb ks w = (r, w').
Proof.
  unfold ConvertPickleToBinary.main_with. rewrite bind_run, load_spec.
  destruct (files w !! ConvertPickleToBinary.pickle_path) as [bs|];
    [|intros [= <- <-]; eauto].
  destruct (pickle_loads bs) as [[[ks|] [emb|]]|e0] eqn:Hp;
    cbn [db_embeddings db_keywords]; try (intros [= <- <-]; eauto).
  case_decide; [|intros [= <- <-]; eauto].
  intros Hrun. right. eauto 10.
Qed.

End EarlyFailures.

(** ** The claims *)

Section Claims.

Context {T : Type} `{!Dtype T}.
Context (pickle_loads : list Z → result (database T)).
Context (json_dumps_A : ConvertVectorDatabase.metadata → list Z).
Context (json_dumps_B : ConvertPickleToBinary.metadata → list Z).

(** C3.  For a chunk size [cs > 0] and [N = len ks] keywords, both
    exporters produce [ceil(N / cs)] chunk records whose [keyword_count]
    fields sum to [N] (and [total_keywords = N]); with [N = 0] there is no
    chunk, with [N] a multiple of [cs] every chunk has [cs] keywords, and
    with [N] one more than a multiple of [cs] the last chunk has one.  The
    run completes when the output directory can be created and no write
    fails (and, for the script, when the shape check passes). *)
Theorem C3_chunk_counts (ks : list string) (emb : ndarray T) (dir : string)
    (cs dim : Z) (bs : list Z) (wA wB : world) :
  0 < cs →
  files wB !! ConvertPickleToBinary.pickle_path = Some bs →
  pickle_loads bs = Ok (Database (Some ks) (Some emb)) →
  ((can_makedirs wA dir → quiet wA →
    completes (ConvertVectorDatabase.convert_to_binary_chunks json_dumps_A
                 (Database (Some ks) (Some emb)) dir cs) wA) ∧
   ∀ w', ConvertVectorDatabase.convert_to_binary_chunks json_dumps_A
           (Database (Some ks) (Some emb)) dir cs wA = (Ok (), w') →
     ∃ m, files w' !! ConvertVectorDatabase.metadata_path dir
            = Some (json_dumps_A m) ∧
          ConvertVectorDatabase.num_chunks m = ceil_div (len ks) cs ∧
          ConvertVectorDatabase.total_keywords m = len ks ∧
          tiles (len ks) cs
            (ConvertVectorDatabase.keyword_count
               <$> ConvertVectorDatabase.chunks m))
  ∧
  ((can_makedirs wB ConvertPickleToBinary.embeddings_dir → quiet wB →
    shape emb = (len ks, dim) →
    completes (ConvertPickleToBinary.main_with pickle_loads json_dumps_B
                 cs dim) wB) ∧
   ∀ w', ConvertPickleToBinary.main_with pickle_loads json_dumps_B cs dim wB
           = (Ok (), w') →
     ∃ m, files w' !! ConvertPickleToBinary.metadata_path
            = Some (json_dumps_B m) ∧
          ConvertPickleToBinary.total_keywords m = len ks ∧
          tiles (len ks) cs
            (ConvertPickleToBinary.keyword_count
               <$> ConvertPickleToBinary.chunks m)).
Proof.
  intros Hcs Hf Hp.
  assert (HN : 0 ≤ len ks) by (unfold len; lia).
  split; split.
  - intros Hmk Hq. apply convert_completes; [lia|done..].
  - intros w' Hrun.
    apply convert_success in Hrun as [Hm _]; [|lia].
    eexists. split; [exact Hm|].
    cbn [ConvertVectorDatabase.manifest ConvertVectorDatabase.num_chunks
         ConvertVectorDatabase.total_keywords ConvertVectorDatabase.chunks].
    split; [by apply num_chunks_ceil|]. split; [done|].
    rewrite keyword_counts_A by done. by apply grid_tiles.
  - intros Hmk Hq Hshape. by apply (main_completes _ _ ks emb bs).
  - intros w' Hrun.
    apply (main_success _ _ ks emb bs) in Hrun as (_ & Hm & _); [|done..].
    eexists. split; [exact Hm|].
    cbn [ConvertPickleToBinary.manifest ConvertPickleToBinary.total_keywords
         ConvertPickleToBinary.chunks].
    split; [done|]. rewrite keyword_counts_B. by apply grid_tiles.
Qed.

(** C7 (amended).  Every chunk record starts at [chunk_id * cs].  In
    [convert_to_binary_chunks] the recorded [end_index] is the exclusive
    end [min(start_index + cs, N)] and [keyword_count = end_index -
    start_index]; in [scripts/convert-pickle-to-binary.py] the recorded
    [end_index] is the inclusive last index [min(start_index + cs, N) - 1]
    and [keyword_count = end_index - start_index + 1]. *)
Theorem C7_chunk_records (ks : list string) (emb : ndarray T) (dir : string)
    (cs dim : Z) (bs : list Z) (wA wB : world) :
  0 < cs →
  files wB !! ConvertPickleToBinary.pickle_path = Some bs →
  pickle_loads bs = Ok (Database (Some ks) (Some emb)) →
  (∀ w', ConvertVectorDatabase.convert_to_binary_chunks json_dumps_A
           (Database (Some ks) (Some emb)) dir cs wA = (Ok (), w') →
     ∃ m, files w' !! ConvertVectorDatabase.metadata_path dir
            = Some (json_dumps_A m) ∧
          ∀ c, c ∈ ConvertVectorDatabase.chunks m →
            ConvertVectorDatabase.start_index c
              = ConvertVectorDatabase.chunk_id c * cs ∧
            ConvertVectorDatabase.end_index c
              = Z.min (ConvertVectorDatabase.start_index c + cs) (len ks) ∧
            ConvertVectorDatabase.keyword_count c
              = ConvertVectorDatabase.end_index c
                - ConvertVectorDatabase.start_index c)
  ∧
  (∀ w', ConvertPickleToBinary.main_with pickle_loads json_dumps_B cs dim wB
           = (Ok (), w') →
     ∃ m, files w' !! ConvertPickleToBinary.metadata_path
            = Some (json_dumps_B m) ∧
          ∀ c, c ∈ ConvertPickleToBinary.chunks m →
            ConvertPickleToBinary.start_index c
              = ConvertPickleToBinary.chunk_id c * cs ∧
            ConvertPickleToBinary.end_index c
              = Z.min (ConvertPickleToBinary.start_index c + cs) (len ks) - 1 ∧
            ConvertPickleToBinary.keyword_count c
              = ConvertPickleToBinary.end_index c
                - ConvertPickleToBinary.start_index c + 1).
Proof.
  intros Hcs Hf Hp. split.
  - intros w' Hrun.
    apply convert_success in Hrun as [Hm _]; [|lia].
    eexists. split; [exact Hm|].
    intros c (i & -> & Hi%elem_of_seqZ)%list_elem_of_fmap. simpl.
    split; [done|]. split; [done|].
    pose proof (chunk_inside (len ks) cs ltac:(unfold len; lia) Hcs i
                  ltac:(lia)).
    apply length_slice_inside; lia.
  - intros w' Hrun.
    apply (main_success _ _ ks emb bs) in Hrun as (_ & Hm & _); [|done..].
    eexists. split; [exact Hm|].
    intros c (i & -> & Hi)%list_elem_of_fmap. simpl. lia.
Qed.

(** C4.  In both manifests the chunk records carry the ids [0, 1, ...] in
    ascending order.  In [convert_to_binary_chunks] each record lists the
    keywords of its range in their original order, and the lists of all
    records, concatenated, are the input keywords.  In
    [scripts/convert-pickle-to-binary.py] the flat index is, chunk after
    chunk, the entries of each record in local order, and its keywords read
    in that order are the input keywords. *)
Theorem C4_keyword_order (ks : list string) (emb : ndarray T) (dir : string)
    (cs dim : Z) (bs : list Z) (wA wB : world) :
  0 < cs →
  files wB !! ConvertPickleToBinary.pickle_path = Some bs →
  pickle_loads bs = Ok (Database (Some ks) (Some emb)) →
  (∀ w', ConvertVectorDatabase.convert_to_binary_chunks json_dumps_A
           (Database (Some ks) (Some emb)) dir cs wA = (Ok (), w') →
     ∃ m, files w' !! ConvertVectorDatabase.metadata_path dir
            = Some (json_dumps_A m) ∧
          ConvertVectorDatabase.chunk_id <$> ConvertVectorDatabase.chunks m
            = range (len (ConvertVectorDatabase.chunks m)) ∧
          (∀ c, c ∈ ConvertVectorDatabase.chunks m →
             ConvertVectorDatabase.keywords c
             = slice ks (ConvertVectorDatabase.start_index c)
                 (ConvertVectorDatabase.end_index c)) ∧
          concat (ConvertVectorDatabase.keywords
                    <$> ConvertVectorDatabase.chunks m) = ks)
  ∧
  (∀ w', ConvertPickleToBinary.main_with pickle_loads json_dumps_B cs dim wB
           = (Ok (), w') →
     ∃ m, files w' !! ConvertPickleToBinary.metadata_path
            = Some (json_dumps_B m) ∧
          ConvertPickleToBinary.chunk_id <$> ConvertPickleToBinary.chunks m
            = range (len (ConvertPickleToBinary.chunks m)) ∧
          ConvertPickleToBinary.keywords m
            = concat (entries_of ks <$> ConvertPickleToBinary.chunks m) ∧
          ConvertPickleToBinary.keyword <$> ConvertPickleToBinary.keywords m
            = ks).
Proof.
  intros Hcs Hf Hp.
  pose proof (num_chunks_bounds (len ks) cs ltac:(unfold len; lia) Hcs)
    as (Hn0 & _ & _).
  split.
  - intros w' Hrun.
    apply convert_success in Hrun as [Hm _]; [|lia].
    eexists. split; [exact Hm|].
    cbn [ConvertVectorDatabase.manifest ConvertVectorDatabase.chunks].
    split; [|split].
    + rewrite len_fmap, length_range by done.
      rewrite <- list_fmap_compose. apply list_fmap_id.
    + by intros c (i & -> & _)%list_elem_of_fmap.
    + rewrite <- list_fmap_compose. by apply concat_slices_all.
  - intros w' Hrun.
    apply (main_success _ _ ks emb bs) in Hrun as (_ & Hm & _); [|done..].
    eexists. split; [exact Hm|].
    cbn [ConvertPickleToBinary.manifest ConvertPickleToBinary.chunks
         ConvertPickleToBinary.keywords].
    split; [|split].
    + rewrite len_fmap, length_range by done.
      rewrite <- list_fmap_compose. apply list_fmap_id.
    + by rewrite <- list_fmap_compose.
    + by apply keywords_of_index.
Qed.

(** C2.  For every chunk index [i] below [ceil(N / cs)] the file of chunk
    [i] is on disk and holds exactly the rows [[i * cs, min(i * cs + cs,
    N))] of the matrix, row-major, each element as the four little-endian
    bytes of its float32 pattern: byte [k] of element [col] of row [r] of
    the chunk sits at offset [(r * D + col) * 4 + k], and the file is
    [count * D * 4] bytes long, so nothing precedes, separates or follows
    the elements.  The manifest has one record for each of these indices,
    in order, and the file named by a record holds the rows [[start_index,
    start_index + keyword_count)] in that layout. *)
Theorem C2_chunk_file_layout (ks : list string) (emb : ndarray T) (dir : string)
    (cs dim : Z) (bs : list Z) (wA wB : world) :
  0 < cs →
  rectangular emb →
  len (rows emb) = len ks →
  files wB !! ConvertPickleToBinary.pickle_path = Some bs →
  pickle_loads bs = Ok (Database (Some ks) (Some emb)) →
  (∀ w', ConvertVectorDatabase.convert_to_binary_chunks json_dumps_A
           (Database (Some ks) (Some emb)) dir cs wA = (Ok (), w') →
     (∀ i, 0 ≤ i < ceil_div (len ks) cs →
        let start := i * cs in
        let count := Z.min (start + cs) (len ks) - start in
        ∃ bytes,
          files w' !! ConvertVectorDatabase.chunk_path dir i = Some bytes ∧
          len bytes = count * Z.of_nat (ncols emb) * 4 ∧
          ∀ (r col k : nat) row x,
            Z.of_nat r < count →
            rows emb !! (Z.to_nat start + r)%nat = Some row →
            row !! col = Some x → (k < 4)%nat →
            bytes !! ((r * ncols emb + col) * 4 + k)%nat
            = Some (le_byte (to_float32 x) (Z.of_nat k))) ∧
     ∃ m, files w' !! ConvertVectorDatabase.metadata_path dir
            = Some (json_dumps_A m) ∧
          ConvertVectorDatabase.chunk_id <$> ConvertVectorDatabase.chunks m
            = range (ceil_div (len ks) cs) ∧
          ∀ c, c ∈ ConvertVectorDatabase.chunks m →
            ∃ bytes,
              files w' !! chunk_path_A dir c = Some bytes ∧
              len bytes = ConvertVectorDatabase.keyword_count c
                          * ConvertVectorDatabase.embedding_dimension m * 4 ∧
              ∀ (r col k : nat) row x,
                Z.of_nat r < ConvertVectorDatabase.keyword_count c →
                rows emb
                  !! (Z.to_nat (ConvertVectorDatabase.start_index c) + r)%nat
                  = Some row →
                row !! col = Some x → (k < 4)%nat →
                bytes !! ((r * ncols emb + col) * 4 + k)%nat
                = Some (le_byte (to_float32 x) (Z.of_nat k)))
  ∧
  (∀ w', ConvertPickleToBinary.main_with pickle_loads json_dumps_B cs dim wB
           = (Ok (), w') →
     (∀ i, 0 ≤ i < ceil_div (len ks) cs →
        let start := i * cs in
        let count := Z.min (start + cs) (len ks) - start in
        ∃ bytes,
          files w' !! ConvertPickleToBinary.chunk_path i = Some bytes ∧
          len bytes = count * Z.of_nat (ncols emb) * 4 ∧
          ∀ (r col k : nat) row x,
            Z.of_nat r < count →
            rows emb !! (Z.to_nat start + r)%nat = Some row →
            row !! col = Some x → (k < 4)%nat →
            bytes !! ((r * ncols emb + col) * 4 + k)%nat
            = Some (le_byte (to_float32 x) (Z.of_nat k))) ∧
     ∃ m, files w' !! ConvertPickleToBinary.metadata_path
            = Some (json_dumps_B m) ∧
          ConvertPickleToBinary.chunk_id <$> ConvertPickleToBinary.chunks m
            = range (ceil_div (len ks) cs) ∧
          ∀ c, c ∈ ConvertPickleToBinary.chunks m →
            ∃ bytes,
              files w' !! chunk_path_B c = Some bytes ∧
              len bytes = ConvertPickleToBinary.keyword_count c
                          * ConvertPickleToBinary.embedding_dimensions m * 4 ∧
              ∀ (r col k : nat) row x,
                Z.of_nat r < ConvertPickleToBinary.keyword_count c →
                rows emb
                  !! (Z.to_nat (ConvertPickleToBinary.start_index c) + r)%nat
                  = Some row →
                row !! col = Some x → (k < 4)%nat →
                bytes !! ((r * ncols emb + col) * 4 + k)%nat
                = Some (le_byte (to_float32 x) (Z.of_nat k))).
Proof.
  intros Hcs Hrect Hrows Hf Hp.
  assert (HN : 0 ≤ len ks) by (unfold len; lia).
  pose proof (num_chunks_ceil (len ks) cs Hcs) as Hn. split.
  - intros w' Hrun.
    apply convert_success in Hrun as [Hm Hchunks]; [|lia]. split.
    { intros i Hi start count. subst start count. rewrite <- Hn in Hi.
      pose proof (chunk_inside (len ks) cs HN Hcs i Hi) as Hin.
      eexists. split; [by apply Hchunks|].
      apply slice_bytes_layout; [done|lia|lia]. }
    eexists. split; [exact Hm|]. split.
    { cbn [ConvertVectorDatabase.manifest ConvertVectorDatabase.chunks].
      rewrite <- list_fmap_compose, <- Hn. apply list_fmap_id. }
    intros c (i & -> & Hi%elem_of_seqZ)%list_elem_of_fmap.
    pose proof (chunk_inside (len ks) cs ltac:(unfold len; lia) Hcs i
                  ltac:(lia)) as Hin.
    eexists. split; [apply Hchunks; lia|].
    cbn [ConvertVectorDatabase.chunk_info_at
         ConvertVectorDatabase.keyword_count ConvertVectorDatabase.start_index
         ConvertVectorDatabase.manifest
         ConvertVectorDatabase.embedding_dimension shape snd].
    rewrite length_slice_inside by lia.
    apply slice_bytes_layout; [done|lia|lia].
  - intros w' Hrun.
    apply (main_success _ _ ks emb bs) in Hrun as (Hshape & Hm & Hchunks);
      [|done..].
    injection Hshape as _ Hdim. split.
    { intros i Hi start count. subst start count. rewrite <- Hn in Hi.
      pose proof (chunk_inside (len ks) cs HN Hcs i Hi) as Hin.
      eexists. split; [by apply Hchunks|].
      apply slice_bytes_layout; [done|lia|lia]. }
    eexists. split; [exact Hm|]. split.
    { cbn [ConvertPickleToBinary.manifest ConvertPickleToBinary.chunks].
      rewrite <- list_fmap_compose, <- Hn. apply list_fmap_id. }
    intros c (i & -> & Hi%elem_of_seqZ)%list_elem_of_fmap.
    pose proof (chunk_inside (len ks) cs ltac:(unfold len; lia) Hcs i
                  ltac:(lia)) as Hin.
    eexists. split; [apply Hchunks; lia|].
    cbn [ConvertPickleToBinary.chunk_record_at
         ConvertPickleToBinary.keyword_count ConvertPickleToBinary.start_index
         ConvertPickleToBinary.manifest
         ConvertPickleToBinary.embedding_dimensions].
    rewrite <- Hdim. apply slice_bytes_layout; [done|lia|lia].
Qed.

(** C1 (amended).  For a rectangular [N × D] matrix with [D > 0] and a
    chunk size [cs > 0], reading the chunk files named by the records of
    the manifest, in the order of the manifest, decoding each as
    little-endian float32 values grouped into rows of [D] (the dimension the
    manifest records) and concatenating the rows gives back the matrix cast
    to float32; the run completes when the output directory can be created
    and no write fails (and, for the script, when the shape check
    passes). *)
Theorem C1_round_trip (ks : list string) (emb : ndarray T) (dir : string)
    (cs dim : Z) (bs : list Z) (wA wB : world) :
  0 < cs →
  rectangular emb →
  len (rows emb) = len ks →
  (0 < ncols emb)%nat →
  files wB !! ConvertPickleToBinary.pickle_path = Some bs →
  pickle_loads bs = Ok (Database (Some ks) (Some emb)) →
  ((can_makedirs wA dir → quiet wA →
    completes (ConvertVectorDatabase.convert_to_binary_chunks json_dumps_A
                 (Database (Some ks) (Some emb)) dir cs) wA) ∧
   ∀ w', ConvertVectorDatabase.convert_to_binary_chunks json_dumps_A
           (Database (Some ks) (Some emb)) dir cs wA = (Ok (), w') →
     ∃ m, files w' !! ConvertVectorDatabase.metadata_path dir
            = Some (json_dumps_A m) ∧
          read_chunks (files w')
            (Z.to_nat (ConvertVectorDatabase.embedding_dimension m))
            (chunk_path_A dir <$> ConvertVectorDatabase.chunks m)
          = Some (rows (astype_float32 emb)))
  ∧
  ((can_makedirs wB ConvertPickleToBinary.embeddings_dir → quiet wB →
    shape emb = (len ks, dim) →
    completes (ConvertPickleToBinary.main_with pickle_loads json_dumps_B
                 cs dim) wB) ∧
   ∀ w', ConvertPickleToBinary.main_with pickle_loads json_dumps_B cs dim wB
           = (Ok (), w') →
     ∃ m, files w' !! ConvertPickleToBinary.metadata_path
            = Some (json_dumps_B m) ∧
          read_chunks (files w')
            (Z.to_nat (ConvertPickleToBinary.embedding_dimensions m))
            (chunk_path_B <$> ConvertPickleToBinary.chunks m)
          = Some (rows (astype_float32 emb))).
Proof.
  intros Hcs Hrect Hrows HD Hf Hp. split; split.
  - intros Hmk Hq. apply convert_completes; [lia|done..].
  - intros w' Hrun.
    apply convert_success in Hrun as [Hm Hchunks]; [|lia].
    eexists. split; [exact Hm|].
    cbn [ConvertVectorDatabase.manifest ConvertVectorDatabase.chunks
         ConvertVectorDatabase.embedding_dimension shape snd].
    rewrite Nat2Z.id, <- list_fmap_compose, <- Hrows.
    apply (read_grid _ _ (ConvertVectorDatabase.chunk_path dir));
      [done..|].
    intros i Hi. rewrite Hrows in Hi |- *. by apply Hchunks.
  - intros Hmk Hq Hshape. by apply (main_completes _ _ ks emb bs).
  - intros w' Hrun.
    apply (main_success _ _ ks emb bs) in Hrun as (Hshape & Hm & Hchunks);
      [|done..].
    injection Hshape as _ Hdim.
    eexists. split; [exact Hm|].
    cbn [ConvertPickleToBinary.manifest ConvertPickleToBinary.chunks
         ConvertPickleToBinary.embedding_dimensions].
    rewrite <- Hdim, Nat2Z.id, <- list_fmap_compose, <- Hrows.
    apply (read_grid _ _ ConvertPickleToBinary.chunk_path); [done..|].
    intros i Hi. rewrite Hrows in Hi |- *. by apply Hchunks.
Qed.

(** C10.  In the manifest of [scripts/convert-pickle-to-binary.py] the
    flat index has one entry per keyword, and the entry [e] at global
    position [g] satisfies [chunk_id * cs + local_index = g], names the
    keyword at [g], and has [0 <= local_index < keyword_count] of the chunk
    record of its [chunk_id]; the embedding of that keyword is row
    [local_index] of that chunk's file: element [col] of the row occupies
    the four bytes from offset [(local_index * D + col) * 4]. *)
Theorem C10_flat_index (ks : list string) (emb : ndarray T) (cs dim : Z)
    (bs : list Z) (w : world) :
  0 < cs →
  rectangular emb →
  files w !! ConvertPickleToBinary.pickle_path = Some bs →
  pickle_loads bs = Ok (Database (Some ks) (Some emb)) →
  ∀ w', ConvertPickleToBinary.main_with pickle_loads json_dumps_B cs dim w
          = (Ok (), w') →
    ∃ m, files w' !! ConvertPickleToBinary.metadata_path
           = Some (json_dumps_B m) ∧
         len (ConvertPickleToBinary.keywords m) = len ks ∧
         ∀ (g : nat) e,
           ConvertPickleToBinary.keywords m !! g = Some e →
           ConvertPickleToBinary.entry_chunk_id e * cs
             + ConvertPickleToBinary.local_index e = Z.of_nat g ∧
           ks !! g = Some (ConvertPickleToBinary.keyword e) ∧
           ∃ c bytes,
             ConvertPickleToBinary.chunks m
               !! Z.to_nat (ConvertPickleToBinary.entry_chunk_id e) = Some c ∧
             ConvertPickleToBinary.chunk_id c
               = ConvertPickleToBinary.entry_chunk_id e ∧
             0 ≤ ConvertPickleToBinary.local_index e
               < ConvertPickleToBinary.keyword_count c ∧
             files w' !! chunk_path_B c = Some bytes ∧
             ∀ (col k : nat) row x,
               rows emb !! g = Some row → row !! col = Some x → (k < 4)%nat →
               bytes !! ((Z.to_nat (ConvertPickleToBinary.local_index e)
                          * ncols emb + col) * 4 + k)%nat
               = Some (le_byte (to_float32 x) (Z.of_nat k)).
Proof.
  intros Hcs Hrect Hf Hp w' Hrun.
  apply (main_success _ _ ks emb bs) in Hrun as (Hshape & Hm & Hchunks);
    [|done..].
  injection Hshape as Hrows _.
  pose proof (num_chunks_bounds (len ks) cs ltac:(unfold len; lia) Hcs)
    as (Hn0 & Hn1 & Hn2).
  eexists. split; [exact Hm|].
  cbn [ConvertPickleToBinary.manifest ConvertPickleToBinary.keywords
       ConvertPickleToBinary.chunks].
  rewrite index_flat by done. split.
  { rewrite len_fmap. apply length_range. unfold len. lia. }
  intros g e He. rewrite list_lookup_fmap in He.
  destruct (range (len ks) !! g) as [g'|] eqn:Hg; [|done].
  apply lookup_seqZ in Hg as [-> Hg]. rewrite Z.add_0_l in He.
  injection He as <-.
  cbn [ConvertPickleToBinary.entry_chunk_id ConvertPickleToBinary.local_index
       ConvertPickleToBinary.keyword].
  rewrite Nat2Z.id.
  pose proof (Z.div_mod (Z.of_nat g) cs ltac:(lia)) as Hdm.
  pose proof (Z.mod_pos_bound (Z.of_nat g) cs Hcs) as Hmod.
  assert (0 ≤ Z.of_nat g / cs) as Hq0 by (apply Z.div_pos; lia).
  assert (Z.of_nat g / cs < (len ks + cs - 1) / cs) as Hq1 by nia.
  split; [lia|]. split.
  { destruct (ks !! g) eqn:Hk; [done|].
    apply lookup_ge_None in Hk. unfold len in Hg. lia. }
  eexists (ConvertPickleToBinary.chunk_record_at cs (len ks) (Z.of_nat g / cs)),
    _.
  split.
  { rewrite list_lookup_fmap. unfold range.
    rewrite lookup_seqZ_lt by lia. simpl. do 3 f_equal. lia. }
  split; [done|].
  pose proof (chunk_inside (len ks) cs ltac:(unfold len; lia) Hcs
                (Z.of_nat g / cs) ltac:(lia)) as Hin.
  split; [simpl; lia|]. split; [apply Hchunks; lia|].
  intros col k row x Hrow Hx Hk.
  destruct (slice_bytes_layout emb (Z.of_nat g / cs * cs)
              (Z.min (Z.of_nat g / cs * cs + cs) (len ks)) Hrect
              ltac:(lia) ltac:(lia)) as [_ Hlay].
  apply (Hlay _ col k row x); [lia| |done|done].
  rewrite <- Hrow. f_equal. lia.
Qed.

(** C8 (amended).  Every chunk file is named [chunk_<NNN>.bin] where
    [<NNN>] is the decimal chunk id, zero-padded to a minimum width: 2 in
    [convert_to_binary_chunks], 3 in [scripts/convert-pickle-to-binary.py].
    The field has exactly that width for ids below 100 (below 1000), is
    never shorter, and reads back as the id.  The name recorded in a chunk
    record is the name of the file the chunk was written to, and the run
    writes no other file than those and the manifest. *)
Theorem C8_chunk_file_names (ks : list string) (emb : ndarray T) (dir : string)
    (cs dim : Z) (bs : list Z) (wA wB : world) :
  0 < cs →
  files wB !! ConvertPickleToBinary.pickle_path = Some bs →
  pickle_loads bs = Ok (Database (Some ks) (Some emb)) →
  (∀ w', ConvertVectorDatabase.convert_to_binary_chunks json_dumps_A
           (Database (Some ks) (Some emb)) dir cs wA = (Ok (), w') →
     ∃ m, files w' !! ConvertVectorDatabase.metadata_path dir
            = Some (json_dumps_A m) ∧
          (∀ c, c ∈ ConvertVectorDatabase.chunks m →
             let field := format_0d 2 (ConvertVectorDatabase.chunk_id c) in
             ConvertVectorDatabase.filename c = "chunk_" +:+ field +:+ ".bin" ∧
             parse_decimal field
               = Some (Z.to_N (ConvertVectorDatabase.chunk_id c)) ∧
             (2 ≤ String.length field)%nat ∧
             (ConvertVectorDatabase.chunk_id c < 100 →
              String.length field = 2%nat) ∧
             is_Some (files w' !! chunk_path_A dir c)) ∧
          (∀ p, p ≠ ConvertVectorDatabase.metadata_path dir →
             (∀ c, c ∈ ConvertVectorDatabase.chunks m →
                   p ≠ chunk_path_A dir c) →
             files w' !! p = files wA !! p))
  ∧
  (∀ w', ConvertPickleToBinary.main_with pickle_loads json_dumps_B cs dim wB
           = (Ok (), w') →
     ∃ m, files w' !! ConvertPickleToBinary.metadata_path
            = Some (json_dumps_B m) ∧
          (∀ c, c ∈ ConvertPickleToBinary.chunks m →
             let field := format_0d 3 (ConvertPickleToBinary.chunk_id c) in
             ConvertPickleToBinary.file_path c = "chunk_" +:+ field +:+ ".bin" ∧
             parse_decimal field
               = Some (Z.to_N (ConvertPickleToBinary.chunk_id c)) ∧
             (3 ≤ String.length field)%nat ∧
             (ConvertPickleToBinary.chunk_id c < 1000 →
              String.length field = 3%nat) ∧
             is_Some (files w' !! chunk_path_B c)) ∧
          (∀ p, p ≠ ConvertPickleToBinary.metadata_path →
             (∀ c, c ∈ ConvertPickleToBinary.chunks m → p ≠ chunk_path_B c) →
             files w' !! p = files wB !! p)).
Proof.
  intros Hcs Hf Hp. split.
  - intros w' Hrun.
    pose proof Hrun as Hrun'.
    apply convert_success in Hrun' as [Hm Hchunks]; [|lia].
    eexists. split; [exact Hm|]. split.
    + intros c (i & -> & Hi%elem_of_seqZ)%list_elem_of_fmap field.
      subst field. cbn [ConvertVectorDatabase.chunk_info_at
        ConvertVectorDatabase.chunk_id ConvertVectorDatabase.filename].
      split; [done|]. split; [apply parse_format_0d; lia|].
      split; [apply min_width_format_0d; lia|].
      split; [intros ?; apply width_2_below_100; lia|].
      eexists. apply Hchunks. lia.
    + intros p Hp1 Hp2.
      apply (convert_frame json_dumps_A ks emb dir cs wA (Ok ())); [lia|done..|].
      intros i Hi.
      apply (Hp2 (ConvertVectorDatabase.chunk_info_at ks cs i)).
      apply list_elem_of_fmap. exists i. split; [done|].
      apply elem_of_seqZ. lia.
  - intros w' Hrun.
    pose proof Hrun as Hrun'.
    apply (main_success _ _ ks emb bs) in Hrun' as (_ & Hm & Hchunks);
      [|done..].
    eexists. split; [exact Hm|]. split.
    + intros c (i & -> & Hi%elem_of_seqZ)%list_elem_of_fmap field.
      subst field. cbn [ConvertPickleToBinary.chunk_record_at
        ConvertPickleToBinary.chunk_id ConvertPickleToBinary.file_path].
      split; [done|]. split; [apply parse_format_0d; lia|].
      split; [apply min_width_format_0d; lia|].
      split; [intros ?; apply width_3_below_1000; lia|].
      eexists. apply Hchunks. lia.
    + intros p Hp1 Hp2.
      apply (main_frame pickle_loads json_dumps_B ks emb bs cs dim wB (Ok ()));
        [done..|].
      intros i Hi.
      apply (Hp2 (ConvertPickleToBinary.chunk_record_at cs (len ks) i)).
      apply list_elem_of_fmap. exists i. split; [done|].
      apply elem_of_seqZ. lia.
Qed.

(** C9.  Two runs on the same KeywordVectorSet with the same chunk size,
    from any two worlds (other files, other clocks) and, for
    [convert_to_binary_chunks], into any two output directories: the chunk
    files named by the manifest are byte-identical, and into fresh
    directories no other file appears; the manifests of
    [convert_to_binary_chunks] are the same, those of the script the same but
    for [created_at], which is the clock of each run. *)
Theorem C9_deterministic (ks : list string) (emb : ndarray T)
    (dir1 dir2 : string) (cs dim : Z) (bs1 bs2 : list Z)
    (wA1 wA2 wB1 wB2 : world) :
  0 < cs →
  files wB1 !! ConvertPickleToBinary.pickle_path = Some bs1 →
  pickle_loads bs1 = Ok (Database (Some ks) (Some emb)) →
  files wB2 !! ConvertPickleToBinary.pickle_path = Some bs2 →
  pickle_loads bs2 = Ok (Database (Some ks) (Some emb)) →
  (∀ w1' w2',
     ConvertVectorDatabase.convert_to_binary_chunks json_dumps_A
       (Database (Some ks) (Some emb)) dir1 cs wA1 = (Ok (), w1') →
     ConvertVectorDatabase.convert_to_binary_chunks json_dumps_A
       (Database (Some ks) (Some emb)) dir2 cs wA2 = (Ok (), w2') →
     ∃ m, files w1' !! ConvertVectorDatabase.metadata_path dir1
            = Some (json_dumps_A m) ∧
          files w2' !! ConvertVectorDatabase.metadata_path dir2
            = Some (json_dumps_A m) ∧
          (∀ c, c ∈ ConvertVectorDatabase.chunks m →
             ∃ bytes, files w1' !! chunk_path_A dir1 c = Some bytes ∧
                      files w2' !! chunk_path_A dir2 c = Some bytes) ∧
          (fresh_dir wA1 dir1 → fresh_dir wA2 dir2 →
           ∀ name, starts_with_slash name = false →
             name ≠ "metadata.json"%string →
             files w1' !! path_join dir1 name
             = files w2' !! path_join dir2 name))
  ∧
  (∀ w1' w2',
     ConvertPickleToBinary.main_with pickle_loads json_dumps_B cs dim wB1
       = (Ok (), w1') →
     ConvertPickleToBinary.main_with pickle_loads json_dumps_B cs dim wB2
       = (Ok (), w2') →
     ∃ m1 m2,
       files w1' !! ConvertPickleToBinary.metadata_path
         = Some (json_dumps_B m1) ∧
       files w2' !! ConvertPickleToBinary.metadata_path
         = Some (json_dumps_B m2) ∧
       ConvertPickleToBinary.created_at m1 = clock wB1 ∧
       ConvertPickleToBinary.created_at m2 = clock wB2 ∧
       without_created_at m1 = without_created_at m2 ∧
       (∀ c, c ∈ ConvertPickleToBinary.chunks m1 →
          ∃ bytes, files w1' !! chunk_path_B c = Some bytes ∧
                   files w2' !! chunk_path_B c = Some bytes) ∧
       (fresh_dir wB1 ConvertPickleToBinary.embeddings_dir →
        fresh_dir wB2 ConvertPickleToBinary.embeddings_dir →
        ∀ name, starts_with_slash name = false →
          files w1' !! path_join ConvertPickleToBinary.embeddings_dir name
          = files w2' !! path_join ConvertPickleToBinary.embeddings_dir name)).
Proof.
  intros Hcs Hf1 Hp1 Hf2 Hp2. split.
  - intros w1' w2' Hrun1 Hrun2.
    pose proof Hrun1 as [Hm1 Hc1]%convert_success; [|lia].
    pose proof Hrun2 as [Hm2 Hc2]%convert_success; [|lia].
    eexists. split; [exact Hm1|]. split; [exact Hm2|]. split.
    + intros c (i & -> & Hi%elem_of_seqZ)%list_elem_of_fmap.
      eexists. split; [apply Hc1; lia|apply Hc2; lia].
    + intros Hfresh1 Hfresh2 name Hname Hnm.
      destruct (name_in_range
                  (λ i, ("chunk_" +:+ format_0d 2 i +:+ ".bin")%string)
                  ((len ks + cs - 1) / cs) name) as [(i & Hi & ->)|Hno].
      * fold (ConvertVectorDatabase.chunk_path dir1 i).
        fold (ConvertVectorDatabase.chunk_path dir2 i).
        by rewrite Hc1, Hc2.
      * rewrite (convert_frame json_dumps_A ks emb dir1 cs wA1 (Ok ()) w1');
          [|lia|done| |].
        rewrite (convert_frame json_dumps_A ks emb dir2 cs wA2 (Ok ()) w2');
          [|lia|done| |].
        -- by rewrite Hfresh1, Hfresh2.
        -- intros Heq. by apply path_join_inj in Heq.
        -- intros i Hi Heq. apply path_join_inj in Heq; [|done..].
           by apply (Hno i).
        -- intros Heq. by apply path_join_inj in Heq.
        -- intros i Hi Heq. apply path_join_inj in Heq; [|done..].
           by apply (Hno i).
  - intros w1' w2' Hrun1 Hrun2.
    pose proof Hrun1 as (_ & Hm1 & Hc1)%(main_success _ _ ks emb bs1);
      [|done..].
    pose proof Hrun2 as (_ & Hm2 & Hc2)%(main_success _ _ ks emb bs2);
      [|done..].
    eexists _, _. split; [exact Hm1|]. split; [exact Hm2|].
    split; [done|]. split; [done|]. split; [done|]. split.
    + intros c (i & -> & Hi%elem_of_seqZ)%list_elem_of_fmap.
      eexists. split; [apply Hc1; lia|apply Hc2; lia].
    + intros Hfresh1 Hfresh2 name Hname.
      destruct (name_in_range
                  (λ i, ("chunk_" +:+ format_0d 3 i +:+ ".bin")%string)
                  ((len ks + cs - 1) / cs) name) as [(i & Hi & ->)|Hno].
      * fold (ConvertPickleToBinary.chunk_path i).
        by rewrite Hc1, Hc2.
      * rewrite (main_frame pickle_loads json_dumps_B ks emb bs1 cs dim wB1
                   (Ok ()) w1'); [|done..| |].
        rewrite (main_frame pickle_loads json_dumps_B ks emb bs2 cs dim wB2
                   (Ok ()) w2'); [|done..| |].
        -- by rewrite Hfresh1, Hfresh2.
        -- rewrite path_join_relative by done. discriminate.
        -- intros i Hi Heq. apply path_join_inj in Heq; [|done..].
           by apply (Hno i).
        -- rewrite path_join_relative by done. discriminate.
        -- intros i Hi Heq. apply path_join_inj in Heq; [|done..].
           by apply (Hno i).
Qed.



End Claims.

(** The scenario of the spec, chunk size 2: both runs complete. *)
Lemma C3_chunk_counts_witness :
  completes (ConvertVectorDatabase.convert_to_binary_chunks
               (Dtype0 := Sample.wrap32) Sample.dumps_A Sample.db "out" 2)
    Sample.fresh
  ∧ completes (ConvertPickleToBinary.main_with (Dtype0 := Sample.wrap32)
                 Sample.pickle_loads Sample.dumps_B 2 2)
      Sample.loaded.
Proof.
  destruct (C3_chunk_counts (Dtype0 := Sample.wrap32) Sample.pickle_loads
              Sample.dumps_A Sample.dumps_B Sample.keywords Sample.embeddings
              "out" 2 2 Sample.pickle Sample.fresh Sample.loaded)
    as [[HA _] [HB _]]; [lia|reflexivity|reflexivity|].
  split; [apply HA; [vm_compute; reflexivity|constructor]
         |apply HB; [vm_compute; reflexivity|constructor|reflexivity]].
Defined.

(** The scenario of the spec: the run of the script completes and the
    records of its manifest obey C7 as amended. *)
Lemma C7_chunk_records_witness :
  ∃ w',
    ConvertPickleToBinary.main_with (Dtype0 := Sample.wrap32)
      Sample.pickle_loads Sample.dumps_B 2 2 Sample.loaded = (Ok (), w') ∧
    ∃ m, files w' !! ConvertPickleToBinary.metadata_path
           = Some (Sample.dumps_B m) ∧
         ∀ c, c ∈ ConvertPickleToBinary.chunks m →
           ConvertPickleToBinary.start_index c
             = ConvertPickleToBinary.chunk_id c * 2 ∧
           ConvertPickleToBinary.end_index c
             = Z.min (ConvertPickleToBinary.start_index c + 2)
                 (len Sample.keywords) - 1 ∧
           ConvertPickleToBinary.keyword_count c
             = ConvertPickleToBinary.end_index c
               - ConvertPickleToBinary.start_index c + 1.
Proof.
  eexists. split; [apply run_ok; vm_compute; reflexivity|].
  apply (C7_chunk_records (Dtype0 := Sample.wrap32) Sample.pickle_loads
           Sample.dumps_A Sample.dumps_B Sample.keywords Sample.embeddings
           "out" 2 2 Sample.pickle Sample.fresh Sample.loaded);
    [lia|reflexivity|reflexivity|apply run_ok; vm_compute; reflexivity].
Defined.

(** C7 as stated fails on the script at its own constants: for one
    keyword the only chunk record has [end_index = 0], not the exclusive end
    [min(0 + 2000, 1) = 1], and [keyword_count = 1] is not [end_index -
    start_index = 0]. *)
Lemma C7_counterexample :
  ∃ w' c,
    ConvertPickleToBinary.main (Dtype0 := Sample.wrap32)
      Sample.pickle_loads_one Sample.dumps_B Sample.loaded_one = (Ok (), w') ∧
    files w' !! ConvertPickleToBinary.metadata_path
      = Some (Sample.dumps_B
                (ConvertPickleToBinary.manifest ["a"%string]
                   ConvertPickleToBinary.CHUNK_SIZE
                   ConvertPickleToBinary.EMBEDDING_DIM
                   (clock Sample.loaded_one))) ∧
    ConvertPickleToBinary.chunks
      (ConvertPickleToBinary.manifest ["a"%string]
         ConvertPickleToBinary.CHUNK_SIZE ConvertPickleToBinary.EMBEDDING_DIM
         (clock Sample.loaded_one)) = [c] ∧
    ConvertPickleToBinary.end_index c
      ≠ Z.min (ConvertPickleToBinary.start_index c
               + ConvertPickleToBinary.CHUNK_SIZE) 1 ∧
    ConvertPickleToBinary.keyword_count c
      ≠ ConvertPickleToBinary.end_index c - ConvertPickleToBinary.start_index c.
Proof.
  eexists _, _. split; [apply run_ok; vm_compute; reflexivity|].
  split; [vm_compute; reflexivity|].
  split; [vm_compute; reflexivity|]. by vm_compute.
Qed.

(** The scenario of the spec: the manifest of [convert_to_binary_chunks]
    lists ["a"; "b"] then ["c"]. *)
Lemma C4_keyword_order_witness :
  ∃ w',
    ConvertVectorDatabase.convert_to_binary_chunks (Dtype0 := Sample.wrap32)
      Sample.dumps_A Sample.db "out" 2 Sample.fresh = (Ok (), w') ∧
    ∃ m, files w' !! ConvertVectorDatabase.metadata_path "out"
           = Some (Sample.dumps_A m) ∧
         ConvertVectorDatabase.chunk_id <$> ConvertVectorDatabase.chunks m
           = range (len (ConvertVectorDatabase.chunks m)) ∧
         (∀ c, c ∈ ConvertVectorDatabase.chunks m →
            ConvertVectorDatabase.keywords c
            = slice Sample.keywords (ConvertVectorDatabase.start_index c)
                (ConvertVectorDatabase.end_index c)) ∧
         concat (ConvertVectorDatabase.keywords
                   <$> ConvertVectorDatabase.chunks m) = Sample.keywords.
Proof.
  eexists. split; [apply run_ok; vm_compute; reflexivity|].
  apply (C4_keyword_order (Dtype0 := Sample.wrap32) Sample.pickle_loads
           Sample.dumps_A Sample.dumps_B Sample.keywords Sample.embeddings
           "out" 2 2 Sample.pickle Sample.fresh Sample.loaded);
    [lia|reflexivity|reflexivity|apply run_ok; vm_compute; reflexivity].
Defined.

(** The scenario of the spec: the two chunk files of the script are
    there, 16 and 8 bytes long, and laid out as C2 says. *)
Lemma C2_chunk_file_layout_witness :
  ∃ w',
    ConvertPickleToBinary.main_with (Dtype0 := Sample.wrap32)
      Sample.pickle_loads Sample.dumps_B 2 2 Sample.loaded = (Ok (), w') ∧
    ∀ i, 0 ≤ i < ceil_div (len Sample.keywords) 2 →
      let start := i * 2 in
      let count := Z.min (start + 2) (len Sample.keywords) - start in
      ∃ bytes,
        files w' !! ConvertPickleToBinary.chunk_path i = Some bytes ∧
        len bytes = count * Z.of_nat (ncols Sample.embeddings) * 4 ∧
        ∀ (r col k : nat) row x,
          Z.of_nat r < count →
          rows Sample.embeddings !! (Z.to_nat start + r)%nat = Some row →
          row !! col = Some x → (k < 4)%nat →
          bytes !! ((r * ncols Sample.embeddings + col) * 4 + k)%nat
          = Some (le_byte (to_float32 (Dtype := Sample.wrap32) x)
                    (Z.of_nat k)).
Proof.
  destruct (C2_chunk_file_layout (Dtype0 := Sample.wrap32) Sample.pickle_loads
              Sample.dumps_A Sample.dumps_B Sample.keywords Sample.embeddings
              "out" 2 2 Sample.pickle Sample.fresh Sample.loaded)
    as [_ HB];
    [lia|repeat constructor|reflexivity|reflexivity|reflexivity|].
  eexists. split; [apply run_ok; vm_compute; reflexivity|].
  refine (proj1 (HB _ _)). apply run_ok. vm_compute. reflexivity.
Defined.

(** The scenario of the spec: the two chunk files of
    [convert_to_binary_chunks], read back, are the three rows. *)
Lemma C1_round_trip_witness :
  ∃ w',
    ConvertVectorDatabase.convert_to_binary_chunks (Dtype0 := Sample.wrap32)
      Sample.dumps_A Sample.db "out" 2 Sample.fresh = (Ok (), w') ∧
    ∃ m, files w' !! ConvertVectorDatabase.metadata_path "out"
           = Some (Sample.dumps_A m) ∧
         read_chunks (files w')
           (Z.to_nat (ConvertVectorDatabase.embedding_dimension m))
           (chunk_path_A "out" <$> ConvertVectorDatabase.chunks m)
         = Some [[1; 2]; [3; 4]; [5; 6]].
Proof.
  eexists. split; [apply run_ok; vm_compute; reflexivity|].
  apply (C1_round_trip (Dtype0 := Sample.wrap32) Sample.pickle_loads
           Sample.dumps_A Sample.dumps_B Sample.keywords Sample.embeddings
           "out" 2 2 Sample.pickle Sample.fresh Sample.loaded);
    [lia|repeat constructor|reflexivity|simpl; lia|reflexivity|reflexivity
    |apply run_ok; vm_compute; reflexivity].
Defined.

(** C1 as stated fails for [D = 0]: [convert_to_binary_chunks] writes an
    empty chunk file for the one row of a [1 × 0] matrix, and the file read
    back holds no row. *)
Lemma C1_counterexample :
  ∃ w',
    ConvertVectorDatabase.convert_to_binary_chunks (Dtype0 := Sample.wrap32)
      Sample.dumps_A Sample.db_flat "out" 1 Sample.fresh = (Ok (), w') ∧
    rectangular Sample.embeddings_flat ∧
    len (rows Sample.embeddings_flat) = len ["a"%string] ∧
    files w' !! ConvertVectorDatabase.metadata_path "out"
      = Some (Sample.dumps_A
                (ConvertVectorDatabase.manifest ["a"%string]
                   Sample.embeddings_flat 1)) ∧
    read_chunks (files w') (ncols Sample.embeddings_flat)
      (chunk_path_A "out"
         <$> ConvertVectorDatabase.chunks
               (ConvertVectorDatabase.manifest ["a"%string]
                  Sample.embeddings_flat 1))
    = Some [] ∧
    rows (astype_float32 (H := Sample.wrap32) Sample.embeddings_flat) = [[]] ∧
    Some [] ≠ Some (rows (astype_float32 (H := Sample.wrap32)
                            Sample.embeddings_flat)).
Proof.
  eexists. split; [apply run_ok; vm_compute; reflexivity|].
  split; [repeat constructor|].
  split; [reflexivity|]. split; [vm_compute; reflexivity|].
  split; [vm_compute; reflexivity|]. split; [reflexivity|done].
Qed.

(** The scenario of the spec: the third keyword is entry 2 of the index,
    chunk 1, local row 0. *)
Lemma C10_flat_index_witness :
  ∃ w',
    ConvertPickleToBinary.main_with (Dtype0 := Sample.wrap32)
      Sample.pickle_loads Sample.dumps_B 2 2 Sample.loaded = (Ok (), w') ∧
    ∃ m, files w' !! ConvertPickleToBinary.metadata_path
           = Some (Sample.dumps_B m) ∧
         len (ConvertPickleToBinary.keywords m) = 3 ∧
         ∀ (g : nat) e,
           ConvertPickleToBinary.keywords m !! g = Some e →
           ConvertPickleToBinary.entry_chunk_id e * 2
             + ConvertPickleToBinary.local_index e = Z.of_nat g ∧
           Sample.keywords !! g = Some (ConvertPickleToBinary.keyword e) ∧
           ∃ c bytes,
             ConvertPickleToBinary.chunks m
               !! Z.to_nat (ConvertPickleToBinary.entry_chunk_id e) = Some c ∧
             ConvertPickleToBinary.chunk_id c
               = ConvertPickleToBinary.entry_chunk_id e ∧
             0 ≤ ConvertPickleToBinary.local_index e
               < ConvertPickleToBinary.keyword_count c ∧
             files w' !! chunk_path_B c = Some bytes ∧
             ∀ (col k : nat) row x,
               rows Sample.embeddings !! g = Some row →
               row !! col = Some x → (k < 4)%nat →
               bytes !! ((Z.to_nat (ConvertPickleToBinary.local_index e)
                          * ncols Sample.embeddings + col) * 4 + k)%nat
               = Some (le_byte (to_float32 (Dtype := Sample.wrap32) x)
                         (Z.of_nat k)).
Proof.
  eexists. split; [apply run_ok; vm_compute; reflexivity|].
  apply (C10_flat_index (Dtype0 := Sample.wrap32) Sample.pickle_loads
           Sample.dumps_B Sample.keywords Sample.embeddings 2 2
           Sample.pickle Sample.loaded);
    [lia|repeat constructor|reflexivity|reflexivity|apply run_ok; vm_compute; reflexivity].
Defined.

(** The scenario of the spec: the names the script records are the names
    of the files it wrote. *)
Lemma C8_chunk_file_names_witness :
  ∃ w',
    ConvertPickleToBinary.main_with (Dtype0 := Sample.wrap32)
      Sample.pickle_loads Sample.dumps_B 2 2 Sample.loaded = (Ok (), w') ∧
    ∃ m, files w' !! ConvertPickleToBinary.metadata_path
           = Some (Sample.dumps_B m) ∧
         (∀ c, c ∈ ConvertPickleToBinary.chunks m →
            let field := format_0d 3 (ConvertPickleToBinary.chunk_id c) in
            ConvertPickleToBinary.file_path c = "chunk_" +:+ field +:+ ".bin" ∧
            parse_decimal field
              = Some (Z.to_N (ConvertPickleToBinary.chunk_id c)) ∧
            (3 ≤ String.length field)%nat ∧
            (ConvertPickleToBinary.chunk_id c < 1000 →
             String.length field = 3%nat) ∧
            is_Some (files w' !! chunk_path_B c)) ∧
         (∀ p, p ≠ ConvertPickleToBinary.metadata_path →
            (∀ c, c ∈ ConvertPickleToBinary.chunks m → p ≠ chunk_path_B c) →
            files w' !! p = files Sample.loaded !! p).
Proof.
  eexists. split; [apply run_ok; vm_compute; reflexivity|].
  apply (C8_chunk_file_names (Dtype0 := Sample.wrap32) Sample.pickle_loads
           Sample.dumps_A Sample.dumps_B Sample.keywords Sample.embeddings
           "out" 2 2 Sample.pickle Sample.fresh Sample.loaded);
    [lia|reflexivity|reflexivity|apply run_ok; vm_compute; reflexivity].
Defined.

(** C8 as stated fails beyond a hundred chunks: with 101 keywords and a
    chunk size of 1, [convert_to_binary_chunks] names chunk 0
    [chunk_00.bin] and chunk 100 [chunk_100.bin], a field of width 2 and a
    field of width 3 in one export. *)
Lemma C8_counterexample :
  ∃ w',
    ConvertVectorDatabase.convert_to_binary_chunks (Dtype0 := Sample.wrap32)
      Sample.dumps_A Sample.db_101 "out" 1 Sample.fresh = (Ok (), w') ∧
    files w' !! ConvertVectorDatabase.metadata_path "out"
      = Some (Sample.dumps_A
                (ConvertVectorDatabase.manifest Sample.keywords_101
                   Sample.embeddings_101 1)) ∧
    ConvertVectorDatabase.filename
      <$> ConvertVectorDatabase.chunks
            (ConvertVectorDatabase.manifest Sample.keywords_101
               Sample.embeddings_101 1) !! 0%nat
    = Some "chunk_00.bin"%string ∧
    ConvertVectorDatabase.filename
      <$> ConvertVectorDatabase.chunks
            (ConvertVectorDatabase.manifest Sample.keywords_101
               Sample.embeddings_101 1) !! 100%nat
    = Some "chunk_100.bin"%string ∧
    is_Some (files w' !! "out/chunk_00.bin"%string) ∧
    is_Some (files w' !! "out/chunk_100.bin"%string).
Proof.
  eexists. split; [apply run_ok; vm_compute; reflexivity|].
  split; [vm_compute; reflexivity|].
  split; [vm_compute; reflexivity|].
  split; [vm_compute; reflexivity|].
  split; eexists; vm_compute; reflexivity.
Qed.

(** The scenario of the spec, run by the script at two different times on
    two different disks: same chunk files, manifests equal but for the
    timestamp. *)
Lemma C9_deterministic_witness :
  ∃ w1' w2',
    ConvertPickleToBinary.main_with (Dtype0 := Sample.wrap32)
      Sample.pickle_loads Sample.dumps_B 2 2 Sample.loaded = (Ok (), w1') ∧
    ConvertPickleToBinary.main_with (Dtype0 := Sample.wrap32)
      Sample.pickle_loads Sample.dumps_B 2 2 Sample.loaded_later
      = (Ok (), w2') ∧
    ∃ m1 m2,
      files w1' !! ConvertPickleToBinary.metadata_path
        = Some (Sample.dumps_B m1) ∧
      files w2' !! ConvertPickleToBinary.metadata_path
        = Some (Sample.dumps_B m2) ∧
      ConvertPickleToBinary.created_at m1 = clock Sample.loaded ∧
      ConvertPickleToBinary.created_at m2 = clock Sample.loaded_later ∧
      without_created_at m1 = without_created_at m2 ∧
      (∀ c, c ∈ ConvertPickleToBinary.chunks m1 →
         ∃ bytes, files w1' !! chunk_path_B c = Some bytes ∧
                  files w2' !! chunk_path_B c = Some bytes) ∧
      (fresh_dir Sample.loaded ConvertPickleToBinary.embeddings_dir →
       fresh_dir Sample.loaded_later ConvertPickleToBinary.embeddings_dir →
       ∀ name, starts_with_slash name = false →
         files w1' !! path_join ConvertPickleToBinary.embeddings_dir name
         = files w2' !! path_join ConvertPickleToBinary.embeddings_dir name).
Proof.
  eexists _, _. split; [apply run_ok; vm_compute; reflexivity|].
  split; [apply run_ok; vm_compute; reflexivity|].
  apply (C9_deterministic (Dtype0 := Sample.wrap32) Sample.pickle_loads
           Sample.dumps_A Sample.dumps_B Sample.keywords Sample.embeddings
           "out" "elsewhere" 2 2 Sample.pickle Sample.pickle
           Sample.fresh Sample.fresh Sample.loaded Sample.loaded_later);
    [lia|reflexivity|reflexivity|reflexivity|reflexivity
    |apply run_ok; vm_compute; reflexivity
    |apply run_ok; vm_compute; reflexivity].
Defined.




(** A manifest left by an earlier run is not removed either: a second run
    into the same directory that fails on its first chunk leaves the old
    manifest in place, next to a truncated [chunk_00.bin]. *)
Lemma stale_manifest_survives :
  (ConvertVectorDatabase.convert_to_binary_chunks (Dtype0 := Sample.wrap32)
     Sample.dumps_A Sample.db "out" 2 Sample.rerun_disk_full).1
  = Raise OSError ∧
  files (ConvertVectorDatabase.convert_to_binary_chunks
           (Dtype0 := Sample.wrap32) Sample.dumps_A Sample.db "out" 2
           Sample.rerun_disk_full).2 !! "out/metadata.json"%string
  = Some [0; 0; 2; 2; 1; 2; 3; 1] ∧
  files (ConvertVectorDatabase.convert_to_binary_chunks
           (Dtype0 := Sample.wrap32) Sample.dumps_A Sample.db "out" 2
           Sample.rerun_disk_full).2 !! "out/chunk_00.bin"%string
  = Some [1; 0; 0].
Proof. repeat split; vm_compute; reflexivity. Qed.

(** ** The scenario of the spec *)

(** Keywords ["a"; "b"; "c"], dimension 2, chunk size 2: the records
    [convert_to_binary_chunks] dumps, and the sizes of its two files. *)
Lemma scenario_records :
  ConvertVectorDatabase.chunks
    (ConvertVectorDatabase.manifest Sample.keywords Sample.embeddings 2)
  = [ConvertVectorDatabase.ChunkInfo 0 "chunk_00.bin" 0 2 2 ["a"; "b"]%string;
     ConvertVectorDatabase.ChunkInfo 1 "chunk_01.bin" 2 3 1 ["c"]%string].
Proof. reflexivity. Qed.

Lemma scenario_files :
  (ConvertVectorDatabase.convert_to_binary_chunks (Dtype0 := Sample.wrap32)
     Sample.dumps_A Sample.db "out" 2 Sample.fresh).1 = Ok () ∧
  length <$> files (ConvertVectorDatabase.convert_to_binary_chunks
                      (Dtype0 := Sample.wrap32) Sample.dumps_A Sample.db
                      "out" 2 Sample.fresh).2 !! "out/chunk_00.bin"%string
  = Some 16%nat ∧
  length <$> files (ConvertVectorDatabase.convert_to_binary_chunks
                      (Dtype0 := Sample.wrap32) Sample.dumps_A Sample.db
                      "out" 2 Sample.fresh).2 !! "out/chunk_01.bin"%string
  = Some 8%nat.
Proof. repeat split; vm_compute; reflexivity. Qed.

(** With dimension 0 the chunk files do not tell one row from two:
    whatever a reader makes of an empty file, it cannot give back both
    matrices. *)
Lemma flat_matrices_same_files :
  files (ConvertVectorDatabase.convert_to_binary_chunks
           (Dtype0 := Sample.wrap32) Sample.dumps_A
           (Database (Some ["a"]%string) (Some (NDArray 0 [[]])))
           "out" 2 Sample.fresh).2 !! "out/chunk_00.bin"%string
  = Some [] ∧
  files (ConvertVectorDatabase.convert_to_binary_chunks
           (Dtype0 := Sample.wrap32) Sample.dumps_A
           (Database (Some ["a"; "b"]%string) (Some (NDArray 0 [[]; []])))
           "out" 2 Sample.fresh).2 !! "out/chunk_00.bin"%string
  = Some [].
Proof. split; vm_compute; reflexivity. Qed.

(** [os.makedirs(d, exist_ok=True)] on these disks: the empty path cannot
    be created; a regular file at ["out"] blocks ["out"], ["out/"] and
    everything below; the operating system may refuse; a directory that
    holds files already, and one that is not there yet, are fine. *)
Lemma makedirs_examples :
  mkdir_error "" Sample.fresh = Some FileNotFoundError ∧
  mkdir_error "out" Sample.out_is_a_file = Some FileExistsError ∧
  mkdir_error "out/" Sample.out_is_a_file = Some FileExistsError ∧
  mkdir_error "out/chunks" Sample.out_is_a_file = Some NotADirectoryError ∧
  mkdir_error "out/a/b" Sample.out_is_a_file = Some NotADirectoryError ∧
  mkdir_error "out" Sample.out_refused = Some OSError ∧
  mkdir_error "out" Sample.rerun_disk_full = None ∧
  mkdir_error "out/a/b" Sample.fresh = None ∧
  mkdir_error "." Sample.fresh = None ∧
  mkdir_error "/" Sample.fresh = None.
Proof. repeat split; vm_compute; reflexivity. Qed.

(** With a regular file in the place of the output directory
    [convert_to_binary_chunks] raises [FileExistsError] and writes nothing,
    whatever the container holds. *)
Lemma blocked_directory_stops_the_run :
  ConvertVectorDatabase.convert_to_binary_chunks (Dtype0 := Sample.wrap32)
    Sample.dumps_A Sample.db "out" 2 Sample.out_is_a_file
  = (Raise FileExistsError, Sample.out_is_a_file) ∧
  ConvertVectorDatabase.convert_to_binary_chunks (Dtype0 := Sample.wrap32)
    Sample.dumps_A (Database None None) "" 2 Sample.fresh
  = (Raise FileNotFoundError, Sample.fresh).
Proof. split; reflexivity. Qed.

(** ** Further properties of the exporters *)

Section EdgeCases.

Context {T : Type} `{!Dtype T}.
Context (pickle_loads : list Z → result (database T)).
Context (json_dumps_A : ConvertVectorDatabase.metadata → list Z).
Context (json_dumps_B : ConvertPickleToBinary.metadata → list Z).

(** X1.  [convert_to_binary_chunks] makes the output directory, then
    reads [keywords], then [embeddings], then divides by the chunk size,
    all before its first write.  A directory that cannot be made raises
    the error of [os.makedirs] ([FileNotFoundError] for the empty path)
    whatever the container holds.  Once the directory is there, a
    container without [keywords] raises [KeyError('keywords')] (also when
    [embeddings] is missing too), one without [embeddings] only raises
    [KeyError('embeddings')], and a chunk size of 0 raises
    [ZeroDivisionError].  In each case no file is written. *)
Theorem X1_convert_fails_before_writing (db : database T) (dir : string)
    (cs : Z) (w : world) :
  (∀ e, mkdir_error dir w = Some e →
   ConvertVectorDatabase.convert_to_binary_chunks json_dumps_A db dir cs w
   = (Raise e, w)) ∧
  (dir = EmptyString →
   ConvertVectorDatabase.convert_to_binary_chunks json_dumps_A db dir cs w
   = (Raise FileNotFoundError, w)) ∧
  (can_makedirs w dir →
   (db_keywords db = None →
    ConvertVectorDatabase.convert_to_binary_chunks json_dumps_A db dir cs w
    = (Raise (KeyError "keywords"), w)) ∧
   (is_Some (db_keywords db) → db_embeddings db = None →
    ConvertVectorDatabase.convert_to_binary_chunks json_dumps_A db dir cs w
    = (Raise (KeyError "embeddings"), w)) ∧
   (is_Some (db_keywords db) → is_Some (db_embeddings db) → cs = 0 →
    ConvertVectorDatabase.convert_to_binary_chunks json_dumps_A db dir cs w
    = (Raise ZeroDivisionError, w))).
Proof.
  split; [by intros e He; apply convert_mkdir_fails|].
  split; [by intros ->; apply convert_mkdir_fails|].
  intros Hmk.
  unfold ConvertVectorDatabase.convert_to_binary_chunks,
    get_keywords, get_embeddings, floordiv.
  run_step. rewrite makedirs_ok by done.
  destruct db as [[ks|] [emb|]]; cbn [db_keywords db_embeddings].
  - split; [done|]. split; [done|]. intros _ _ ->. by rewrite decide_True.
  - split; [done|]. split; [done|]. by intros _ [? [=]].
  - split; [done|]. split; by intros [? [=]].
  - split; [done|]. split; by intros [? [=]].
Qed.

(** X2.  [convert_to_binary_chunks] does not reject a negative chunk
    size: with [chunk_size < 0] and at least [1 - chunk_size] keywords the
    number of chunks it computes is zero or negative, the loop does not
    run, and, when the output directory can be created and the write does
    not fail, the run completes having written only a manifest that lists
    no chunk for its [total_keywords] keywords. *)
Theorem X2_negative_chunk_size (ks : list string) (emb : ndarray T)
    (dir : string) (cs : Z) (w : world) :
  cs < 0 → 1 - cs ≤ len ks → can_makedirs w dir → quiet w →
  ∃ w' m,
    ConvertVectorDatabase.convert_to_binary_chunks json_dumps_A
      (Database (Some ks) (Some emb)) dir cs w = (Ok (), w') ∧
    files w' !! ConvertVectorDatabase.metadata_path dir
      = Some (json_dumps_A m) ∧
    ConvertVectorDatabase.chunks m = [] ∧
    ConvertVectorDatabase.num_chunks m ≤ 0 ∧
    ConvertVectorDatabase.total_keywords m = len ks ∧
    ConvertVectorDatabase.chunk_size m = cs ∧
    ∀ p, p ≠ ConvertVectorDatabase.metadata_path dir →
         files w' !! p = files w !! p.
Proof.
  intros Hcs HN Hmk Hq.
  assert ((len ks + cs - 1) / cs ≤ 0) as Hn.
  { Z.div_mod_to_equations. nia. }
  destruct (convert_run json_dumps_A ks emb dir cs w ltac:(lia) Hmk)
    as (r & w' & Hrun & _ & Hfr & Hr).
  destruct r as [[]|e].
  - destruct Hr as (_ & _ & Hm). eexists w', _.
    split; [exact Hrun|]. split; [exact Hm|].
    cbn [ConvertVectorDatabase.manifest ConvertVectorDatabase.chunks
         ConvertVectorDatabase.num_chunks ConvertVectorDatabase.total_keywords
         ConvertVectorDatabase.chunk_size].
    split; [unfold range; by rewrite seqZ_nil|].
    split; [done|]. split; [done|]. split; [done|].
    intros p Hp. apply Hfr; [done|]. intros i Hi. lia.
  - destruct Hr as (_ & Hb & _). destruct Hb. by apply quiet_benign.
Qed.

(** X3.  No two chunk records of a manifest name the same file, however
    many chunks there are (the number field grows beyond its minimum
    width), and none names the manifest: no write of a run overwrites
    another. *)
Theorem X3_chunk_paths_distinct (ks : list string) (emb : ndarray T)
    (dir : string) (cs dim : Z) (bs : list Z) (wA wB : world) :
  0 < cs →
  files wB !! ConvertPickleToBinary.pickle_path = Some bs →
  pickle_loads bs = Ok (Database (Some ks) (Some emb)) →
  (∀ w', ConvertVectorDatabase.convert_to_binary_chunks json_dumps_A
           (Database (Some ks) (Some emb)) dir cs wA = (Ok (), w') →
     ∃ m, files w' !! ConvertVectorDatabase.metadata_path dir
            = Some (json_dumps_A m) ∧
          NoDup (chunk_path_A dir <$> ConvertVectorDatabase.chunks m) ∧
          ConvertVectorDatabase.metadata_path dir
            ∉ (chunk_path_A dir <$> ConvertVectorDatabase.chunks m))
  ∧
  (∀ w', ConvertPickleToBinary.main_with pickle_loads json_dumps_B cs dim wB
           = (Ok (), w') →
     ∃ m, files w' !! ConvertPickleToBinary.metadata_path
            = Some (json_dumps_B m) ∧
          NoDup (chunk_path_B <$> ConvertPickleToBinary.chunks m) ∧
          (ConvertPickleToBinary.metadata_path
             ∉ (chunk_path_B <$> ConvertPickleToBinary.chunks m)) ∧
          (ConvertPickleToBinary.pickle_path
             ∉ (chunk_path_B <$> ConvertPickleToBinary.chunks m))).
Proof.
  intros Hcs Hf Hp. split.
  - intros w' Hrun. apply convert_success in Hrun as [Hm _]; [|lia].
    eexists. split; [exact Hm|].
    cbn [ConvertVectorDatabase.manifest ConvertVectorDatabase.chunks].
    rewrite <- list_fmap_compose. split.
    + apply NoDup_fmap_range. intros i j Hi Hj. by apply chunk_path_inj.
    + apply not_elem_of_fmap_range. intros i _ Heq. symmetry in Heq.
      by apply chunk_path_not_manifest in Heq.
  - intros w' Hrun.
    apply (main_success _ _ ks emb bs) in Hrun as (_ & Hm & _); [|done..].
    eexists. split; [exact Hm|].
    cbn [ConvertPickleToBinary.manifest ConvertPickleToBinary.chunks].
    rewrite <- list_fmap_compose. split; [|split].
    + apply NoDup_fmap_range. intros i j Hi Hj. by apply chunk_path_inj.
    + apply not_elem_of_fmap_range. intros i _ Heq. symmetry in Heq.
      by apply chunk_path_B_not_manifest in Heq.
    + apply not_elem_of_fmap_range. intros i _ Heq. simpl in Heq.
      unfold chunk_path_B in Heq. cbn [ConvertPickleToBinary.file_path
        ConvertPickleToBinary.chunk_record_at] in Heq.
      rewrite path_join_relative in Heq by done. discriminate.
Qed.

End EdgeCases.

(** Three keywords cut every [-1]: nothing but an empty manifest. *)
Lemma X2_negative_chunk_size_witness :
  ∃ w' m,
    ConvertVectorDatabase.convert_to_binary_chunks (Dtype0 := Sample.wrap32)
      Sample.dumps_A Sample.db "out" (-1) Sample.fresh = (Ok (), w') ∧
    files w' !! ConvertVectorDatabase.metadata_path "out"
      = Some (Sample.dumps_A m) ∧
    ConvertVectorDatabase.chunks m = [] ∧
    ConvertVectorDatabase.num_chunks m ≤ 0 ∧
    ConvertVectorDatabase.total_keywords m = 3 ∧
    ConvertVectorDatabase.chunk_size m = -1 ∧
    ∀ p, p ≠ ConvertVectorDatabase.metadata_path "out" →
         files w' !! p = files Sample.fresh !! p.
Proof.
  apply (X2_negative_chunk_size (Dtype0 := Sample.wrap32) Sample.dumps_A
           Sample.keywords Sample.embeddings "out" (-1) Sample.fresh);
    [lia|by vm_compute|vm_compute; reflexivity|constructor].
Defined.

(** The scenario of the spec: two chunk files, two paths. *)
Lemma X3_chunk_paths_distinct_witness :
  ∃ w',
    ConvertVectorDatabase.convert_to_binary_chunks (Dtype0 := Sample.wrap32)
      Sample.dumps_A Sample.db "out" 2 Sample.fresh = (Ok (), w') ∧
    ∃ m, files w' !! ConvertVectorDatabase.metadata_path "out"
           = Some (Sample.dumps_A m) ∧
         NoDup (chunk_path_A "out" <$> ConvertVectorDatabase.chunks m) ∧
         ConvertVectorDatabase.metadata_path "out"
           ∉ (chunk_path_A "out" <$> ConvertVectorDatabase.chunks m).
Proof.
  eexists. split; [apply run_ok; vm_compute; reflexivity|].
  apply (X3_chunk_paths_distinct (Dtype0 := Sample.wrap32)
           Sample.pickle_loads Sample.dumps_A Sample.dumps_B
           Sample.keywords Sample.embeddings "out" 2 2
           Sample.pickle Sample.fresh Sample.loaded);
    [lia|reflexivity|reflexivity|apply run_ok; vm_compute; reflexivity].
Defined.

(** ** Runs that stop at a failed write *)

Section FailedWrite.

Context {S : Type}.
Context (body : Z → S → M S) (path : Z → string) (data : Z → list Z)
        (step : Z → S → S).

(** A write loop that raises stopped at the first write that failed: the
    files before it are complete, the others as they were. *)
Lemma write_loop_failure (all : list Z) :
  (∀ i acc w, i ∈ all →
     body i acc w = (write_file (path i) (data i) ≫= λ _, mret (step i acc)) w) →
  NoDup (path <$> all) →
  ∀ acc w e w', for_each all acc body w = (Raise e, w') →
    ∃ (k : nat) x,
      all !! k = Some x ∧ benign k w ∧ ¬ benign (Datatypes.S k) w ∧
      (∀ (j : nat) y, (j < k)%nat → all !! j = Some y →
         files w' !! path y = Some (data y)) ∧
      (∀ p, (∀ (j : nat) y, (j ≤ k)%nat → all !! j = Some y → p ≠ path y) →
         files w' !! p = files w !! p) ∧
      (files w' !! path x = files w !! path x ∨
       ∃ n, files w' !! path x = Some (take n (data x))).
Proof.
  induction all as [|x0 xs IH]; intros Hbody Hnd acc w e w' Hrun.
  - discriminate.
  - rewrite fmap_cons in Hnd. apply NoDup_cons in Hnd as [Hx0 Hnd].
    cbn [for_each] in Hrun. rewrite bind_run, Hbody in Hrun by left.
    rewrite bind_run in Hrun.
    destruct (write_file_spec (path x0) (data x0) w)
      as (r1 & w1 & Hw & Hc1 & Hf1 & Hfr1 & Hr1).
    rewrite Hw in Hrun. destruct r1 as [[]|e1].
    + destruct Hr1 as [Hb1 Hw1]. unfold mret, M_ret, ret in Hrun.
      cbn beta iota in Hrun.
      destruct (IH (λ i a w Hi, Hbody i a w (list_elem_of_further _ _ _ Hi))
                  Hnd _ _ _ _ Hrun)
        as (k & x & Hk & Hbk & Hnbk & Hdone & Hfr & Hx).
      assert (Hxs : ∀ (j : nat) y, xs !! j = Some y → path y ≠ path x0).
      { intros j y Hj Heq. apply Hx0. rewrite <- Heq.
        apply list_elem_of_fmap. exists y. split; [done|].
        by apply list_elem_of_lookup_2 in Hj. }
      exists (Datatypes.S k), x. split; [done|].
      split; [apply benign_S; split; [done|]; by rewrite <- Hf1|].
      split.
      { rewrite benign_S. intros [_ Hb']. apply Hnbk.
        apply benign_S. unfold benign in Hb'. rewrite <- Hf1 in Hb'.
        by apply benign_S in Hb'. }
      split; [|split].
      * intros [|j] y Hj Hy.
        -- injection Hy as <-. rewrite Hfr; [done|].
           intros j' y' _ Hy'. symmetry. by apply (Hxs j').
        -- apply (Hdone j); [lia|done].
      * intros p Hp. rewrite Hfr.
        -- apply Hfr1. apply (Hp 0%nat x0); [lia|done].
        -- intros j y Hj Hy. apply (Hp (Datatypes.S j) y); [lia|done].
      * rewrite <- (Hfr1 (path x)) by (by apply (Hxs k)). done.
    + destruct Hr1 as (-> & Hb1 & Hx). injection Hrun as <- <-.
      exists 0%nat, x0. split; [done|].
      split; [unfold benign; by rewrite take_0|]. split; [done|].
      split; [intros j y Hj; lia|]. split; [|done].
      intros p Hp. apply Hfr1. apply (Hp 0%nat x0); [lia|done].
Qed.

End FailedWrite.

Section PartialOutput.

Context {T : Type} `{!Dtype T}.
Context (pickle_loads : list Z → result (database T)).
Context (json_dumps_A : ConvertVectorDatabase.metadata → list Z).
Context (json_dumps_B : ConvertPickleToBinary.metadata → list Z).

(** The failed runs of [convert_to_binary_chunks], write by write. *)
Lemma convert_failure ks emb dir cs w e w' :
  0 < cs → can_makedirs w dir →
  ConvertVectorDatabase.convert_to_binary_chunks json_dumps_A
    (Database (Some ks) (Some emb)) dir cs w = (Raise e, w') →
  ∃ k : nat,
    Z.of_nat k ≤ (len ks + cs - 1) / cs ∧
    benign k w ∧ ¬ benign (S k) w ∧
    (∀ i, 0 ≤ i < Z.of_nat k →
       files w' !! ConvertVectorDatabase.chunk_path dir i
       = Some (ConvertVectorDatabase.chunk_bytes emb cs (len ks) i)) ∧
    (∀ i, Z.of_nat k < i →
       files w' !! ConvertVectorDatabase.chunk_path dir i
       = files w !! ConvertVectorDatabase.chunk_path dir i) ∧
    (Z.of_nat k < (len ks + cs - 1) / cs →
       files w' !! ConvertVectorDatabase.metadata_path dir
       = files w !! ConvertVectorDatabase.metadata_path dir).
Proof.
  intros Hcs Hmk.
  pose proof (num_chunks_bounds (len ks) cs ltac:(unfold len; lia) Hcs)
    as (Hn0 & _ & _).
  set (n := (len ks + cs - 1) / cs) in *.
  unfold ConvertVectorDatabase.convert_to_binary_chunks,
    get_keywords, get_embeddings, floordiv.
  cbn [db_keywords db_embeddings]. run_step. rewrite makedirs_ok by done.
  rewrite decide_False by lia. run_step. fold n.
  set (m0 := ConvertVectorDatabase.Metadata _ _ _ _ _ []).
  set (body := ConvertVectorDatabase.write_chunk ks emb dir cs (len ks)).
  assert (Hbody : ∀ i acc w0, i ∈ range n →
    body i acc w0
    = (write_file (ConvertVectorDatabase.chunk_path dir i)
         (ConvertVectorDatabase.chunk_bytes emb cs (len ks) i) ≫= λ _,
       mret (ConvertVectorDatabase.append_chunk acc
               (ConvertVectorDatabase.chunk_info_at ks cs i))) w0)
    by done.
  assert (Hnd : NoDup (ConvertVectorDatabase.chunk_path dir <$> range n)).
  { apply NoDup_fmap_range. intros i j Hi Hj. by apply chunk_path_inj. }
  destruct (for_each (range n) m0 body w) as [[m|e1] w1] eqn:Hloop.
  - destruct (write_loop body _ _ _ (range n) Hbody Hnd m0 w)
      as (r & w1' & Hrun & _ & Hfr & Hr).
    rewrite Hloop in Hrun. injection Hrun as <- <-.
    destruct Hr as (_ & Hb & Hfa & Hw).
    unfold range in Hb, Hfa. rewrite length_seqZ in Hb, Hfa.
    destruct (write_file_spec (ConvertVectorDatabase.metadata_path dir)
                (json_dumps_A m) w1)
      as (r2 & w2 & Hw2 & _ & _ & Hfr2 & Hr2).
    fold (ConvertVectorDatabase.metadata_path dir). rewrite Hw2.
    intros [= -> <-]. destruct Hr2 as (_ & Hb2 & _).
    exists (Z.to_nat n). rewrite Z2Nat.id by done.
    split; [lia|]. split; [done|].
    split; [by rewrite <- (benign_snoc _ _ w1)|].
    split; [|split; [|lia]].
    + intros i Hi. rewrite Hfr2.
      * apply Hw. apply elem_of_seqZ. lia.
      * intros Heq. by apply chunk_path_not_manifest in Heq.
    + intros i Hi. rewrite Hfr2.
      * apply Hfr. apply not_elem_of_fmap_range. intros j Hj Heq.
        apply chunk_path_inj in Heq; lia.
      * intros Heq. by apply chunk_path_not_manifest in Heq.
  - intros [= -> <-].
    destruct (write_loop_failure body _ _ _ (range n) Hbody Hnd m0 w e w1 Hloop)
      as (k & x & Hk & Hbk & Hnbk & Hdone & Hfr & _).
    apply lookup_seqZ in Hk as [-> Hk].
    exists k. split; [lia|]. split; [done|]. split; [done|].
    split; [|split].
    + intros i Hi. apply (Hdone (Z.to_nat i)); [lia|].
      apply lookup_seqZ. split; lia.
    + intros i Hi. apply Hfr. intros j y Hj [-> _]%lookup_seqZ Heq.
      apply chunk_path_inj in Heq; lia.
    + intros _. apply Hfr. intros j y Hj _ Heq. symmetry in Heq.
      by apply chunk_path_not_manifest in Heq.
Qed.

(** The failed writes of steps 2 and 3 of [main], write by write. *)
Lemma export_failure ks emb cs dim w e w' :
  0 < cs → can_makedirs w ConvertPickleToBinary.embeddings_dir →
  ConvertPickleToBinary.export json_dumps_B cs dim emb ks w = (Raise e, w') →
  ∃ k : nat,
    Z.of_nat k ≤ (len ks + cs - 1) / cs ∧
    benign k w ∧ ¬ benign (S k) w ∧
    (∀ i, 0 ≤ i < Z.of_nat k →
       files w' !! ConvertPickleToBinary.chunk_path i
       = Some (ConvertPickleToBinary.chunk_bytes emb cs (len ks) i)) ∧
    (∀ i, Z.of_nat k < i →
       files w' !! ConvertPickleToBinary.chunk_path i
       = files w !! ConvertPickleToBinary.chunk_path i) ∧
    (Z.of_nat k < (len ks + cs - 1) / cs →
       files w' !! ConvertPickleToBinary.metadata_path
       = files w !! ConvertPickleToBinary.metadata_path).
Proof.
  intros Hcs Hmk.
  pose proof (num_chunks_bounds (len ks) cs ltac:(unfold len; lia) Hcs)
    as (Hn0 & _ & _).
  set (n := (len ks + cs - 1) / cs) in *.
  unfold ConvertPickleToBinary.export, floordiv. run_step.
  rewrite makedirs_ok by done.
  rewrite decide_False by lia. run_step. fold n.
  set (body := ConvertPickleToBinary.write_chunk cs ks emb (len ks)).
  set (acc0 := ([], []) : list ConvertPickleToBinary.chunk_record
                          * list ConvertPickleToBinary.keyword_entry).
  assert (Hbody : ∀ i acc w0, i ∈ range n →
    body i acc w0
    = (write_file (ConvertPickleToBinary.chunk_path i)
         (ConvertPickleToBinary.chunk_bytes emb cs (len ks) i) ≫= λ _,
       mret (acc.1 ++ [ConvertPickleToBinary.chunk_record_at cs (len ks) i],
             acc.2 ++ ConvertPickleToBinary.index_block ks cs i)) w0).
  { intros i acc w0 Hi%elem_of_seqZ. apply write_chunk_step; [done|].
    fold n. lia. }
  assert (Hnd : NoDup (ConvertPickleToBinary.chunk_path <$> range n)).
  { apply NoDup_fmap_range. intros i j Hi Hj. by apply chunk_path_inj. }
  destruct (for_each (range n) acc0 body w) as [[acc|e1] w1] eqn:Hloop.
  - destruct (write_loop body _ _ _ (range n) Hbody Hnd acc0 w)
      as (r & w1' & Hrun & _ & Hfr & Hr).
    rewrite Hloop in Hrun. injection Hrun as <- <-.
    destruct Hr as (_ & Hb & Hfa & Hw).
    unfold range in Hb, Hfa. rewrite length_seqZ in Hb, Hfa.
    destruct acc as [chunks kidx]. unfold datetime_now. cbn beta iota.
    match goal with
    | |- write_file ?p ?d w1 = _ → _ =>
        destruct (write_file_spec p d w1)
          as (r2 & w2 & Hw2 & _ & _ & Hfr2 & Hr2); rewrite Hw2
    end.
    intros [= -> <-]. destruct Hr2 as (_ & Hb2 & _).
    exists (Z.to_nat n). rewrite Z2Nat.id by done.
    split; [lia|]. split; [done|].
    split; [by rewrite <- (benign_snoc _ _ w1)|].
    split; [|split; [|lia]].
    + intros i Hi. rewrite Hfr2.
      * apply Hw. apply elem_of_seqZ. lia.
      * intros Heq. by apply chunk_path_B_not_manifest in Heq.
    + intros i Hi. rewrite Hfr2.
      * apply Hfr. apply not_elem_of_fmap_range. intros j Hj Heq.
        apply chunk_path_inj in Heq; lia.
      * intros Heq. by apply chunk_path_B_not_manifest in Heq.
  - intros [= -> <-].
    destruct (write_loop_failure body _ _ _ (range n) Hbody Hnd acc0 w e w1
                Hloop)
      as (k & x & Hk & Hbk & Hnbk & Hdone & Hfr & _).
    apply lookup_seqZ in Hk as [-> Hk].
    exists k. split; [lia|]. split; [done|]. split; [done|].
    split; [|split].
    + intros i Hi. apply (Hdone (Z.to_nat i)); [lia|].
      apply lookup_seqZ. split; lia.
    + intros i Hi. apply Hfr. intros j y Hj [-> _]%lookup_seqZ Heq.
      apply chunk_path_inj in Heq; lia.
    + intros _. apply Hfr. intros j y Hj _ Heq. symmetry in Heq.
      by apply chunk_path_B_not_manifest in Heq.
Qed.

(** X4.  Once the output directory is made, a run that fails on a write
    (the only way [convert_to_binary_chunks] can still fail, with
    [OSError]) stopped at the first write the operating system refused or
    cut short, write number [k] counting from 0: the
    chunk files [0 .. k-1] are on disk in full, the chunk files after [k]
    are as they were before the run, and unless all chunks had been written
    ([k] is the number of chunks) the manifest path is as it was.  Nothing
    already written is rolled back. *)
Theorem X4_partial_output (ks : list string) (emb : ndarray T) (dir : string)
    (cs dim : Z) (bs : list Z) (wA wB : world) :
  0 < cs →
  files wB !! ConvertPickleToBinary.pickle_path = Some bs →
  pickle_loads bs = Ok (Database (Some ks) (Some emb)) →
  (can_makedirs wA dir →
   ∀ e w',
     ConvertVectorDatabase.convert_to_binary_chunks json_dumps_A
       (Database (Some ks) (Some emb)) dir cs wA = (Raise e, w') →
     e = OSError ∧
     ∃ k : nat,
       Z.of_nat k ≤ (len ks + cs - 1) / cs ∧
       benign k wA ∧ ¬ benign (S k) wA ∧
       (∀ i, 0 ≤ i < Z.of_nat k →
          files w' !! ConvertVectorDatabase.chunk_path dir i
          = Some (ConvertVectorDatabase.chunk_bytes emb cs (len ks) i)) ∧
       (∀ i, Z.of_nat k < i →
          files w' !! ConvertVectorDatabase.chunk_path dir i
          = files wA !! ConvertVectorDatabase.chunk_path dir i) ∧
       (Z.of_nat k < (len ks + cs - 1) / cs →
          files w' !! ConvertVectorDatabase.metadata_path dir
          = files wA !! ConvertVectorDatabase.metadata_path dir))
  ∧
  (can_makedirs wB ConvertPickleToBinary.embeddings_dir →
   ∀ w',
     ConvertPickleToBinary.main_with pickle_loads json_dumps_B cs dim wB
       = (Raise OSError, w') →
     ∃ k : nat,
       Z.of_nat k ≤ (len ks + cs - 1) / cs ∧
       benign k wB ∧ ¬ benign (S k) wB ∧
       (∀ i, 0 ≤ i < Z.of_nat k →
          files w' !! ConvertPickleToBinary.chunk_path i
          = Some (ConvertPickleToBinary.chunk_bytes emb cs (len ks) i)) ∧
       (∀ i, Z.of_nat k < i →
          files w' !! ConvertPickleToBinary.chunk_path i
          = files wB !! ConvertPickleToBinary.chunk_path i) ∧
       (Z.of_nat k < (len ks + cs - 1) / cs →
          files w' !! ConvertPickleToBinary.metadata_path
          = files wB !! ConvertPickleToBinary.metadata_path)).
Proof.
  intros Hcs Hf Hp. split.
  - intros Hmk e w' Hrun.
    split; [|by apply (convert_failure ks emb dir cs wA e)].
    destruct (convert_run json_dumps_A ks emb dir cs wA ltac:(lia) Hmk)
      as (r & w1 & Hrun' & _ & _ & Hr).
    rewrite Hrun in Hrun'. injection Hrun' as <- <-. by destruct Hr.
  - intros Hmk w'. rewrite (main_with_loaded _ _ ks emb bs) by done.
    case_decide; [|done]. by apply export_failure.
Qed.

End PartialOutput.

(** The scenario of the spec with a refused [open] on the second chunk:
    the first chunk file is on disk in full, the manifest is not. *)
Lemma X4_partial_output_witness :
  ∃ w',
    ConvertVectorDatabase.convert_to_binary_chunks (Dtype0 := Sample.wrap32)
      Sample.dumps_A Sample.db "out" 2 Sample.second_open_refused
    = (Raise OSError, w') ∧
    ∃ k : nat,
      Z.of_nat k ≤ (len Sample.keywords + 2 - 1) / 2 ∧
      benign k Sample.second_open_refused ∧
      ¬ benign (S k) Sample.second_open_refused ∧
      (∀ i, 0 ≤ i < Z.of_nat k →
         files w' !! ConvertVectorDatabase.chunk_path "out" i
         = Some (ConvertVectorDatabase.chunk_bytes (Dtype0 := Sample.wrap32)
                   Sample.embeddings 2 (len Sample.keywords) i)) ∧
      (∀ i, Z.of_nat k < i →
         files w' !! ConvertVectorDatabase.chunk_path "out" i
         = files Sample.second_open_refused
             !! ConvertVectorDatabase.chunk_path "out" i) ∧
      (Z.of_nat k < (len Sample.keywords + 2 - 1) / 2 →
         files w' !! ConvertVectorDatabase.metadata_path "out"
         = files Sample.second_open_refused
             !! ConvertVectorDatabase.metadata_path "out").
Proof.
  eexists. split; [apply run_raise; vm_compute; reflexivity|].
  refine (proj2 (proj1 (X4_partial_output (Dtype0 := Sample.wrap32)
                          Sample.pickle_loads Sample.dumps_A Sample.dumps_B
                          Sample.keywords Sample.embeddings "out" 2 2
                          Sample.pickle Sample.second_open_refused
                          Sample.loaded ltac:(lia) eq_refl eq_refl)
                   _ OSError _ _)).
  - vm_compute. reflexivity.
  - apply run_raise. vm_compute. reflexivity.
Defined.

(** ** What [main] of the script raises, keeps and reports *)

Section ScriptMain.

Context {T : Type} `{!Dtype T}.
Context (pickle_loads : list Z → result (database T)).
Context (json_dumps_B : ConvertPickleToBinary.metadata → list Z).

Lemma export_raises_OSError ks emb cs dim w e w' :
  0 < cs → can_makedirs w ConvertPickleToBinary.embeddings_dir →
  ConvertPickleToBinary.export json_dumps_B cs dim emb ks w = (Raise e, w') →
  e = OSError ∧ ¬ quiet w.
Proof.
  intros Hcs Hmk Hrun.
  destruct (export_run json_dumps_B cs dim ks emb w Hcs Hmk)
    as (r & w1 & Hrun' & _ & _ & Hr).
  rewrite Hrun in Hrun'. injection Hrun' as <- <-.
  destruct Hr as (-> & Hb & _). split; [done|].
  intros Hq. apply Hb. by apply quiet_benign.
Qed.

(** The classes of the errors of [mkdir]. *)
Lemma mkdir_error_class d w e :
  mkdir_error d w = Some e →
  e = FileNotFoundError ∨ e = NotADirectoryError ∨ e = FileExistsError ∨
  e = OSError.
Proof.
  unfold mkdir_error. repeat case_match; intros [= <-]; eauto.
Qed.

(** X5.  For a positive chunk size, [main] of
    [scripts/convert-pickle-to-binary.py] raises [FileNotFoundError] for a
    missing pickle, the exception of [pickle.load], a [KeyError] for a
    missing key, [ValueError] for a wrong shape, the error of [mkdir] when
    [data/embeddings_chunks] cannot be made, or the [OSError] of a write
    the operating system refused.  Its own loops raise nothing: the lookups
    [keywords[start_index + i]] of the index loop are always in range and
    the division is never by zero, so an [IndexError] or a
    [ZeroDivisionError] can only be the one of [pickle.load].  Unless the
    exception is the [OSError] of a write, nothing has been written. *)
Theorem X5_script_exceptions (cs dim : Z) (w : world) (e : exn) (w' : world) :
  0 < cs →
  ConvertPickleToBinary.main_with pickle_loads json_dumps_B cs dim w
    = (Raise e, w') →
  ((files w !! ConvertPickleToBinary.pickle_path = None ∧
    e = FileNotFoundError ∧ w' = w) ∨
   (∃ bs, files w !! ConvertPickleToBinary.pickle_path = Some bs ∧
          pickle_loads bs = Raise e ∧ w' = w) ∨
   (e = KeyError "embeddings" ∧ w' = w) ∨
   (e = KeyError "keywords" ∧ w' = w) ∨
   (e = ValueError ∧ w' = w) ∨
   (mkdir_error ConvertPickleToBinary.embeddings_dir w = Some e ∧ w' = w) ∨
   (e = OSError ∧ can_makedirs w ConvertPickleToBinary.embeddings_dir ∧
    ¬ quiet w)) ∧
  (e = IndexError ∨ e = ZeroDivisionError →
   ∃ bs, files w !! ConvertPickleToBinary.pickle_path = Some bs ∧
         pickle_loads bs = Raise e).
Proof.
  intros Hcs Hrun.
  assert ((files w !! ConvertPickleToBinary.pickle_path = None ∧
           e = FileNotFoundError ∧ w' = w) ∨
          (∃ bs, files w !! ConvertPickleToBinary.pickle_path = Some bs ∧
                 pickle_loads bs = Raise e ∧ w' = w) ∨
          (e = KeyError "embeddings" ∧ w' = w) ∨
          (e = KeyError "keywords" ∧ w' = w) ∨
          (e = ValueError ∧ w' = w) ∨
          (mkdir_error ConvertPickleToBinary.embeddings_dir w = Some e ∧
           w' = w) ∨
          (e = OSError ∧
           can_makedirs w ConvertPickleToBinary.embeddings_dir ∧ ¬ quiet w))
    as Hcases.
  { revert Hrun. unfold ConvertPickleToBinary.main_with.
    rewrite bind_run, load_spec.
    destruct (files w !! ConvertPickleToBinary.pickle_path) as [bs|] eqn:Hf;
      [|intros [= <- <-]; by left].
    destruct (pickle_loads bs) as [[[ks|] [emb|]]|e0] eqn:Hp;
      cbn [db_embeddings db_keywords].
    - case_decide; [|intros [= <- <-]; by eauto 10].
      destruct (makedirs_cases ConvertPickleToBinary.embeddings_dir w)
        as [Hmk|[e1 Hmk]].
      + intros [-> Hq]%export_raises_OSError; [|done..]. by eauto 10.
      + rewrite (export_mkdir_fails _ _ _ _ _ _ _ Hmk).
        intros [= <- <-]. by eauto 10.
    - intros [= <- <-]. by eauto 10.
    - intros [= <- <-]. by eauto 10.
    - intros [= <- <-]. by eauto 10.
    - intros [= <- <-]. right. left. by eauto. }
  split; [done|]. intros He.
  destruct Hcases as [(_ & -> & _)|[(bs & ? & ? & _)|[[-> _]|[[-> _]|[[-> _]
    |[[Hmk _]|(-> & _)]]]]]].
  - by destruct He.
  - by eauto.
  - by destruct He.
  - by destruct He.
  - by destruct He.
  - apply mkdir_error_class in Hmk as [->|[->|[->| ->]]]; by destruct He.
  - by destruct He.
Qed.

(** X6.  No run of [main] of the script touches the pickle it reads,
    whether it completes or fails. *)
Theorem X6_script_keeps_pickle (cs dim : Z) (w : world) (r : result ())
    (w' : world) :
  0 < cs →
  ConvertPickleToBinary.main_with pickle_loads json_dumps_B cs dim w
    = (r, w') →
  files w' !! ConvertPickleToBinary.pickle_path
  = files w !! ConvertPickleToBinary.pickle_path.
Proof.
  intros Hcs Hrun.
  apply main_with_cases in Hrun
    as [[-> _]|(bs & ks & emb & Hf & Hp & Hrun)]; [done|].
  destruct (makedirs_cases ConvertPickleToBinary.embeddings_dir w)
    as [Hmk|[e Hmk]].
  2: { rewrite (export_mkdir_fails _ _ _ _ _ _ _ Hmk) in Hrun.
       by injection Hrun as <- <-. }
  destruct (export_run json_dumps_B cs dim ks emb w Hcs Hmk)
    as (r1 & w1 & Hrun' & _ & Hfr & _).
  rewrite Hrun in Hrun'. injection Hrun' as <- <-. apply Hfr; [done|].
  intros i _. unfold ConvertPickleToBinary.chunk_path.
  rewrite path_join_relative by done. discriminate.
Qed.

Lemma sumZ_scale {A} (f : A → Z) (c : Z) (l : list A) :
  sumZ ((λ x, f x * c) <$> l) = sumZ (f <$> l) * c.
Proof.
  unfold sumZ. induction l as [|x l IH]; [done|].
  cbn [fmap list_fmap foldr] in *. rewrite IH. lia.
Qed.

Lemma total_size_spec (sizes : ConvertPickleToBinary.chunk_record → Z)
    (chunks : list ConvertPickleToBinary.chunk_record) (w : world) :
  (∀ c, c ∈ chunks →
     ∃ bytes, files w !! chunk_path_B c = Some bytes ∧ len bytes = sizes c) →
  ∀ acc,
    for_each chunks acc (λ chunk acc,
      size ← PickleToBinaryReport.stat_size
                (path_join ConvertPickleToBinary.embeddings_dir
                   (ConvertPickleToBinary.file_path chunk));
      mret (acc + size)) w
    = (Ok (acc + sumZ (sizes <$> chunks)), w).
Proof.
  induction chunks as [|c chunks IH]; intros Hfiles acc.
  - simpl. by rewrite Z.add_0_r.
  - cbn [for_each]. rewrite !bind_run.
    destruct (Hfiles c) as (bytes & Hc & Hlen); [left|].
    unfold PickleToBinaryReport.stat_size at 1.
    unfold chunk_path_B in Hc. rewrite Hc. run_step.
    rewrite IH by (intros; apply Hfiles; by right).
    rewrite Hlen. unfold sumZ. cbn [fmap list_fmap foldr].
    replace (acc + sizes c + foldr Z.add 0 (sizes <$> chunks))
      with (acc + (sizes c + foldr Z.add 0 (sizes <$> chunks))) by lia.
    done.
Qed.

(** X7.  After a run of [main] of the script that completes, the total
    binary size it reports, the sum of the sizes of the chunk files named by
    its chunk records, is [total_keywords * embedding_dimensions * 4]
    bytes. *)
Theorem X7_reported_total_size (ks : list string) (emb : ndarray T)
    (cs dim : Z) (bs : list Z) (w : world) :
  0 < cs →
  rectangular emb →
  files w !! ConvertPickleToBinary.pickle_path = Some bs →
  pickle_loads bs = Ok (Database (Some ks) (Some emb)) →
  ∀ w', ConvertPickleToBinary.main_with pickle_loads json_dumps_B cs dim w
          = (Ok (), w') →
    ∃ m, files w' !! ConvertPickleToBinary.metadata_path
           = Some (json_dumps_B m) ∧
         PickleToBinaryReport.total_size (ConvertPickleToBinary.chunks m) w'
         = (Ok (ConvertPickleToBinary.total_keywords m
                * ConvertPickleToBinary.embedding_dimensions m * 4), w').
Proof.
  intros Hcs Hrect Hf Hp w' Hrun.
  apply (main_success _ _ ks emb bs) in Hrun as (Hshape & Hm & Hchunks);
    [|done..].
  injection Hshape as Hrows Hdim.
  eexists. split; [exact Hm|].
  cbn [ConvertPickleToBinary.manifest ConvertPickleToBinary.chunks
       ConvertPickleToBinary.total_keywords
       ConvertPickleToBinary.embedding_dimensions].
  unfold PickleToBinaryReport.total_size.
  rewrite (total_size_spec
             (λ c, ConvertPickleToBinary.keyword_count c * (dim * 4))).
  - rewrite Z.add_0_l, sumZ_scale, keyword_counts_B.
    destruct (grid_tiles (len ks) cs ltac:(unfold len; lia) Hcs)
      as (_ & -> & _). do 2 f_equal. lia.
  - intros c (i & -> & Hi%elem_of_seqZ)%list_elem_of_fmap.
    pose proof (chunk_inside (len ks) cs ltac:(unfold len; lia) Hcs i
                  ltac:(lia)) as Hin.
    eexists. split; [apply Hchunks; lia|].
    destruct (slice_bytes_layout emb (i * cs)
                (Z.min (i * cs + cs) (len ks)) Hrect ltac:(lia) ltac:(lia))
      as [Hlen _].
    unfold ConvertPickleToBinary.chunk_bytes. rewrite Hlen. simpl. lia.
Qed.

End ScriptMain.

(** A pickle whose matrix has the wrong dimension: [main] raises
    [ValueError] and leaves the disk as it was. *)
Lemma X5_script_exceptions_witness :
  ∃ w',
    ConvertPickleToBinary.main (Dtype0 := Sample.wrap32)
      Sample.pickle_loads Sample.dumps_B Sample.loaded
    = (Raise ValueError, w') ∧
    ((files Sample.loaded !! ConvertPickleToBinary.pickle_path = None ∧
      ValueError = FileNotFoundError ∧ w' = Sample.loaded) ∨
     (∃ bs, files Sample.loaded !! ConvertPickleToBinary.pickle_path
              = Some bs ∧
            Sample.pickle_loads bs = Raise ValueError ∧ w' = Sample.loaded) ∨
     (ValueError = KeyError "embeddings" ∧ w' = Sample.loaded) ∨
     (ValueError = KeyError "keywords" ∧ w' = Sample.loaded) ∨
     (ValueError = ValueError ∧ w' = Sample.loaded) ∨
     (mkdir_error ConvertPickleToBinary.embeddings_dir Sample.loaded
        = Some ValueError ∧ w' = Sample.loaded) ∨
     (ValueError = OSError ∧
      can_makedirs Sample.loaded ConvertPickleToBinary.embeddings_dir ∧
      ¬ quiet Sample.loaded)).
Proof.
  eexists. split; [apply run_raise; vm_compute; reflexivity|].
  refine (proj1 (X5_script_exceptions (Dtype0 := Sample.wrap32)
                   Sample.pickle_loads Sample.dumps_B
                   ConvertPickleToBinary.CHUNK_SIZE
                   ConvertPickleToBinary.EMBEDDING_DIM Sample.loaded
                   ValueError _ eq_refl _)).
  apply run_raise. vm_compute. reflexivity.
Defined.

(** The scenario of the spec: the pickle is still there after the run. *)
Lemma X6_script_keeps_pickle_witness :
  ∃ w',
    ConvertPickleToBinary.main_with (Dtype0 := Sample.wrap32)
      Sample.pickle_loads Sample.dumps_B 2 2 Sample.loaded = (Ok (), w') ∧
    files w' !! ConvertPickleToBinary.pickle_path
    = files Sample.loaded !! ConvertPickleToBinary.pickle_path.
Proof.
  eexists. split; [apply run_ok; vm_compute; reflexivity|].
  apply (X6_script_keeps_pickle (Dtype0 := Sample.wrap32) Sample.pickle_loads
           Sample.dumps_B 2 2 Sample.loaded (Ok ()));
    [lia|apply run_ok; vm_compute; reflexivity].
Defined.

(** The scenario of the spec: 3 keywords of dimension 2 make 24 bytes. *)
Lemma X7_reported_total_size_witness :
  ∃ w',
    ConvertPickleToBinary.main_with (Dtype0 := Sample.wrap32)
      Sample.pickle_loads Sample.dumps_B 2 2 Sample.loaded = (Ok (), w') ∧
    ∃ m, files w' !! ConvertPickleToBinary.metadata_path
           = Some (Sample.dumps_B m) ∧
         PickleToBinaryReport.total_size (ConvertPickleToBinary.chunks m) w'
         = (Ok (ConvertPickleToBinary.total_keywords m
                * ConvertPickleToBinary.embedding_dimensions m * 4), w').
Proof.
  eexists. split; [apply run_ok; vm_compute; reflexivity|].
  apply (X7_reported_total_size (Dtype0 := Sample.wrap32) Sample.pickle_loads
           Sample.dumps_B Sample.keywords Sample.embeddings 2 2
           Sample.pickle Sample.loaded);
    [lia|repeat constructor|reflexivity|reflexivity
    |apply run_ok; vm_compute; reflexivity].
Defined.

(** ** scripts/data: the two one-shot scripts *)

Section TempScripts.

Context {T : Type} `{!Dtype T}.
Context (pickle_loads : list Z → result (database T)).
Context (json_dumps_B : ConvertPickleToBinary.metadata → list Z).
Context (json_dumps_keywords : list string → list Z).

Lemma slice_all {A} (l : list A) : slice l 0 (len l) = l.
Proof.
  rewrite slice_inside by (unfold len; lia).
  rewrite drop_0. apply take_ge. unfold len. lia.
Qed.

Lemma slice_rows_all (emb : ndarray T) : slice_rows emb 0 (len (rows emb)) = emb.
Proof. unfold slice_rows. rewrite slice_all. by destruct emb. Qed.

(** The runs of [load-embeddings-temp.py] on a pickle with embeddings. *)
Lemma load_embeddings_run kws emb bs w :
  files w !! LoadEmbeddingsTemp.pickle_path = Some bs →
  pickle_loads bs = Ok (Database kws (Some emb)) →
  LoadEmbeddingsTemp.script pickle_loads w
  = write_file LoadEmbeddingsTemp.output_path
      (tobytes (astype_float32 emb)) w.
Proof.
  intros Hf Hp. unfold LoadEmbeddingsTemp.script, read_file, unpickle,
    get_embeddings.
  run_step. rewrite Hf, Hp. done.
Qed.

(** X8.  [load-embeddings-temp.py] needs only the [embeddings] key (the
    container may lack [keywords]); when no write fails it completes, and
    the one file it writes, [new_keywords/embeddings.bin], holds the whole
    matrix row-major as little-endian float32 values, [N * D * 4] bytes
    with byte [k] of element [(r, col)] at offset [(r * D + col) * 4 + k];
    read back in rows of [D > 0] it gives the matrix cast to float32. *)
Theorem X8_embeddings_bin (kws : option (list string)) (emb : ndarray T)
    (bs : list Z) (w : world) :
  files w !! LoadEmbeddingsTemp.pickle_path = Some bs →
  pickle_loads bs = Ok (Database kws (Some emb)) →
  rectangular emb →
  (quiet w → completes (LoadEmbeddingsTemp.script pickle_loads) w) ∧
  ∀ w', LoadEmbeddingsTemp.script pickle_loads w = (Ok (), w') →
    (∀ p, p ≠ LoadEmbeddingsTemp.output_path →
          files w' !! p = files w !! p) ∧
    ∃ bytes,
      files w' !! LoadEmbeddingsTemp.output_path = Some bytes ∧
      len bytes = len (rows emb) * Z.of_nat (ncols emb) * 4 ∧
      (∀ (r col k : nat) row x,
         rows emb !! r = Some row → row !! col = Some x → (k < 4)%nat →
         bytes !! ((r * ncols emb + col) * 4 + k)%nat
         = Some (le_byte (to_float32 x) (Z.of_nat k))) ∧
      ((0 < ncols emb)%nat →
       read_chunks (files w') (ncols emb) [LoadEmbeddingsTemp.output_path]
       = Some (rows (astype_float32 emb))).
Proof.
  intros Hf Hp Hrect. unfold completes.
  rewrite (load_embeddings_run kws emb bs) by done.
  destruct (write_file_spec LoadEmbeddingsTemp.output_path
              (tobytes (astype_float32 emb)) w)
    as (r & w1 & Hw & _ & _ & Hfr & Hr).
  rewrite Hw. split.
  - intros Hq. destruct r as [[]|e]; [by exists w1|].
    destruct Hr as (_ & Hb & _). destruct Hb. by apply quiet_benign.
  - intros w' [= -> <-]. destruct Hr as [_ Hout]. split; [done|].
    eexists. split; [exact Hout|].
    destruct (slice_bytes_layout emb 0 (len (rows emb)) Hrect
                ltac:(unfold len; lia) ltac:(lia)) as [Hlen Hlay].
    rewrite slice_rows_all in Hlen, Hlay. split; [lia|]. split.
    + intros r col k row x Hrow Hx Hk.
      apply (Hlay r col k row x); [|done..].
      apply lookup_lt_Some in Hrow. unfold len. lia.
    + intros HD. unfold read_chunks. cbn [mapM]. unfold read_chunk.
      rewrite Hout. cbn [mbind option_bind mret option_ret concat].
      rewrite frombuffer_tobytes, reshape_concat; [by rewrite app_nil_r|done|].
      cbn [astype_float32 rows]. apply Forall_fmap.
      eapply Forall_impl; [exact Hrect|]. intros row Hrow. simpl.
      by rewrite length_fmap.
Qed.

Lemma concat_flat_map {A B C} (g : B → list C) (h : A → list B) (l : list A) :
  concat ((λ i, flat_map g (h i)) <$> l) = flat_map g (concat (h <$> l)).
Proof.
  induction l as [|x l IH]; [done|].
  cbn [fmap list_fmap concat]. by rewrite flat_map_app, <- IH.
Qed.

(** The chunk files of a grid, end to end, are the bytes of the matrix. *)
Lemma concat_chunk_bytes (emb : ndarray T) cs :
  0 < cs →
  concat (ConvertPickleToBinary.chunk_bytes emb cs (len (rows emb))
          <$> range ((len (rows emb) + cs - 1) / cs))
  = tobytes (astype_float32 emb).
Proof.
  intros Hcs. unfold ConvertPickleToBinary.chunk_bytes, tobytes.
  cbn [astype_float32 slice_rows rows].
  rewrite (concat_flat_map (flat_map f32_bytes)
             (λ i, (λ row : list T, to_float32 <$> row)
                   <$> slice (rows emb) (i * cs)
                         (Z.min (i * cs + cs) (len (rows emb))))).
  f_equal.
  transitivity
    ((λ row : list T, to_float32 <$> row)
     <$> concat ((λ i, slice (rows emb) (i * cs)
                         (Z.min (i * cs + cs) (len (rows emb))))
                 <$> range ((len (rows emb) + cs - 1) / cs)));
    [|by rewrite concat_slices_all].
  by rewrite fmap_concat, <- list_fmap_compose.
Qed.

(** X9.  The chunk files of [scripts/convert-pickle-to-binary.py], taken
    in the order of the manifest and put end to end, are byte for byte the
    file [load-embeddings-temp.py] writes from the same pickle. *)
Theorem X9_chunks_make_embeddings_bin (ks : list string) (emb : ndarray T)
    (cs dim : Z) (bs1 bs2 : list Z) (w1 w2 : world) :
  0 < cs →
  files w1 !! ConvertPickleToBinary.pickle_path = Some bs1 →
  pickle_loads bs1 = Ok (Database (Some ks) (Some emb)) →
  files w2 !! LoadEmbeddingsTemp.pickle_path = Some bs2 →
  pickle_loads bs2 = Ok (Database (Some ks) (Some emb)) →
  ∀ w1' w2',
    ConvertPickleToBinary.main_with pickle_loads json_dumps_B cs dim w1
      = (Ok (), w1') →
    LoadEmbeddingsTemp.script pickle_loads w2 = (Ok (), w2') →
    ∃ m chunk_files,
      files w1' !! ConvertPickleToBinary.metadata_path
        = Some (json_dumps_B m) ∧
      mapM (λ c, files w1' !! chunk_path_B c) (ConvertPickleToBinary.chunks m)
        = Some chunk_files ∧
      files w2' !! LoadEmbeddingsTemp.output_path = Some (concat chunk_files).
Proof.
  intros Hcs Hf1 Hp1 Hf2 Hp2 w1' w2' Hrun1 Hrun2.
  apply (main_success _ _ ks emb bs1) in Hrun1 as (Hshape & Hm & Hchunks);
    [|done..].
  injection Hshape as Hrows _.
  rewrite (load_embeddings_run (Some ks) emb bs2) in Hrun2 by done.
  destruct (write_file_spec LoadEmbeddingsTemp.output_path
              (tobytes (astype_float32 emb)) w2)
    as (r & w3 & Hw & _ & _ & _ & Hr).
  rewrite Hw in Hrun2. injection Hrun2 as -> <-. destruct Hr as [_ Hout].
  eexists _, _. split; [exact Hm|]. split.
  - cbn [ConvertPickleToBinary.manifest ConvertPickleToBinary.chunks].
    apply (mapM_fmap_Some_ext _ _
             (ConvertPickleToBinary.chunk_bytes emb cs (len ks))).
    intros i Hi%elem_of_seqZ. apply Hchunks. lia.
  - rewrite Hout. f_equal. rewrite <- Hrows. symmetry.
    by apply concat_chunk_bytes.
Qed.

(** The runs of [extract-pickle-temp.py] on a pickle with both keys. *)
Lemma extract_pickle_run ks emb bs w :
  files w !! ExtractPickleTemp.pickle_path = Some bs →
  pickle_loads bs = Ok (Database (Some ks) (Some emb)) →
  ExtractPickleTemp.script pickle_loads json_dumps_keywords w
  = write_file ExtractPickleTemp.output_path (json_dumps_keywords ks) w.
Proof.
  intros Hf Hp. unfold ExtractPickleTemp.script, read_file, unpickle,
    get_embeddings, get_keywords.
  run_step. rewrite Hf, Hp. done.
Qed.

(** X10.  [extract-pickle-temp.py] writes one file,
    [new_keywords/keywords_list.json], the dump of the keyword list as
    stored; that list is the list of the keywords of the flat index
    [scripts/convert-pickle-to-binary.py] builds from the same pickle, in
    index order. *)
Theorem X10_keywords_list (ks : list string) (emb : ndarray T)
    (cs dim : Z) (bs1 bs2 : list Z) (w1 w2 : world) :
  0 < cs →
  files w1 !! ConvertPickleToBinary.pickle_path = Some bs1 →
  pickle_loads bs1 = Ok (Database (Some ks) (Some emb)) →
  files w2 !! ExtractPickleTemp.pickle_path = Some bs2 →
  pickle_loads bs2 = Ok (Database (Some ks) (Some emb)) →
  (quiet w2 →
   completes (ExtractPickleTemp.script pickle_loads json_dumps_keywords) w2) ∧
  ∀ w2', ExtractPickleTemp.script pickle_loads json_dumps_keywords w2
           = (Ok (), w2') →
    files w2' !! ExtractPickleTemp.output_path
      = Some (json_dumps_keywords ks) ∧
    (∀ p, p ≠ ExtractPickleTemp.output_path →
          files w2' !! p = files w2 !! p) ∧
    ∀ w1', ConvertPickleToBinary.main_with pickle_loads json_dumps_B cs dim w1
             = (Ok (), w1') →
      ∃ m, files w1' !! ConvertPickleToBinary.metadata_path
             = Some (json_dumps_B m) ∧
           files w2' !! ExtractPickleTemp.output_path
             = Some (json_dumps_keywords
                       (ConvertPickleToBinary.keyword
                          <$> ConvertPickleToBinary.keywords m)).
Proof.
  intros Hcs Hf1 Hp1 Hf2 Hp2. unfold completes.
  rewrite (extract_pickle_run ks emb bs2) by done.
  destruct (write_file_spec ExtractPickleTemp.output_path
              (json_dumps_keywords ks) w2)
    as (r & w3 & Hw & _ & _ & Hfr & Hr).
  rewrite Hw. split.
  - intros Hq. destruct r as [[]|e]; [by exists w3|].
    destruct Hr as (_ & Hb & _). destruct Hb. by apply quiet_benign.
  - intros w2' [= -> <-]. destruct Hr as [_ Hout].
    split; [done|]. split; [done|]. intros w1' Hrun1.
    apply (main_success _ _ ks emb bs1) in Hrun1 as (_ & Hm & _); [|done..].
    eexists. split; [exact Hm|].
    cbn [ConvertPickleToBinary.manifest ConvertPickleToBinary.keywords].
    by rewrite keywords_of_index.
Qed.

(** X11.  Both one-shot scripts fail before writing anything when the
    pickle is missing ([FileNotFoundError]), when [pickle.load] raises (the
    exception is the script's, whatever its class) or when the container
    lacks [embeddings] ([KeyError('embeddings')]);
    [extract-pickle-temp.py] reads [embeddings] first, so it fails in that
    way even when [keywords], all it writes, is there, and raises
    [KeyError('keywords')] only when [embeddings] is there. *)
Theorem X11_one_shot_failures (w : world) :
  (files w !! LoadEmbeddingsTemp.pickle_path = None →
   LoadEmbeddingsTemp.script pickle_loads w = (Raise FileNotFoundError, w) ∧
   ExtractPickleTemp.script pickle_loads json_dumps_keywords w
   = (Raise FileNotFoundError, w)) ∧
  (∀ bs, files w !! LoadEmbeddingsTemp.pickle_path = Some bs →
     (∀ e, pickle_loads bs = Raise e →
      LoadEmbeddingsTemp.script pickle_loads w = (Raise e, w) ∧
      ExtractPickleTemp.script pickle_loads json_dumps_keywords w
      = (Raise e, w)) ∧
     (∀ kws, pickle_loads bs = Ok (Database kws None) →
      LoadEmbeddingsTemp.script pickle_loads w
      = (Raise (KeyError "embeddings"), w) ∧
      ExtractPickleTemp.script pickle_loads json_dumps_keywords w
      = (Raise (KeyError "embeddings"), w)) ∧
     (∀ emb, pickle_loads bs = Ok (Database None (Some emb)) →
      ExtractPickleTemp.script pickle_loads json_dumps_keywords w
      = (Raise (KeyError "keywords"), w))).
Proof.
  unfold LoadEmbeddingsTemp.script, ExtractPickleTemp.script, read_file,
    unpickle, get_embeddings, get_keywords.
  change ExtractPickleTemp.pickle_path with LoadEmbeddingsTemp.pickle_path.
  run_step. split.
  - intros ->. done.
  - intros bs ->. split; [by intros e ->|]. split.
    + by intros kws ->.
    + by intros emb ->.
Qed.

End TempScripts.

(** A pickle without [keywords]: [load-embeddings-temp.py] still writes
    the 24 bytes of the matrix of the spec's scenario. *)
Lemma X8_embeddings_bin_witness :
  ∃ w',
    LoadEmbeddingsTemp.script (Dtype0 := Sample.wrap32)
      Sample2.pickle_loads_bare Sample.loaded = (Ok (), w') ∧
    (∀ p, p ≠ LoadEmbeddingsTemp.output_path →
          files w' !! p = files Sample.loaded !! p) ∧
    ∃ bytes,
      files w' !! LoadEmbeddingsTemp.output_path = Some bytes ∧
      len bytes = len (rows Sample.embeddings)
                  * Z.of_nat (ncols Sample.embeddings) * 4 ∧
      (∀ (r col k : nat) row x,
         rows Sample.embeddings !! r = Some row → row !! col = Some x →
         (k < 4)%nat →
         bytes !! ((r * ncols Sample.embeddings + col) * 4 + k)%nat
         = Some (le_byte (to_float32 (Dtype := Sample.wrap32) x)
                   (Z.of_nat k))) ∧
      ((0 < ncols Sample.embeddings)%nat →
       read_chunks (files w') (ncols Sample.embeddings)
         [LoadEmbeddingsTemp.output_path]
       = Some (rows (astype_float32 (H := Sample.wrap32) Sample.embeddings))).
Proof.
  eexists. split; [apply run_ok; vm_compute; reflexivity|].
  apply (proj2 (X8_embeddings_bin (Dtype0 := Sample.wrap32)
                  Sample2.pickle_loads_bare None Sample.embeddings
                  Sample.pickle Sample.loaded eq_refl eq_refl
                  ltac:(repeat constructor))).
  apply run_ok. vm_compute. reflexivity.
Defined.

(** The scenario of the spec: the two chunk files, end to end, are
    [embeddings.bin]. *)
Lemma X9_chunks_make_embeddings_bin_witness :
  ∃ w1' w2',
    ConvertPickleToBinary.main_with (Dtype0 := Sample.wrap32)
      Sample.pickle_loads Sample.dumps_B 2 2 Sample.loaded = (Ok (), w1') ∧
    LoadEmbeddingsTemp.script (Dtype0 := Sample.wrap32) Sample.pickle_loads
      Sample.loaded_later = (Ok (), w2') ∧
    ∃ m chunk_files,
      files w1' !! ConvertPickleToBinary.metadata_path
        = Some (Sample.dumps_B m) ∧
      mapM (λ c, files w1' !! chunk_path_B c) (ConvertPickleToBinary.chunks m)
        = Some chunk_files ∧
      files w2' !! LoadEmbeddingsTemp.output_path = Some (concat chunk_files).
Proof.
  eexists _, _. split; [apply run_ok; vm_compute; reflexivity|].
  split; [apply run_ok; vm_compute; reflexivity|].
  apply (X9_chunks_make_embeddings_bin (Dtype0 := Sample.wrap32)
           Sample.pickle_loads Sample.dumps_B Sample.keywords
           Sample.embeddings 2 2 Sample.pickle Sample.pickle
           Sample.loaded Sample.loaded_later);
    [lia|reflexivity|reflexivity|reflexivity|reflexivity
    |apply run_ok; vm_compute; reflexivity
    |apply run_ok; vm_compute; reflexivity].
Defined.

(** The scenario of the spec: the list written is ["a"; "b"; "c"]. *)
Lemma X10_keywords_list_witness :
  ∃ w2',
    ExtractPickleTemp.script Sample.pickle_loads Sample2.dumps_keywords
      Sample.loaded = (Ok (), w2') ∧
    files w2' !! ExtractPickleTemp.output_path
      = Some (Sample2.dumps_keywords Sample.keywords) ∧
    (∀ p, p ≠ ExtractPickleTemp.output_path →
          files w2' !! p = files Sample.loaded !! p) ∧
    ∀ w1', ConvertPickleToBinary.main_with (Dtype0 := Sample.wrap32)
             Sample.pickle_loads Sample.dumps_B 2 2 Sample.loaded_later
             = (Ok (), w1') →
      ∃ m, files w1' !! ConvertPickleToBinary.metadata_path
             = Some (Sample.dumps_B m) ∧
           files w2' !! ExtractPickleTemp.output_path
             = Some (Sample2.dumps_keywords
                       (ConvertPickleToBinary.keyword
                          <$> ConvertPickleToBinary.keywords m)).
Proof.
  eexists. split; [apply run_ok; vm_compute; reflexivity|].
  apply (proj2 (X10_keywords_list (Dtype0 := Sample.wrap32)
                  Sample.pickle_loads Sample.dumps_B Sample2.dumps_keywords
                  Sample.keywords Sample.embeddings 2 2 Sample.pickle
                  Sample.pickle Sample.loaded_later Sample.loaded
                  ltac:(lia) eq_refl eq_refl eq_refl eq_refl)).
  apply run_ok. vm_compute. reflexivity.
Defined.

(** ** attached_assets/convert_vector_database: the other exporters *)

Section Formats.

Context {T DF : Type} `{!Dtype T}.
Context (pickle_loads : list Z → result (VectorDatabaseFormats.container T DF)).
Context (json_dumps_chunks : ConvertVectorDatabase.metadata → list Z).
Context (json_dumps_data : VectorDatabaseFormats.json_data T → list Z).
Context (json_dumps_csv : VectorDatabaseFormats.csv_metadata → list Z).
Context (to_csv : DF → list Z).
Context (np_save : ndarray T → list Z).

Local Abbreviation convert_to_json_format :=
  (VectorDatabaseFormats.convert_to_json_format json_dumps_data).
Local Abbreviation convert_to_csv_and_binary :=
  (VectorDatabaseFormats.convert_to_csv_and_binary json_dumps_csv to_csv
     np_save).
Local Abbreviation main :=
  (VectorDatabaseFormats.main pickle_loads json_dumps_chunks json_dumps_data
     json_dumps_csv to_csv np_save).

Lemma write_file_quiet p data w :
  quiet w →
  ∃ w', write_file p data w = (Ok (), w') ∧ quiet w'.
Proof.
  unfold write_file, quiet. intros Hq.
  destruct (faults w) as [|f rest] eqn:Hf.
  - eexists. split; [reflexivity|]. simpl. constructor.
  - apply Forall_cons_1 in Hq as [-> Hq]. eexists. split; [reflexivity|].
    simpl. done.
Qed.

Lemma convert_quiet ks emb dir cs w :
  cs ≠ 0 → can_makedirs w dir → quiet w →
  ∃ w', ConvertVectorDatabase.convert_to_binary_chunks json_dumps_chunks
          (Database (Some ks) (Some emb)) dir cs w = (Ok (), w') ∧ quiet w'.
Proof.
  intros Hcs Hmk Hq.
  unfold ConvertVectorDatabase.convert_to_binary_chunks,
    get_keywords, get_embeddings, floordiv.
  cbn [db_keywords db_embeddings]. run_step. rewrite makedirs_ok by done.
  rewrite decide_False by done. run_step.
  set (n := (len ks + cs - 1) / cs).
  set (m0 := ConvertVectorDatabase.Metadata _ _ _ _ _ []).
  destruct (write_loop (ConvertVectorDatabase.write_chunk ks emb dir cs (len ks))
              (ConvertVectorDatabase.chunk_path dir)
              (ConvertVectorDatabase.chunk_bytes emb cs (len ks))
              (λ i a, ConvertVectorDatabase.append_chunk a
                        (ConvertVectorDatabase.chunk_info_at ks cs i))
              (range n))
    with (acc := m0) (w := w) as (r & w1 & Hrun & _ & _ & Hr).
  { intros i acc w0 _. reflexivity. }
  { apply NoDup_fmap_range. intros i j Hi Hj. by apply chunk_path_inj. }
  rewrite Hrun. destruct r as [m|e].
  - destruct Hr as (_ & _ & Hfa & _).
    assert (Hq1 : quiet w1).
    { unfold quiet. rewrite Hfa. by apply Forall_drop. }
    destruct (write_file_quiet (path_join dir "metadata.json")
                (json_dumps_chunks m) w1 Hq1) as (w2 & -> & Hq2).
    by exists w2.
  - destruct Hr as [_ Hb]. destruct Hb. by apply quiet_benign.
Qed.

(** No run of [convert_to_binary_chunks] changes what the operating system
    refuses. *)
Lemma convert_refused ks emb dir cs w :
  cs ≠ 0 →
  refused (ConvertVectorDatabase.convert_to_binary_chunks json_dumps_chunks
             (Database (Some ks) (Some emb)) dir cs w).2 = refused w.
Proof.
  intros Hcs.
  destruct (makedirs_cases dir w) as [Hmk|[e Hmk]].
  2: { by rewrite (convert_mkdir_fails _ _ _ _ _ _ Hmk). }
  unfold ConvertVectorDatabase.convert_to_binary_chunks,
    get_keywords, get_embeddings, floordiv.
  cbn [db_keywords db_embeddings]. run_step. rewrite makedirs_ok by done.
  rewrite decide_False by done. run_step.
  set (n := (len ks + cs - 1) / cs).
  set (m0 := ConvertVectorDatabase.Metadata _ _ _ _ _ []).
  pose proof (write_loop_refused
                (ConvertVectorDatabase.write_chunk ks emb dir cs (len ks))
                (ConvertVectorDatabase.chunk_path dir)
                (ConvertVectorDatabase.chunk_bytes emb cs (len ks))
                (λ i a, ConvertVectorDatabase.append_chunk a
                          (ConvertVectorDatabase.chunk_info_at ks cs i))
                (range n) (λ i acc w0 _, eq_refl) m0 w) as Hloop.
  destruct (for_each (range n) m0 _ w) as [[m|e] w1]; [|done].
  simpl in Hloop. by rewrite write_file_refused.
Qed.

(** [convert_to_json_format] on a container with both keys is one write. *)
Lemma json_format_run ks emb p w :
  convert_to_json_format (Database (Some ks) (Some emb)) p w
  = write_file p (json_dumps_data (FormatsOutput.json_data_of ks emb)) w.
Proof. reflexivity. Qed.

(** X12.  [convert_to_json_format] reads [embeddings] before [keywords]
    and fails on a missing key before it opens the file.  With both keys
    it touches only [output_path]: on success the file is the dump of the
    keywords as stored, the rows as stored (no cast to float32),
    [total_keywords] the number of keywords (whatever the number of rows)
    and [embedding_dimension] the second axis; a failure is an [OSError]
    that leaves the old file or a prefix of the dump. *)
Theorem X12_json_export (database : database T) (output_path : string)
    (w : world) (r : result unit) (w' : world) :
  convert_to_json_format database output_path w = (r, w') →
  (∀ p, p ≠ output_path → files w' !! p = files w !! p) ∧
  (db_embeddings database = None →
   r = Raise (KeyError "embeddings") ∧ w' = w) ∧
  (∀ emb, db_embeddings database = Some emb → db_keywords database = None →
   r = Raise (KeyError "keywords") ∧ w' = w) ∧
  (∀ ks emb,
     db_keywords database = Some ks → db_embeddings database = Some emb →
     let dump := json_dumps_data (FormatsOutput.json_data_of ks emb) in
     (quiet w → r = Ok ()) ∧
     match r with
     | Ok _ => files w' !! output_path = Some dump
     | Raise e =>
         e = OSError ∧
         (files w' !! output_path = files w !! output_path ∨
          ∃ n, files w' !! output_path = Some (take n dump))
     end).
Proof.
  destruct database as [[ks|] [emb|]]; cbn [db_keywords db_embeddings].
  - rewrite json_format_run.
    destruct (write_file_spec output_path
                (json_dumps_data (FormatsOutput.json_data_of ks emb)) w)
      as (r1 & w1 & -> & _ & _ & Hfr & Hr).
    intros [= <- <-]. split; [done|]. split; [done|]. split; [done|].
    intros ? ? [= <-] [= <-]. cbn zeta. split.
    + intros Hq. destruct r1 as [[]|e]; [done|].
      destruct Hr as (_ & Hb & _). destruct Hb. by apply quiet_benign.
    + destruct r1 as [[]|e]; [by destruct Hr|]. by destruct Hr as (-> & _ & Hr).
  - intros [= <- <-]. done.
  - intros [= <- <-]. repeat split; done.
  - intros [= <- <-]. done.
Qed.

Lemma quiet_tail w w1 : faults w1 = tail (faults w) → quiet w → quiet w1.
Proof.
  unfold quiet. intros ->. destruct (faults w); [done|].
  by intros [_ ?]%Forall_cons_1.
Qed.

Lemma csv_paths_distinct dir :
  FormatsOutput.csv_path dir ≠ FormatsOutput.npy_path dir ∧
  FormatsOutput.csv_path dir ≠ FormatsOutput.metadata_path dir ∧
  FormatsOutput.npy_path dir ≠ FormatsOutput.metadata_path dir.
Proof.
  unfold FormatsOutput.csv_path, FormatsOutput.npy_path,
    FormatsOutput.metadata_path.
  repeat split; intros Heq; by apply path_join_inj in Heq.
Qed.

(** Every run of [convert_to_csv_and_binary] into a directory that is
    there or can be made. *)
Lemma csv_export_made (database : VectorDatabaseFormats.container T DF)
    (output_dir : string) (w : world) (r : result unit) (w' : world) :
  can_makedirs w output_dir →
  convert_to_csv_and_binary database output_dir w = (r, w') →
  let csv := FormatsOutput.csv_path output_dir in
  let npy := FormatsOutput.npy_path output_dir in
  let meta := FormatsOutput.metadata_path output_dir in
  (∀ p, p ≠ csv → p ≠ npy → p ≠ meta → files w' !! p = files w !! p) ∧
  (VectorDatabaseFormats.db_keywords_df database = None →
   r = Raise (KeyError "keywords_df") ∧ w' = w) ∧
  (r = Ok () →
   ∃ df emb ks,
     database = VectorDatabaseFormats.Container
                  (Database (Some ks) (Some emb)) (Some df) ∧
     files w' !! csv = Some (to_csv df) ∧
     files w' !! npy = Some (np_save emb) ∧
     files w' !! meta
       = Some (json_dumps_csv (FormatsOutput.csv_metadata_of ks emb))) ∧
  (files w' !! meta ≠ files w !! meta →
   ∃ df emb,
     VectorDatabaseFormats.db_keywords_df database = Some df ∧
     db_embeddings (VectorDatabaseFormats.dict database) = Some emb ∧
     files w' !! csv = Some (to_csv df) ∧
     files w' !! npy = Some (np_save emb)) ∧
  (quiet w →
   ∀ df, VectorDatabaseFormats.db_keywords_df database = Some df →
     files w' !! csv = Some (to_csv df) ∧
     match db_embeddings (VectorDatabaseFormats.dict database),
           db_keywords (VectorDatabaseFormats.dict database) with
     | None, _ =>
         r = Raise (KeyError "embeddings") ∧
         files w' !! npy = files w !! npy ∧
         files w' !! meta = files w !! meta
     | Some emb, None =>
         r = Raise (KeyError "keywords") ∧
         files w' !! npy = Some (np_save emb) ∧
         files w' !! meta = files w !! meta
     | Some emb, Some ks => r = Ok ()
     end) ∧
  (∀ e, r = Raise e →
     e = OSError ∨
     (e = KeyError "keywords_df" ∧
      VectorDatabaseFormats.db_keywords_df database = None) ∨
     (e = KeyError "embeddings" ∧
      db_embeddings (VectorDatabaseFormats.dict database) = None) ∨
     (e = KeyError "keywords" ∧
      db_keywords (VectorDatabaseFormats.dict database) = None)).
Proof.
  intros Hmk.
  destruct (csv_paths_distinct output_dir) as (Hcn & Hcm & Hnm).
  destruct database as [[kws embs] [df|]];
    unfold VectorDatabaseFormats.convert_to_csv_and_binary,
      VectorDatabaseFormats.get_keywords_df, get_embeddings, get_keywords;
    cbn [VectorDatabaseFormats.dict VectorDatabaseFormats.db_keywords_df
         db_keywords db_embeddings]; run_step;
    rewrite makedirs_ok by done; cbn beta iota.
  2: { intros [= <- <-]. cbn zeta. repeat split; try done.
       intros e [= <-]. right. by left. }
  fold (FormatsOutput.csv_path output_dir) (FormatsOutput.npy_path output_dir)
    (FormatsOutput.metadata_path output_dir).
  set (csv := FormatsOutput.csv_path output_dir) in *.
  set (npy := FormatsOutput.npy_path output_dir) in *.
  set (meta := FormatsOutput.metadata_path output_dir) in *.
  destruct (write_file_spec csv (to_csv df) w)
    as (r1 & w1 & -> & _ & Hfa1 & Hfr1 & Hr1).
  destruct r1 as [[]|e1].
  2: { intros [= <- <-]. destruct Hr1 as (-> & Hb1 & _). cbn zeta.
       split; [by intros; apply Hfr1|]. split; [done|]. split; [done|].
       split; [intros []; by apply Hfr1|].
       split; [|intros e [= <-]; by left].
       intros Hq. destruct Hb1. by apply quiet_benign. }
  destruct Hr1 as [_ Hcsv].
  destruct embs as [emb|].
  2: { intros [= <- <-]. cbn zeta.
       split; [by intros; apply Hfr1|]. split; [done|]. split; [done|].
       split; [intros []; by apply Hfr1|].
       split; [|intros e [= <-]; right; right; by left].
       intros _ ? [= <-]. split; [done|]. split; [done|].
       split; by apply Hfr1. }
  destruct (write_file_spec npy (np_save emb) w1)
    as (r2 & w2 & -> & _ & Hfa2 & Hfr2 & Hr2).
  destruct r2 as [[]|e2].
  2: { intros [= <- <-]. destruct Hr2 as (-> & Hb2 & _). cbn zeta.
       split; [by intros; rewrite Hfr2, Hfr1|]. split; [done|].
       split; [done|].
       split; [intros []; by rewrite Hfr2, Hfr1|].
       split; [|intros e [= <-]; by left].
       intros Hq. destruct Hb2. apply quiet_benign.
       by apply (quiet_tail w). }
  destruct Hr2 as [_ Hnpy].
  destruct kws as [ks|].
  2: { intros [= <- <-]. cbn zeta.
       split; [by intros; rewrite Hfr2, Hfr1|]. split; [done|].
       split; [done|].
       split; [intros []; by rewrite Hfr2, Hfr1|].
       split; [|intros e [= <-]; right; right; by right].
       intros _ ? [= <-]. split; [by rewrite Hfr2|]. split; [done|].
       split; [done|]. by rewrite Hfr2, Hfr1. }
  destruct (write_file_spec meta
              (json_dumps_csv (FormatsOutput.csv_metadata_of ks emb)) w2)
    as (r3 & w3 & Hrun3 & _ & Hfa3 & Hfr3 & Hr3).
  unfold FormatsOutput.csv_metadata_of in Hrun3. rewrite Hrun3.
  intros [= <- <-]. cbn zeta.
  assert (Hcsv3 : files w3 !! csv = Some (to_csv df)).
  { by rewrite Hfr3, Hfr2. }
  assert (Hnpy3 : files w3 !! npy = Some (np_save emb)).
  { by rewrite Hfr3. }
  split; [by intros; rewrite Hfr3, Hfr2, Hfr1|]. split; [done|].
  split; [|split; [|split]].
  - intros ->. destruct Hr3 as [_ Hmeta]. by eexists _, _, _.
  - intros _. by eexists _, _.
  - intros Hq ? [= <-]. split; [done|].
    destruct r3 as [[]|e3]; [done|]. destruct Hr3 as (_ & Hb3 & _).
    destruct Hb3. apply quiet_benign.
    apply (quiet_tail w1); [done|]. by apply (quiet_tail w).
  - intros e ->. destruct Hr3 as [-> _]. by left.
Qed.


Lemma csv_mkdir_fails (database : VectorDatabaseFormats.container T DF)
    (output_dir : string) (w : world) (e : exn) :
  mkdir_error output_dir w = Some e →
  convert_to_csv_and_binary database output_dir w = (Raise e, w).
Proof.
  intros Hmk. unfold VectorDatabaseFormats.convert_to_csv_and_binary.
  run_step. by rewrite (makedirs_raise _ _ e).
Qed.

(** X13.  [convert_to_csv_and_binary] touches only [keywords.csv],
    [embeddings.npy] and [metadata.json] of its directory.  It makes the
    directory first: when that fails, the error of [os.makedirs] is raised
    and nothing is written.  Then it writes the three files in that order,
    each key being read just before its file: without [keywords_df] nothing
    is written; without [embeddings] the CSV file is left alone on disk;
    without [keywords] the CSV file and the array are left without a
    [metadata.json].  A run that returns, and any run that changed
    [metadata.json], has written the other two files in full; a run that
    fails with the directory made and all its keys present fails with
    [OSError]. *)
Theorem X13_csv_export_stages (database : VectorDatabaseFormats.container T DF)
    (output_dir : string) (w : world) (r : result unit) (w' : world) :
  convert_to_csv_and_binary database output_dir w = (r, w') →
  let csv := FormatsOutput.csv_path output_dir in
  let npy := FormatsOutput.npy_path output_dir in
  let meta := FormatsOutput.metadata_path output_dir in
  (∀ p, p ≠ csv → p ≠ npy → p ≠ meta → files w' !! p = files w !! p) ∧
  (∀ e, mkdir_error output_dir w = Some e → r = Raise e ∧ w' = w) ∧
  (can_makedirs w output_dir →
   VectorDatabaseFormats.db_keywords_df database = None →
   r = Raise (KeyError "keywords_df") ∧ w' = w) ∧
  (r = Ok () →
   ∃ df emb ks,
     database = VectorDatabaseFormats.Container
                  (Database (Some ks) (Some emb)) (Some df) ∧
     files w' !! csv = Some (to_csv df) ∧
     files w' !! npy = Some (np_save emb) ∧
     files w' !! meta
       = Some (json_dumps_csv (FormatsOutput.csv_metadata_of ks emb))) ∧
  (files w' !! meta ≠ files w !! meta →
   ∃ df emb,
     VectorDatabaseFormats.db_keywords_df database = Some df ∧
     db_embeddings (VectorDatabaseFormats.dict database) = Some emb ∧
     files w' !! csv = Some (to_csv df) ∧
     files w' !! npy = Some (np_save emb)) ∧
  (can_makedirs w output_dir → quiet w →
   ∀ df, VectorDatabaseFormats.db_keywords_df database = Some df →
     files w' !! csv = Some (to_csv df) ∧
     match db_embeddings (VectorDatabaseFormats.dict database),
           db_keywords (VectorDatabaseFormats.dict database) with
     | None, _ =>
         r = Raise (KeyError "embeddings") ∧
         files w' !! npy = files w !! npy ∧
         files w' !! meta = files w !! meta
     | Some emb, None =>
         r = Raise (KeyError "keywords") ∧
         files w' !! npy = Some (np_save emb) ∧
         files w' !! meta = files w !! meta
     | Some emb, Some ks => r = Ok ()
     end) ∧
  (∀ e, r = Raise e →
     mkdir_error output_dir w = Some e ∨
     e = OSError ∨
     (e = KeyError "keywords_df" ∧
      VectorDatabaseFormats.db_keywords_df database = None) ∨
     (e = KeyError "embeddings" ∧
      db_embeddings (VectorDatabaseFormats.dict database) = None) ∨
     (e = KeyError "keywords" ∧
      db_keywords (VectorDatabaseFormats.dict database) = None)).
Proof.
  intros Hrun. cbn zeta.
  destruct (makedirs_cases output_dir w) as [Hmk|[e0 Hmk]].
  - pose proof (csv_export_made database output_dir w r w' Hmk Hrun) as H.
    cbn zeta in H. destruct H as (Hfr & Hnone & Hok & Hmeta & Hquiet & Hexn).
    split; [done|]. split.
    { intros e He. unfold can_makedirs in Hmk. congruence. }
    split; [by intros _|]. split; [done|]. split; [done|].
    split; [by intros _|]. intros e He. right. by apply Hexn.
  - rewrite (csv_mkdir_fails database output_dir w e0 Hmk) in Hrun.
    injection Hrun as <- <-. split; [done|]. split.
    { intros e He. rewrite Hmk in He. by injection He as <-. }
    split; [intros Hc; unfold can_makedirs in Hc; congruence|].
    split; [done|]. split; [done|].
    split; [intros Hc; unfold can_makedirs in Hc; congruence|].
    intros e [= <-]. by left.
Qed.

(** [main] once the pickle is found and decoded. *)
Lemma formats_main_loaded kws embs dfo bs w :
  files w !! VectorDatabaseFormats.pickle_path = Some bs →
  pickle_loads bs
    = Ok (VectorDatabaseFormats.Container (Database kws embs) dfo) →
  main w
  = match kws, embs with
    | None, _ => (Raise (KeyError "keywords"), w)
    | Some _, None => (Raise (KeyError "embeddings"), w)
    | Some ks, Some emb =>
        (ConvertVectorDatabase.convert_to_binary_chunks json_dumps_chunks
           (Database kws embs) FormatsOutput.chunks_dir
           ConvertVectorDatabase.default_chunk_size;;
         convert_to_json_format (Database kws embs) FormatsOutput.json_path;;
         convert_to_csv_and_binary
           (VectorDatabaseFormats.Container (Database kws embs) dfo)
           FormatsOutput.csv_dir) w
    end.
Proof.
  intros Hf Hp.
  unfold VectorDatabaseFormats.main, VectorDatabaseFormats.load_pickle_database,
    path_exists, read_file, VectorDatabaseFormats.unpickle_with,
    get_keywords, get_embeddings.
  run_step. rewrite Hf.
  rewrite bool_decide_true by eauto. cbn [negb]. rewrite Hf, Hp.
  cbn [VectorDatabaseFormats.dict db_keywords db_embeddings].
  by destruct kws, embs.
Qed.

Lemma formats_chunk_path i :
  ConvertVectorDatabase.chunk_path FormatsOutput.chunks_dir i
  = ("vector_database_chunks/chunk_" +:+ format_0d 2 i +:+ ".bin")%string.
Proof.
  unfold ConvertVectorDatabase.chunk_path.
  rewrite path_join_relative by done. reflexivity.
Qed.

(** The outputs of the three exporters and the pickle are different files. *)
Lemma formats_paths_distinct :
  let man := ConvertVectorDatabase.metadata_path FormatsOutput.chunks_dir in
  let json := FormatsOutput.json_path in
  let csv := FormatsOutput.csv_path FormatsOutput.csv_dir in
  let npy := FormatsOutput.npy_path FormatsOutput.csv_dir in
  let meta := FormatsOutput.metadata_path FormatsOutput.csv_dir in
  let pkl := VectorDatabaseFormats.pickle_path in
  (json ≠ man ∧ csv ≠ man ∧ npy ≠ man ∧ meta ≠ man ∧ pkl ≠ man) ∧
  (csv ≠ json ∧ npy ≠ json ∧ meta ≠ json ∧ pkl ≠ json) ∧
  (pkl ≠ csv ∧ pkl ≠ npy ∧ pkl ≠ meta) ∧
  ∀ i, json ≠ ConvertVectorDatabase.chunk_path FormatsOutput.chunks_dir i ∧
       csv ≠ ConvertVectorDatabase.chunk_path FormatsOutput.chunks_dir i ∧
       npy ≠ ConvertVectorDatabase.chunk_path FormatsOutput.chunks_dir i ∧
       meta ≠ ConvertVectorDatabase.chunk_path FormatsOutput.chunks_dir i ∧
       pkl ≠ ConvertVectorDatabase.chunk_path FormatsOutput.chunks_dir i.
Proof.
  cbn zeta. split; [|split; [|split]].
  - repeat split; intros Heq; vm_compute in Heq; discriminate.
  - repeat split; intros Heq; vm_compute in Heq; discriminate.
  - repeat split; intros Heq; vm_compute in Heq; discriminate.
  - intros i. rewrite formats_chunk_path.
    repeat split; intros Heq; cbv in Heq; discriminate.
Qed.

(** The directory of the CSV export is none of the files the first two
    exporters write. *)
Lemma csv_dir_not_output :
  FormatsOutput.csv_dir
    ≠ ConvertVectorDatabase.metadata_path FormatsOutput.chunks_dir ∧
  FormatsOutput.csv_dir ≠ FormatsOutput.json_path ∧
  ∀ i, FormatsOutput.csv_dir
         ≠ ConvertVectorDatabase.chunk_path FormatsOutput.chunks_dir i.
Proof.
  split; [intros Heq; vm_compute in Heq; discriminate|].
  split; [intros Heq; vm_compute in Heq; discriminate|].
  intros i. rewrite formats_chunk_path. intros Heq. cbv in Heq. discriminate.
Qed.

(** [main] on a container with [keywords] and [embeddings], up to the last
    exporter. *)
Lemma formats_main_stages ks emb dfo bs w r w' :
  files w !! VectorDatabaseFormats.pickle_path = Some bs →
  pickle_loads bs
    = Ok (VectorDatabaseFormats.Container (Database (Some ks) (Some emb)) dfo) →
  main w = (r, w') →
  let cs := ConvertVectorDatabase.default_chunk_size in
  let n := (len ks + cs - 1) / cs in
  let chunk := ConvertVectorDatabase.chunk_path FormatsOutput.chunks_dir in
  let man := ConvertVectorDatabase.metadata_path FormatsOutput.chunks_dir in
  (mkdir_error FormatsOutput.chunks_dir w = Some (match r with
                                                   | Raise e => e
                                                   | Ok _ => OSError
                                                   end) ∧
   (∃ e, r = Raise e) ∧ w' = w) ∨
  (can_makedirs w FormatsOutput.chunks_dir ∧ r = Raise OSError ∧ ¬ quiet w) ∨
  (can_makedirs w FormatsOutput.chunks_dir ∧
   ∃ w2,
     convert_to_csv_and_binary
       (VectorDatabaseFormats.Container (Database (Some ks) (Some emb)) dfo)
       FormatsOutput.csv_dir w2 = (r, w') ∧
     mkdir_error FormatsOutput.csv_dir w2
       = mkdir_error FormatsOutput.csv_dir w ∧
     (quiet w → quiet w2) ∧
     files w2 !! man
       = Some (json_dumps_chunks (ConvertVectorDatabase.manifest ks emb cs)) ∧
     (∀ i, 0 ≤ i < n →
        files w2 !! chunk i
        = Some (ConvertVectorDatabase.chunk_bytes emb cs (len ks) i)) ∧
     files w2 !! FormatsOutput.json_path
       = Some (json_dumps_data (FormatsOutput.json_data_of ks emb)) ∧
     (∀ p, p ≠ man → (∀ i, 0 ≤ i < n → p ≠ chunk i) →
           p ≠ FormatsOutput.json_path → files w2 !! p = files w !! p)).
Proof.
  intros Hf Hp. rewrite (formats_main_loaded _ _ _ bs) by done. cbn zeta.
  rewrite bind_run.
  destruct (makedirs_cases FormatsOutput.chunks_dir w) as [Hmk|[e0 Hmk]].
  2: { rewrite (convert_mkdir_fails _ _ _ _ _ _ Hmk). intros [= <- <-].
       left. eauto. }
  assert (Hcs : ConvertVectorDatabase.default_chunk_size ≠ 0) by done.
  pose proof (convert_refused ks emb FormatsOutput.chunks_dir
                ConvertVectorDatabase.default_chunk_size w Hcs) as Href1.
  destruct (convert_run json_dumps_chunks ks emb FormatsOutput.chunks_dir
              ConvertVectorDatabase.default_chunk_size w Hcs Hmk)
    as (r1 & w1 & Hrun1 & _ & Hfr1 & Hr1).
  rewrite Hrun1 in Href1 |- *. simpl in Href1.
  destruct r1 as [[]|e1].
  2: { intros [= <- <-]. destruct Hr1 as (-> & Hb & _). right. left.
       split; [done|]. split; [done|]. intros Hq. apply Hb.
       by apply quiet_benign. }
  destruct Hr1 as (_ & Hch & Hman).
  assert (Hq1 : quiet w → quiet w1).
  { intros Hq.
    destruct (convert_quiet ks emb FormatsOutput.chunks_dir
                ConvertVectorDatabase.default_chunk_size w Hcs Hmk Hq)
      as (w1' & Heq & Hq1).
    rewrite Hrun1 in Heq. by injection Heq as <-. }
  rewrite bind_run, json_format_run.
  pose proof (write_file_refused FormatsOutput.json_path
                (json_dumps_data (FormatsOutput.json_data_of ks emb)) w1)
    as Href2.
  destruct (write_file_spec FormatsOutput.json_path
              (json_dumps_data (FormatsOutput.json_data_of ks emb)) w1)
    as (r2 & w2 & Hrun2 & _ & Hfa2 & Hfr2 & Hr2).
  rewrite Hrun2 in Href2 |- *. simpl in Href2.
  destruct r2 as [[]|e2].
  2: { intros [= <- <-]. destruct Hr2 as (-> & Hb & _). right. left.
       split; [done|]. split; [done|]. intros Hq. apply Hb.
       apply quiet_benign. by apply Hq1. }
  destruct Hr2 as [_ Hjson]. intros Hrun3. right. right.
  split; [done|]. exists w2.
  destruct formats_paths_distinct
    as ((? & ? & ? & ? & ?) & (? & ? & ? & ?) & (? & ? & ?) & Hchunks).
  destruct csv_dir_not_output as (Hd1 & Hd2 & Hd3).
  assert (Hframe : ∀ p,
            p ≠ ConvertVectorDatabase.metadata_path FormatsOutput.chunks_dir →
            (∀ i, 0 ≤ i < (len ks + ConvertVectorDatabase.default_chunk_size
                           - 1) / ConvertVectorDatabase.default_chunk_size →
                  p ≠ ConvertVectorDatabase.chunk_path
                        FormatsOutput.chunks_dir i) →
            p ≠ FormatsOutput.json_path → files w2 !! p = files w !! p).
  { intros p ? ? ?. rewrite Hfr2 by done. by apply Hfr1. }
  split; [done|]. split.
  { apply mkdir_error_ext; [congruence|].
    change (strip_slashes FormatsOutput.csv_dir) with FormatsOutput.csv_dir.
    change (parents FormatsOutput.csv_dir) with (@nil string).
    intros p [->|Hin]; [|by apply elem_of_nil in Hin].
    apply Hframe; [done| |done]. intros i _. apply Hd3. }
  split; [intros Hq; apply (quiet_tail w1); [done|by apply Hq1]|].
  split; [by rewrite Hfr2|]. split.
  { intros i Hi. destruct (Hchunks i) as (? & ? & ? & ? & ?).
    rewrite Hfr2 by done. by apply Hch. }
  split; [done|]. done.
Qed.

(** X14.  With the pickle found and all three keys there, [main] completes
    when its two output directories can be created and no write fails, and
    a run that returns leaves the three formats side by side: the chunk
    export at the default chunk size of 8000 under
    [vector_database_chunks], [vector_database.json], and the three files
    under [vector_database_csv_binary].  No exporter overwrites the output
    of an earlier one, the pickle is as it was, and nothing else changed. *)
Theorem X14_main_all_formats (ks : list string) (emb : ndarray T) (df : DF)
    (bs : list Z) (w : world) :
  files w !! VectorDatabaseFormats.pickle_path = Some bs →
  pickle_loads bs
    = Ok (VectorDatabaseFormats.Container
              (Database (Some ks) (Some emb)) (Some df)) →
  (can_makedirs w FormatsOutput.chunks_dir →
   can_makedirs w FormatsOutput.csv_dir →
   quiet w → completes main w) ∧
  ∀ w', main w = (Ok (), w') →
    let cs := ConvertVectorDatabase.default_chunk_size in
    let n := (len ks + cs - 1) / cs in
    let chunk := ConvertVectorDatabase.chunk_path FormatsOutput.chunks_dir in
    let man := ConvertVectorDatabase.metadata_path FormatsOutput.chunks_dir in
    let json := FormatsOutput.json_path in
    let csv := FormatsOutput.csv_path FormatsOutput.csv_dir in
    let npy := FormatsOutput.npy_path FormatsOutput.csv_dir in
    let meta := FormatsOutput.metadata_path FormatsOutput.csv_dir in
    files w' !! man
      = Some (json_dumps_chunks (ConvertVectorDatabase.manifest ks emb cs)) ∧
    (∀ i, 0 ≤ i < n →
       files w' !! chunk i
       = Some (ConvertVectorDatabase.chunk_bytes emb cs (len ks) i)) ∧
    files w' !! json
      = Some (json_dumps_data (FormatsOutput.json_data_of ks emb)) ∧
    files w' !! csv = Some (to_csv df) ∧
    files w' !! npy = Some (np_save emb) ∧
    files w' !! meta
      = Some (json_dumps_csv (FormatsOutput.csv_metadata_of ks emb)) ∧
    files w' !! VectorDatabaseFormats.pickle_path = Some bs ∧
    (∀ p, p ≠ man → (∀ i, 0 ≤ i < n → p ≠ chunk i) → p ≠ json →
          p ≠ csv → p ≠ npy → p ≠ meta →
          files w' !! p = files w !! p).
Proof.
  intros Hf Hp. split.
  - intros Hmk1 Hmk2 Hq. unfold completes.
    destruct (main w) as [r w'] eqn:Hrun.
    pose proof (formats_main_stages ks emb (Some df) bs w r w' Hf Hp Hrun)
      as H. cbn zeta in H.
    destruct H as [(Hmk & _)|[(_ & _ & Hnq)|(_ & w2 & Hrun3 & Hmk3 & Hq2 & _)]].
    + unfold can_makedirs in Hmk1. congruence.
    + done.
    + assert (Hmk2' : can_makedirs w2 FormatsOutput.csv_dir).
      { unfold can_makedirs in *. congruence. }
      pose proof (csv_export_made _ _ _ _ _ Hmk2' Hrun3) as H.
      cbn zeta in H. destruct H as (_ & _ & _ & _ & Hquiet & _).
      destruct (Hquiet (Hq2 Hq) df eq_refl) as [_ Hr]. cbn in Hr. subst r.
      by exists w'.
  - intros w' Hrun.
    pose proof (formats_main_stages ks emb (Some df) bs w (Ok ()) w' Hf Hp
                  Hrun) as H. cbn zeta in H.
    destruct H as [(_ & [e [=]] & _)|[(_ & [=] & _)
      |(_ & w2 & Hrun3 & Hmk3 & _ & Hman & Hch & Hjson & Hfr2)]].
    assert (Hmk2' : can_makedirs w2 FormatsOutput.csv_dir).
    { destruct (makedirs_cases FormatsOutput.csv_dir w2) as [?|[e He]];
        [done|].
      by rewrite (csv_mkdir_fails _ _ _ _ He) in Hrun3. }
    pose proof (csv_export_made _ _ _ _ _ Hmk2' Hrun3) as H.
    cbn zeta in H. destruct H as (Hfr3 & _ & Hok & _).
    destruct (Hok eq_refl)
      as (df' & emb' & ks' & [= <- <- <-] & Hcsv & Hnpy & Hmeta).
    destruct formats_paths_distinct
      as ((? & ? & ? & ? & ?) & (? & ? & ? & ?) & (? & ? & ?) & Hchunks).
    cbn zeta. split; [by rewrite Hfr3|]. split.
    { intros i Hi. destruct (Hchunks i) as (? & ? & ? & ? & ?).
      rewrite Hfr3 by done. by apply Hch. }
    split; [by rewrite Hfr3|]. split; [done|]. split; [done|].
    split; [done|]. split.
    { rewrite Hfr3 by done. rewrite Hfr2; [done|done| |done].
      intros i _. by destruct (Hchunks i) as (? & ? & ? & ? & ?). }
    intros p ? ? ? ? ? ?. rewrite Hfr3 by done. by apply Hfr2.
Qed.

(** X15.  [main] raises only when the pickle is there: a missing pickle is
    reported and [main] returns.  Before anything is written it raises the
    exception of [pickle.load], the [KeyError] of a missing [keywords] or
    [embeddings], or the error of [os.makedirs] for
    [vector_database_chunks].  Once writing it raises the [OSError] of a
    write the operating system refused.  A missing [keywords_df], or a
    [vector_database_csv_binary] that cannot be made, is found only by the
    last exporter, after the chunk export and the JSON file were written in
    full. *)
Theorem X15_main_exceptions (w : world) (e : exn) (w' : world) :
  main w = (Raise e, w') →
  is_Some (files w !! VectorDatabaseFormats.pickle_path) ∧
  ((w' = w ∧
    ((∃ bs, files w !! VectorDatabaseFormats.pickle_path = Some bs ∧
            pickle_loads bs = Raise e) ∨
     e = KeyError "keywords" ∨ e = KeyError "embeddings" ∨
     mkdir_error FormatsOutput.chunks_dir w = Some e)) ∨
   (e = OSError ∧ ¬ quiet w) ∨
   (let cs := ConvertVectorDatabase.default_chunk_size in
    ∃ bs ks emb dfo,
      files w !! VectorDatabaseFormats.pickle_path = Some bs ∧
      pickle_loads bs
        = Ok (VectorDatabaseFormats.Container
                (Database (Some ks) (Some emb)) dfo) ∧
      (mkdir_error FormatsOutput.csv_dir w = Some e ∨
       (dfo = None ∧ e = KeyError "keywords_df")) ∧
      files w' !! ConvertVectorDatabase.metadata_path FormatsOutput.chunks_dir
        = Some (json_dumps_chunks (ConvertVectorDatabase.manifest ks emb cs)) ∧
      (∀ i, 0 ≤ i < (len ks + cs - 1) / cs →
         files w' !! ConvertVectorDatabase.chunk_path FormatsOutput.chunks_dir i
         = Some (ConvertVectorDatabase.chunk_bytes emb cs (len ks) i)) ∧
      files w' !! FormatsOutput.json_path
        = Some (json_dumps_data (FormatsOutput.json_data_of ks emb)) ∧
      files w' !! FormatsOutput.csv_path FormatsOutput.csv_dir
        = files w !! FormatsOutput.csv_path FormatsOutput.csv_dir ∧
      files w' !! FormatsOutput.npy_path FormatsOutput.csv_dir
        = files w !! FormatsOutput.npy_path FormatsOutput.csv_dir ∧
      files w' !! FormatsOutput.metadata_path FormatsOutput.csv_dir
        = files w !! FormatsOutput.metadata_path FormatsOutput.csv_dir)).
Proof.
  destruct (files w !! VectorDatabaseFormats.pickle_path) as [bs|] eqn:Hf.
  2: { unfold VectorDatabaseFormats.main, path_exists. run_step.
       rewrite Hf. rewrite bool_decide_false by (by intros [? ?]).
       cbn [negb]. discriminate. }
  destruct (pickle_loads bs) as [[[kws embs] dfo]|e0] eqn:Hp.
  2: { unfold VectorDatabaseFormats.main,
         VectorDatabaseFormats.load_pickle_database, path_exists, read_file,
         VectorDatabaseFormats.unpickle_with.
       run_step. rewrite Hf. rewrite bool_decide_true by eauto.
       cbn [negb]. rewrite Hf, Hp. intros [= <- <-].
       split; [eauto|]. left. split; [done|]. left. by eauto. }
  destruct kws as [ks|].
  2: { rewrite (formats_main_loaded None embs dfo bs) by done.
       intros [= <- <-]. split; [eauto|]. left. by eauto. }
  destruct embs as [emb|].
  2: { rewrite (formats_main_loaded (Some ks) None dfo bs) by done.
       intros [= <- <-]. split; [eauto|]. left. by eauto 10. }
  intros Hrun. split; [eauto|].
  pose proof (formats_main_stages ks emb dfo bs w (Raise e) w' Hf Hp Hrun)
    as H. cbn zeta in H.
  destruct H as [(Hmk & _ & ->)|[(_ & [= ->] & Hnq)
    |(_ & w2 & Hrun3 & Hmk3 & Hq2 & Hman & Hch & Hjson & Hfr2)]].
  { left. by eauto 10. }
  { right. by left. }
  destruct formats_paths_distinct
    as ((? & ? & ? & ? & ?) & (? & ? & ? & ?) & (? & ? & ?) & Hchunks).
  assert (Hrest :
    files w2 !! FormatsOutput.csv_path FormatsOutput.csv_dir
      = files w !! FormatsOutput.csv_path FormatsOutput.csv_dir ∧
    files w2 !! FormatsOutput.npy_path FormatsOutput.csv_dir
      = files w !! FormatsOutput.npy_path FormatsOutput.csv_dir ∧
    files w2 !! FormatsOutput.metadata_path FormatsOutput.csv_dir
      = files w !! FormatsOutput.metadata_path FormatsOutput.csv_dir).
  { repeat split; (apply Hfr2; [done| |done]); intros i _;
      by destruct (Hchunks i) as (? & ? & ? & ? & ?). }
  destruct (makedirs_cases FormatsOutput.csv_dir w2) as [Hmk2|[e2 Hmk2]].
  2: { rewrite (csv_mkdir_fails _ _ _ _ Hmk2) in Hrun3.
       injection Hrun3 as <- <-. right. right. cbn zeta.
       exists bs, ks, emb, dfo. split; [done|]. split; [done|].
       split; [left; congruence|]. done. }
  pose proof (csv_export_made _ _ _ _ _ Hmk2 Hrun3) as Hcsv.
  cbn zeta in Hcsv. destruct Hcsv as (_ & Hnone & _ & _ & Hquiet & Hexn).
  cbn [VectorDatabaseFormats.dict VectorDatabaseFormats.db_keywords_df
       db_keywords db_embeddings] in Hnone, Hquiet, Hexn.
  destruct (Hexn e eq_refl) as [->|[[-> ->]|[[_ [=]]|[_ [=]]]]].
  - right. left. split; [done|]. intros Hq.
    destruct dfo as [df|].
    + by destruct (Hquiet (Hq2 Hq) df eq_refl) as [_ [=]].
    + by destruct (Hnone eq_refl) as [[=] _].
  - destruct (Hnone eq_refl) as [_ ->]. right. right. cbn zeta.
    exists bs, ks, emb, None. split; [done|]. split; [done|].
    split; [by right|]. done.
Qed.

End Formats.

(** The JSON export of the spec's scenario on an empty disk. *)
Lemma X12_json_export_witness :
  ∃ w',
    VectorDatabaseFormats.convert_to_json_format SampleFormats.dumps_data
      Sample.db "vector_database.json" Sample.fresh = (Ok (), w') ∧
    files w' !! "vector_database.json"%string
    = Some (SampleFormats.dumps_data
              (FormatsOutput.json_data_of Sample.keywords Sample.embeddings)).
Proof.
  eexists. split; [apply run_ok; vm_compute; reflexivity|].
  refine (proj2 (proj2 (proj2 (proj2
            (X12_json_export SampleFormats.dumps_data Sample.db
               "vector_database.json" Sample.fresh (Ok ()) _ _)))
            Sample.keywords Sample.embeddings eq_refl eq_refl)).
  apply run_ok. vm_compute. reflexivity.
Defined.

(** The CSV export of the spec's scenario on an empty disk. *)
Lemma X13_csv_export_stages_witness :
  ∃ w',
    VectorDatabaseFormats.convert_to_csv_and_binary SampleFormats.dumps_csv
      SampleFormats.to_csv SampleFormats.np_save SampleFormats.container
      "out" Sample.fresh = (Ok (), w') ∧
    ∃ df emb ks,
      SampleFormats.container
      = VectorDatabaseFormats.Container (Database (Some ks) (Some emb))
          (Some df) ∧
      files w' !! FormatsOutput.csv_path "out" = Some (SampleFormats.to_csv df) ∧
      files w' !! FormatsOutput.npy_path "out"
        = Some (SampleFormats.np_save emb) ∧
      files w' !! FormatsOutput.metadata_path "out"
        = Some (SampleFormats.dumps_csv (FormatsOutput.csv_metadata_of ks emb)).
Proof.
  eexists. split; [apply run_ok; vm_compute; reflexivity|].
  refine (proj1 (proj2 (proj2 (proj2
            (X13_csv_export_stages SampleFormats.dumps_csv SampleFormats.to_csv
               SampleFormats.np_save SampleFormats.container "out"
               Sample.fresh (Ok ()) _ _)))) eq_refl).
  apply run_ok. vm_compute. reflexivity.
Defined.

(** [main] on the spec's scenario: the pickle survives, and the JSON file
    is there next to it. *)
Lemma X14_main_all_formats_witness :
  completes (VectorDatabaseFormats.main (Dtype0 := Sample.wrap32)
               SampleFormats.pickle_loads Sample.dumps_A
               SampleFormats.dumps_data SampleFormats.dumps_csv
               SampleFormats.to_csv SampleFormats.np_save)
    SampleFormats.loaded ∧
  ∃ w',
    VectorDatabaseFormats.main (Dtype0 := Sample.wrap32)
      SampleFormats.pickle_loads Sample.dumps_A SampleFormats.dumps_data
      SampleFormats.dumps_csv SampleFormats.to_csv SampleFormats.np_save
      SampleFormats.loaded = (Ok (), w') ∧
    files w' !! FormatsOutput.json_path
      = Some (SampleFormats.dumps_data
                (FormatsOutput.json_data_of Sample.keywords
                   Sample.embeddings)) ∧
    files w' !! VectorDatabaseFormats.pickle_path = Some Sample.pickle.
Proof.
  destruct (X14_main_all_formats (Dtype0 := Sample.wrap32)
              SampleFormats.pickle_loads Sample.dumps_A
              SampleFormats.dumps_data SampleFormats.dumps_csv
              SampleFormats.to_csv SampleFormats.np_save
              Sample.keywords Sample.embeddings SampleFormats.keywords_df
              Sample.pickle SampleFormats.loaded eq_refl eq_refl)
    as [Hcompletes Hfiles].
  split; [apply Hcompletes; [vm_compute; reflexivity..|constructor]|].
  eexists. split; [apply run_ok; vm_compute; reflexivity|].
  refine (let H := Hfiles _ _ in
          conj (proj1 (proj2 (proj2 H)))
               (proj1 (proj2 (proj2 (proj2 (proj2 (proj2 (proj2 H)))))))).
  apply run_ok. vm_compute. reflexivity.
Defined.

(** A pickle without [keywords_df]: [main] fails in the last exporter,
    with the pickle in place and a write having been possible. *)
Lemma X15_main_exceptions_witness :
  ∃ w',
    VectorDatabaseFormats.main (Dtype0 := Sample.wrap32)
      SampleFormats.pickle_loads_bare Sample.dumps_A SampleFormats.dumps_data
      SampleFormats.dumps_csv SampleFormats.to_csv SampleFormats.np_save
      SampleFormats.loaded = (Raise (KeyError "keywords_df"), w') ∧
    is_Some (files SampleFormats.loaded !! VectorDatabaseFormats.pickle_path).
Proof.
  eexists. split; [apply run_raise; vm_compute; reflexivity|].
  refine (proj1 (X15_main_exceptions (Dtype0 := Sample.wrap32)
                   SampleFormats.pickle_loads_bare Sample.dumps_A
                   SampleFormats.dumps_data SampleFormats.dumps_csv
                   SampleFormats.to_csv SampleFormats.np_save
                   SampleFormats.loaded (KeyError "keywords_df") _ _)).
  apply run_raise. vm_compute. reflexivity.
Defined.

(** ** Running an exporter again over its own output *)

Section Rerun.

Context {T : Type} `{!Dtype T}.
Context (pickle_loads : list Z → result (database T)).
Context (json_dumps_A : ConvertVectorDatabase.metadata → list Z).
Context (json_dumps_B : ConvertPickleToBinary.metadata → list Z).

(** X16.  Exporting the same data again over the files of a run that
    returned rewrites every file with the bytes it already has:
    [convert_to_binary_chunks] leaves the disk exactly as the first run
    left it, and the script changes at most its manifest, and not even
    that when the clock reads the same. *)
Theorem X16_rerun_in_place (ks : list string) (emb : ndarray T) (dir : string)
    (cs dim : Z) (bs : list Z) (wA wA1 wB wB1 : world) :
  0 < cs →
  files wB !! ConvertPickleToBinary.pickle_path = Some bs →
  pickle_loads bs = Ok (Database (Some ks) (Some emb)) →
  ConvertVectorDatabase.convert_to_binary_chunks json_dumps_A
    (Database (Some ks) (Some emb)) dir cs wA = (Ok (), wA1) →
  ConvertPickleToBinary.main_with pickle_loads json_dumps_B cs dim wB
    = (Ok (), wB1) →
  (∀ w w',
     files w = files wA1 →
     ConvertVectorDatabase.convert_to_binary_chunks json_dumps_A
       (Database (Some ks) (Some emb)) dir cs w = (Ok (), w') →
     files w' = files wA1) ∧
  (∀ w w',
     files w = files wB1 →
     ConvertPickleToBinary.main_with pickle_loads json_dumps_B cs dim w
       = (Ok (), w') →
     (∀ p, p ≠ ConvertPickleToBinary.metadata_path →
           files w' !! p = files wB1 !! p) ∧
     (clock w = clock wB → files w' = files wB1)).
Proof.
  intros Hcs Hf Hp HrunA HrunB.
  assert (Hcs0 : cs ≠ 0) by lia. split.
  - intros w w' Hfiles Hrun. apply map_eq. intros p.
    apply convert_success in HrunA as [Hm1 Hc1]; [|done].
    pose proof (convert_success _ _ _ _ _ _ _ Hcs0 Hrun) as [Hm2 Hc2].
    destruct (decide (p = ConvertVectorDatabase.metadata_path dir))
      as [->|Hne]; [by rewrite Hm1, Hm2|].
    destruct (name_in_range (ConvertVectorDatabase.chunk_path dir)
                ((len ks + cs - 1) / cs) p) as [(i & Hi & ->)|Hno].
    + by rewrite Hc1, Hc2.
    + rewrite (convert_frame _ _ _ _ _ _ _ _ p Hcs0 Hrun Hne Hno).
      by rewrite Hfiles.
  - intros w w' Hfiles Hrun.
    assert (Hf1 : files w !! ConvertPickleToBinary.pickle_path = Some bs).
    { rewrite Hfiles, <- Hf.
      apply (main_frame pickle_loads json_dumps_B ks emb bs cs dim wB (Ok ()));
        [done..| |].
      - discriminate.
      - intros i _. unfold ConvertPickleToBinary.chunk_path.
        rewrite path_join_relative by done. discriminate. }
    pose proof (main_success _ _ _ _ _ _ _ _ _ Hf Hp Hcs HrunB)
      as (_ & Hm1 & Hc1).
    pose proof (main_success _ _ _ _ _ _ _ _ _ Hf1 Hp Hcs Hrun)
      as (_ & Hm2 & Hc2).
    assert (Hrest : ∀ p, p ≠ ConvertPickleToBinary.metadata_path →
              files w' !! p = files wB1 !! p).
    { intros p Hne.
      destruct (name_in_range ConvertPickleToBinary.chunk_path
                  ((len ks + cs - 1) / cs) p) as [(i & Hi & ->)|Hno].
      - by rewrite Hc1, Hc2.
      - rewrite (main_frame pickle_loads json_dumps_B ks emb bs cs dim w
                   (Ok ()) w' p Hf1 Hp Hcs Hrun Hne Hno).
        by rewrite Hfiles. }
    split; [done|]. intros Hclock. apply map_eq. intros p.
    destruct (decide (p = ConvertPickleToBinary.metadata_path)) as [->|Hne];
      [|by apply Hrest].
    by rewrite Hm1, Hm2, Hclock.
Qed.

End Rerun.

(** The scenario of the spec, run twice. *)
Lemma X16_rerun_in_place_witness :
  ∃ wA1 wB1,
    ConvertVectorDatabase.convert_to_binary_chunks (Dtype0 := Sample.wrap32)
      Sample.dumps_A Sample.db "out" 2 Sample.fresh = (Ok (), wA1) ∧
    ConvertPickleToBinary.main_with (Dtype0 := Sample.wrap32)
      Sample.pickle_loads Sample.dumps_B 2 2 Sample.loaded = (Ok (), wB1) ∧
    (∀ w w',
       files w = files wA1 →
       ConvertVectorDatabase.convert_to_binary_chunks
         (Dtype0 := Sample.wrap32) Sample.dumps_A Sample.db "out" 2 w
         = (Ok (), w') →
       files w' = files wA1) ∧
    (∀ w w',
       files w = files wB1 →
       ConvertPickleToBinary.main_with (Dtype0 := Sample.wrap32)
         Sample.pickle_loads Sample.dumps_B 2 2 w = (Ok (), w') →
       (∀ p, p ≠ ConvertPickleToBinary.metadata_path →
             files w' !! p = files wB1 !! p) ∧
       (clock w = clock Sample.loaded → files w' = files wB1)).
Proof.
  eexists _, _. split; [apply run_ok; vm_compute; reflexivity|].
  split; [apply run_ok; vm_compute; reflexivity|].
  apply (X16_rerun_in_place (Dtype0 := Sample.wrap32) Sample.pickle_loads
           Sample.dumps_A Sample.dumps_B Sample.keywords Sample.embeddings
           "out" 2 2 Sample.pickle Sample.fresh _ Sample.loaded _);
    [lia|reflexivity|reflexivity
    |apply run_ok; vm_compute; reflexivity
    |apply run_ok; vm_compute; reflexivity].
Defined.
